(** * OpenManus: MCP agent, execution loop and web session glue

    A shallow embedding of [app/agent/mcp.py] (class [MCPAgent]) and of the
    session and history code of [app/web_interface.py], followed by the
    properties of the specification that concern them.

    Conventions.
    - Python objects with mutable attributes become records that are passed
      along explicitly; a method is a function in the monad [M] below, which
      threads the agent and carries Python exceptions.
    - External collaborators (the capability server, the parent class'
      [think], the single-step function, the stuck-state hooks) are the
      fields of the class [External]; their private state is the component
      [env] of the agent record.
    - Strings are byte strings (UTF-8 for the literals of the source). *)

From Stdlib Require Import ZArith String Ascii.
From stdpp Require Import gmap strings list.

(** ** Python strings *)

Module PyStr.

(** [str.lower] on the ASCII letters; other bytes are left as they are
    (tool names are ASCII identifiers). *)
Definition lower_ascii (c : ascii) : ascii :=
  let n := nat_of_ascii c in
  if (65 <=? n)%nat && (n <=? 90)%nat then ascii_of_nat (n + 32) else c.

Fixpoint lower (s : string) : string :=
  match s with
  | EmptyString => EmptyString
  | String c r => String (lower_ascii c) (lower r)
  end.

Fixpoint startswith (p s : string) : bool :=
  match p, s with
  | EmptyString, _ => true
  | String _ _, EmptyString => false
  | String a p', String b s' => if Ascii.eqb a b then startswith p' s' else false
  end.

Fixpoint rev (s : string) : string :=
  match s with
  | EmptyString => EmptyString
  | String c r => rev r +:+ String c EmptyString
  end.

Definition endswith (suf s : string) : bool := startswith (rev suf) (rev s).

(** [sub in s] *)
Fixpoint contains (sub s : string) : bool :=
  startswith sub s ||
  match s with
  | EmptyString => false
  | String _ r => contains sub r
  end.

Fixpoint drop (n : nat) (s : string) : string :=
  match n, s with
  | O, _ => s
  | S _, EmptyString => EmptyString
  | S n', String _ r => drop n' r
  end.

(** The text before and after the first occurrence of [sep]. *)
Fixpoint partition (sep s : string) : option (string * string) :=
  if startswith sep s then Some (EmptyString, drop (String.length sep) s)
  else match s with
       | EmptyString => None
       | String c r =>
           match partition sep r with
           | Some (b, a) => Some (String c b, a)
           | None => None
           end
       end.

(** [s.split(sep)[1]], for [sep in s]. *)
Definition split_1 (sep s : string) : string :=
  match partition sep s with
  | Some (_, a) =>
      match partition sep a with
      | Some (b, _) => b
      | None => a
      end
  | None => EmptyString
  end.

(** The white space of [str.strip()]: the characters for which
    [str.isspace] holds. In ASCII these are the codes 9 to 13 and 28 to 32. *)
Definition is_space (c : ascii) : bool :=
  let n := nat_of_ascii c in
  ((9 <=? n)%nat && (n <=? 13)%nat) || ((28 <=? n)%nat && (n <=? 32)%nat).

(** The other white space characters, by the bytes of their encoding:
    U+0085 and U+00A0 take two bytes, *)
Definition is_space2 (c1 c2 : ascii) : bool :=
  let n1 := nat_of_ascii c1 in
  let n2 := nat_of_ascii c2 in
  (n1 =? 194)%nat && ((n2 =? 133)%nat || (n2 =? 160)%nat).

(** U+1680, U+2000 to U+200A, U+2028, U+2029, U+202F, U+205F and U+3000
    take three. *)
Definition is_space3 (c1 c2 c3 : ascii) : bool :=
  let n1 := nat_of_ascii c1 in
  let n2 := nat_of_ascii c2 in
  let n3 := nat_of_ascii c3 in
  ((n1 =? 225)%nat && (n2 =? 154)%nat && (n3 =? 128)%nat)
  || ((n1 =? 226)%nat && (n2 =? 128)%nat
      && (((128 <=? n3)%nat && (n3 <=? 138)%nat)
          || (n3 =? 168)%nat || (n3 =? 169)%nat || (n3 =? 175)%nat))
  || ((n1 =? 226)%nat && (n2 =? 129)%nat && (n3 =? 159)%nat)
  || ((n1 =? 227)%nat && (n2 =? 128)%nat && (n3 =? 128)%nat).

(** [str.lstrip()]: the white space characters at the front are dropped. *)
Fixpoint lstrip (s : string) : string :=
  match s with
  | EmptyString => EmptyString
  | String c1 r1 =>
      if is_space c1 then lstrip r1
      else
        match r1 with
        | EmptyString => s
        | String c2 r2 =>
            if is_space2 c1 c2 then lstrip r2
            else
              match r2 with
              | EmptyString => s
              | String c3 r3 => if is_space3 c1 c2 c3 then lstrip r3 else s
              end
        end
  end.

(** [str.rstrip()] on the string read from its end: the last byte of a
    character comes first. *)
Fixpoint lstrip_rev (s : string) : string :=
  match s with
  | EmptyString => EmptyString
  | String c1 r1 =>
      if is_space c1 then lstrip_rev r1
      else
        match r1 with
        | EmptyString => s
        | String c2 r2 =>
            if is_space2 c2 c1 then lstrip_rev r2
            else
              match r2 with
              | EmptyString => s
              | String c3 r3 => if is_space3 c3 c2 c1 then lstrip_rev r3 else s
              end
        end
  end.

(** [str.strip()] *)
Definition strip (s : string) : string := rev (lstrip_rev (rev (lstrip s))).

(** [sep.join(l)] *)
Definition join (sep : string) (l : list string) : string := String.concat sep l.

Definition nl : string := String (ascii_of_nat 10) EmptyString.

End PyStr.

(** ** Exceptions, results, log records *)

(** [app.schema.AgentState] *)
Inductive AgentState := IDLE | RUNNING | FINISHED | ERROR.

#[global] Instance AgentState_eq_dec : EqDecision AgentState.
Proof. solve_decision. Defined.

(** What a call can raise: an instance of [Exception] ([msg] is [str(e)]), or
    [asyncio.CancelledError], which derives from [BaseException] only and so
    passes through every [except Exception]. *)
Inductive exn :=
  | Exception (msg : string)
  | CancelledError.

(** The result of a call; [OutOfFuel] marks a loop that the model stopped
    unrolling. *)
Inductive Res (A : Type) :=
  | Ret (x : A)
  | Raise (e : exn)
  | OutOfFuel.
Arguments Ret {A} x.
Arguments Raise {A} e.
Arguments OutOfFuel {A}.

Inductive Role := system | user | assistant.

(** [app.schema.Message], as far as this code reads and writes it. *)
Record Message := { role : Role; content : string }.

Definition system_message (s : string) : Message := {| role := system; content := s |}.
Definition user_message (s : string) : Message := {| role := user; content := s |}.

Inductive Level := LvInfo | LvError.

(** Observable output: what [logger] receives and which observer was called
    with which text. *)
Inductive Event :=
  | Log (lv : Level) (msg : string)
  | LogNames (lv : Level) (msg : string) (names : list string)
  | LogStep (n m : Z)
  | Notify (idx : nat) (text : string)
  | Transition (s : AgentState).

(** The three ways a run ends, one per [return] of [MCPAgent.run]. *)
Inductive RunOutcome :=
  | Cancelled
  | Finished (response : string)
  | Errored (msg : string).

(** The string each [return] statement produces. *)
Definition render (o : RunOutcome) : string :=
  match o with
  | Cancelled => "任务已被用户终止"
  | Finished response => response
  | Errored msg => "执行出错: " +:+ msg
  end.

Inductive Flow := Continue | Break.

(** ** The agent *)

Section Agent.
Context {E Schema : Type} `{!EqDecision Schema}.

(** An entry of [response.tools]. *)
Record Tool := { tool_name : string; tool_inputSchema : Schema }.

(** [app.tool.mcp.MCPClients]: whether [session] is set, and [tool_map]. *)
Record MCPClients := { session : bool; tool_map : gmap string Schema }.

(** An observer: called with the text, it changes the collaborators' state
    and returns ([None]) or fails, that is, raises an instance of
    [Exception] ([Some msg], with [msg] its text). Signals that derive from
    [BaseException] only, such as [KeyboardInterrupt], are not failures of
    an observer and are not modelled. *)
Definition Callback : Type := string → E → option string * E.

(** The attributes of an [MCPAgent] that this code touches, the state of
    the collaborators, and the output produced so far. [cancel_attrs]
    tells whether [is_cancelled] and [cancel_run] are attached. *)
Record Agent := mkAgent {
  current_step : Z;
  max_steps : Z;
  state : AgentState;
  _cancelled : bool;
  cancel_attrs : bool;
  mcp_clients : option MCPClients;
  tool_schemas : gmap string Schema;
  memory : list Message;
  _thinking_callbacks : list Callback;
  env : E;
  trace : list Event
}.

Definition set_current_step (v : Z) (a : Agent) : Agent :=
  mkAgent v (max_steps a) (state a) (_cancelled a) (cancel_attrs a) (mcp_clients a)
          (tool_schemas a) (memory a) (_thinking_callbacks a) (env a) (trace a).
Definition set_state (v : AgentState) (a : Agent) : Agent :=
  mkAgent (current_step a) (max_steps a) v (_cancelled a) (cancel_attrs a) (mcp_clients a)
          (tool_schemas a) (memory a) (_thinking_callbacks a) (env a) (trace a).
Definition set_cancelled (v : bool) (a : Agent) : Agent :=
  mkAgent (current_step a) (max_steps a) (state a) v (cancel_attrs a) (mcp_clients a)
          (tool_schemas a) (memory a) (_thinking_callbacks a) (env a) (trace a).
Definition set_cancel_attrs (v : bool) (a : Agent) : Agent :=
  mkAgent (current_step a) (max_steps a) (state a) (_cancelled a) v (mcp_clients a)
          (tool_schemas a) (memory a) (_thinking_callbacks a) (env a) (trace a).
Definition set_tool_schemas (v : gmap string Schema) (a : Agent) : Agent :=
  mkAgent (current_step a) (max_steps a) (state a) (_cancelled a) (cancel_attrs a)
          (mcp_clients a) v (memory a) (_thinking_callbacks a) (env a) (trace a).
Definition set_memory (v : list Message) (a : Agent) : Agent :=
  mkAgent (current_step a) (max_steps a) (state a) (_cancelled a) (cancel_attrs a)
          (mcp_clients a) (tool_schemas a) v (_thinking_callbacks a) (env a) (trace a).
Definition set_thinking_callbacks (v : list Callback) (a : Agent) : Agent :=
  mkAgent (current_step a) (max_steps a) (state a) (_cancelled a) (cancel_attrs a)
          (mcp_clients a) (tool_schemas a) (memory a) v (env a) (trace a).
Definition set_env (v : E) (a : Agent) : Agent :=
  mkAgent (current_step a) (max_steps a) (state a) (_cancelled a) (cancel_attrs a)
          (mcp_clients a) (tool_schemas a) (memory a) (_thinking_callbacks a) v (trace a).
Definition set_trace (v : list Event) (a : Agent) : Agent :=
  mkAgent (current_step a) (max_steps a) (state a) (_cancelled a) (cancel_attrs a)
          (mcp_clients a) (tool_schemas a) (memory a) (_thinking_callbacks a) (env a) v.

(** *** The monad of methods

    A method takes the agent and gives a result and the agent as the call
    left it: what was written before an exception stays written. *)
Definition M (A : Type) : Type := Agent → Res A * Agent.

#[global] Instance M_ret : MRet M := λ A x a, (Ret x, a).
#[global] Instance M_bind : MBind M := λ A B f c a,
  match c a with
  | (Ret x, a') => f x a'
  | (Raise e, a') => (Raise e, a')
  | (OutOfFuel, a') => (OutOfFuel, a')
  end.
#[global] Instance M_fmap : FMap M := λ A B f c a,
  match c a with
  | (Ret x, a') => (Ret (f x), a')
  | (Raise e, a') => (Raise e, a')
  | (OutOfFuel, a') => (OutOfFuel, a')
  end.

Definition get : M Agent := λ a, (Ret a, a).
Definition gets {A} (f : Agent → A) : M A := λ a, (Ret (f a), a).
Definition modify (f : Agent → Agent) : M unit := λ a, (Ret tt, f a).
Definition raise {A} (e : exn) : M A := λ a, (Raise e, a).

(** [try: body except Exception as e: handler(str(e))] *)
Definition try_except {A} (body : M A) (handler : string → M A) : M A := λ a,
  match body a with
  | (Raise (Exception msg), a') => handler msg a'
  | r => r
  end.

(** [try: body finally: fin] *)
Definition try_finally {A} (body : M A) (fin : M unit) : M A := λ a,
  match body a with
  | (OutOfFuel, a') => (OutOfFuel, a')
  | (r, a') =>
      match fin a' with
      | (Ret _, a'') => (r, a'')
      | (Raise e, a'') => (Raise e, a'')
      | (OutOfFuel, a'') => (OutOfFuel, a'')
      end
  end.

Definition emit (ev : Event) : M unit :=
  modify (λ a, set_trace (trace a ++ [ev]) a).

(** [self.memory.add_message(m)] *)
Definition add_message (m : Message) : M unit :=
  modify (λ a, set_memory (memory a ++ [m]) a).

(** [self.mcp_clients.<attr>]: an [AttributeError] once [cleanup] has set
    [mcp_clients] to [None]. *)
Definition the_mcp_clients : M MCPClients := λ a,
  match mcp_clients a with
  | Some mc => (Ret mc, a)
  | None => (Raise (Exception "'NoneType' object has no attribute"), a)
  end.

(** *** External collaborators *)

Class External := {
  (** [await self.mcp_clients.session.list_tools()], as [response.tools] *)
  list_tools : E → Res (list Tool) * E;
  (** [ToolCallAgent.think], given what [logger.info] currently is *)
  super_think : (string → M unit) → M bool;
  (** [await self.step()], the single-step function; whatever happens
      while the call is pending, a [cancel_run()] included, is part of
      its effect *)
  step : M string;
  (** [self.is_stuck()] *)
  is_stuck : Agent → bool;
  (** [self.handle_stuck_state()], the recovery hook, which rewrites the
      next-step prompt kept by the collaborators *)
  handle_stuck_state : E → E;
  (** [self.memory.get_last_assistant_message()] *)
  get_last_assistant_message : list Message → option Message
}.

Context {Ext : External}.

(** *** [add_thinking_callback], [_notify_thinking] *)

Definition add_thinking_callback (callback : Callback) : M unit :=
  modify (λ a, set_thinking_callbacks (_thinking_callbacks a ++ [callback]) a).

(** One pass of the [for] loop of [_notify_thinking], from the observer of
    index [idx] on. *)
Fixpoint notify_from (idx : nat) (callbacks : list Callback) (text : string) : M unit :=
  match callbacks with
  | [] => mret tt
  | callback :: rest =>
      λ a,
        let '(r, e) := callback text (env a) in
        let a1 := set_env e (set_trace (trace a ++ [Notify idx text]) a) in
        let a2 := match r with
                  | None => a1
                  | Some msg =>
                      set_trace (trace a1 ++ [Log LvError ("Error in thinking callback: " +:+ msg)]) a1
                  end in
        notify_from (S idx) rest text a2
  end.

Definition _notify_thinking (text : string) : M unit := λ a,
  notify_from 0 (_thinking_callbacks a) text a.

(** *** [_refresh_tools] *)

(** [{tool.name: tool.inputSchema for tool in response.tools}]: a later
    entry replaces an earlier one of the same name. *)
Definition dict_of_tools (tools : list Tool) : gmap string Schema :=
  foldl (λ d t, <[tool_name t := tool_inputSchema t]> d) ∅ tools.

Definition added_of (previous current : gmap string Schema) : list string :=
  elements (dom current ∖ dom previous).

Definition removed_of (previous current : gmap string Schema) : list string :=
  elements (dom previous ∖ dom current).

(** The loop over [current_names.intersection(previous_names)]; on these
    names [current_tools[name]] and [self.tool_schemas.get(name)] are both
    present. *)
Definition changed_of (previous current : gmap string Schema) : list string :=
  filter (λ n, current !! n ≠ previous !! n) (elements (dom current ∩ dom previous)).

Definition call_list_tools : M (list Tool) := λ a,
  let '(r, e) := list_tools (env a) in (r, set_env e a).

Definition when (b : bool) (c : M unit) : M unit := if b then c else mret tt.

Definition nonempty {A} (l : list A) : bool :=
  match l with [] => false | _ => true end.

Definition _refresh_tools : M (list string * list string) :=
  mc ← the_mcp_clients;
  if negb (session mc) then mret ([], [])
  else
    tools ← call_list_tools;
    previous ← gets tool_schemas;
    let current_tools := dict_of_tools tools in
    let added_tools := added_of previous current_tools in
    let removed_tools := removed_of previous current_tools in
    let changed_tools := changed_of previous current_tools in
    modify (set_tool_schemas current_tools);;
    when (nonempty added_tools)
      (emit (LogNames LvInfo "Added MCP tools: " added_tools);;
       add_message (system_message ("New tools available: " +:+ PyStr.join ", " added_tools)));;
    when (nonempty removed_tools)
      (emit (LogNames LvInfo "Removed MCP tools: " removed_tools);;
       add_message (system_message
                      ("Tools no longer available: " +:+ PyStr.join ", " removed_tools)));;
    when (nonempty changed_tools)
      (emit (LogNames LvInfo "Changed MCP tools: " changed_tools));;
    mret (added_tools, removed_tools).

(** *** [think] *)

(** The function that replaces [logger.info] while the parent's [think]
    runs. *)
Definition info_interceptor (message : string) : M unit :=
  when (PyStr.contains "✨" message && PyStr.contains "thoughts" message)
    (_notify_thinking (PyStr.strip (PyStr.split_1 "✨" message)));;
  emit (Log LvInfo message).

Definition _refresh_tools_interval : Z := 5.

Definition end_interaction (msg : string) : M bool :=
  emit (Log LvInfo msg);;
  modify (set_state FINISHED);;
  mret false.

Definition think : M bool :=
  mc ← the_mcp_clients;
  if negb (session mc) || bool_decide (tool_map mc = ∅)
  then end_interaction "MCP service is no longer available, ending interaction"
  else
    n ← gets current_step;
    shut_down ← (if bool_decide (n `mod` _refresh_tools_interval = 0)%Z
                 then _refresh_tools;;
                      mc' ← the_mcp_clients;
                      mret (bool_decide (tool_map mc' = ∅))
                 else mret false);
    if (shut_down : bool)
    then end_interaction "MCP service has shut down, ending interaction"
    else super_think info_interceptor.

(** *** [_should_finish_execution], [special_tool_names] *)

Definition _should_finish_execution (name : string) : bool :=
  String.eqb (PyStr.lower name) "terminate".

(** The default of the field [special_tool_names]. *)
Definition special_tool_names_default : list string := ["terminate"].

(** As the specification words it: the name matches an entry of the
    configured special tool list, compared without regard to case. *)
Definition matches_special_tool (special_tool_names : list string) (name : string) : bool :=
  existsb (λ n, String.eqb (PyStr.lower n) (PyStr.lower name)) special_tool_names.

(** *** [run] *)

(** The closure [cancel_run] that [run] attaches to the agent. *)
Definition cancel_run : M unit :=
  modify (set_cancelled true);;
  modify (set_state FINISHED);;
  emit (Log LvInfo "用户取消了任务执行").

(** Modelled from the spec: [BaseAgent.state_context], the context manager
    around the loop, is not part of the sources at hand. A run is advanced
    to the given state on entry ([state_enter]); on exit ([state_exit]) an
    exception of the step function maps the state to Errored, and in every
    case the session is Idle again when the run is over, ready for the
    next prompt. *)
Definition state_enter (new_state : AgentState) (a : Agent) : Agent :=
  set_trace (trace a ++ [Transition new_state]) (set_state new_state a).

Definition state_exit {A} (left : Res A * Agent) : Res A * Agent :=
  match left with
  | (Ret x, a') =>
      (Ret x, set_trace (trace a' ++ [Transition IDLE]) (set_state IDLE a'))
  | (Raise (Exception msg), a') =>
      (Raise (Exception msg),
       set_trace (trace a' ++ [Transition ERROR; Transition IDLE]) (set_state IDLE a'))
  | (Raise CancelledError, a') =>
      (Raise CancelledError, set_trace (trace a' ++ [Transition IDLE]) (set_state IDLE a'))
  | (OutOfFuel, a') => (OutOfFuel, a')
  end.

Definition state_context {A} (new_state : AgentState) (body : M A) : M A := λ a,
  state_exit (body (state_enter new_state a)).

(** The condition of the [while]. *)
Definition loop_cond (a : Agent) : bool :=
  bool_decide (current_step a < max_steps a)%Z
  && bool_decide (state a ≠ FINISHED)
  && negb (_cancelled a).

(** The part of the body up to the call of the step function. *)
Definition before_step : M unit :=
  modify (λ a, set_current_step (current_step a + 1) a);;
  a ← get;
  emit (LogStep (current_step a) (max_steps a)).

(** The body of the [while]: how it leaves, and [results]. *)
Definition loop_body (results : list string) : M (Flow * list string) :=
  c ← gets _cancelled;
  if (c : bool) then
    emit (Log LvInfo "检测到任务取消请求，停止执行");;
    mret (Break, results)
  else
    before_step;;
    step_result ← step;
    stuck ← gets is_stuck;
    when stuck (modify (λ a, set_env (handle_stuck_state (env a)) a));;
    let results := results ++ [step_result] in
    c ← gets _cancelled;
    if (c : bool) then
      emit (Log LvInfo "执行步骤后发现任务取消请求，停止执行");;
      mret (Break, results)
    else mret (Continue, results).

(** The [while] loop, unrolled at most [fuel] times. *)
Fixpoint while_loop (fuel : nat) (results : list string) : M (list string) := λ a,
  if loop_cond a then
    match fuel with
    | O => (OutOfFuel, a)
    | S fuel' =>
        match loop_body results a with
        | (Ret (Continue, results'), a') => while_loop fuel' results' a'
        | (Ret (Break, results'), a') => (Ret results', a')
        | (Raise e, a') => (Raise e, a')
        | (OutOfFuel, a') => (OutOfFuel, a')
        end
    end
  else (Ret results, a).

(** From [results = []] to the end of the [async with] block. *)
Definition execution_loop (fuel : nat) : M (list string) :=
  modify (set_current_step 0);;
  state_context RUNNING (while_loop fuel []).

(** What follows the loop inside the [try]. *)
Definition conclude (results : list string) : M RunOutcome :=
  c ← gets _cancelled;
  if (c : bool) then mret Cancelled
  else
    _notify_thinking "任务执行完毕，正在总结结果...";;
    mem ← gets memory;
    match get_last_assistant_message mem with
    | Some final_response => mret (Finished (content final_response))
    | None =>
        if nonempty results then mret (Finished (PyStr.join PyStr.nl results))
        else mret (Finished "完成，但没有生成响应。")
    end.

(** The execution loop and the outcome it leads to. *)
Definition execute (fuel : nat) : M RunOutcome :=
  results ← execution_loop fuel;
  conclude results.

(** The [try] block up to the loop. *)
Definition run_prologue (prompt : string) : M unit :=
  _notify_thinking "分析用户需求，确定执行计划...";;
  mc ← the_mcp_clients;
  let bash_tool := tool_map mc !! "bash" in
  let browser_tool := tool_map mc !! "browser" in
  when (bool_decide (is_Some browser_tool)
        && (PyStr.contains "搜索" prompt || PyStr.contains "浏览" prompt
            || PyStr.contains "网页" prompt))
    (_notify_thinking "检查是否需要浏览器能力...";;
     _notify_thinking "准备使用浏览器能力处理请求...");;
  _notify_thinking "确定最适合的工具和方法...";;
  add_message (user_message prompt);;
  _notify_thinking "开始执行用户请求...".

(** The body of the [try]. *)
Definition run_try (fuel : nat) (prompt : string) : M RunOutcome :=
  run_prologue prompt;;
  execute fuel.

(** The [except Exception] clause. *)
Definition run_except (msg : string) : M RunOutcome :=
  emit (Log LvError ("Error running MCP agent: " +:+ msg));;
  mret (Errored msg).

(** The [finally] clause. *)
Definition run_finally : M unit := modify (set_cancel_attrs false).

Definition run_outcome (fuel : nat) (prompt : string) : M RunOutcome :=
  mc ← gets mcp_clients;
  match mc with
  | None => raise (Exception "Agent not initialized")
  | Some _ =>
      _notify_thinking "正在规划执行步骤...";;
      modify (set_cancelled false);;
      modify (set_cancel_attrs true);;
      try_finally (try_except (run_try fuel prompt) run_except) run_finally
  end.

(** [MCPAgent.run]; the loop cannot be entered more than [max_steps] times
    as long as the step function leaves the two counters alone. *)
Definition run (prompt : string) : M string := λ a,
  (render <$> run_outcome (Z.to_nat (max_steps a)) prompt) a.

(** What the external calls inside the loop must leave alone: the step
    counter and the step budget. *)
Definition step_keeps_counters : Prop :=
  ∀ a r a', step a = (r, a') →
    current_step a' = current_step a ∧ max_steps a' = max_steps a.

(** A step function that never ends the run: it returns, and a run that
    was neither finished nor cancelled before the call is neither after
    it. *)
Definition step_never_terminal : Prop :=
  ∀ a, ∃ r a', step a = (Ret r, a') ∧
    (state a ≠ FINISHED → state a' ≠ FINISHED) ∧
    (_cancelled a = false → _cancelled a' = false).

(** [run] from its first line to the head of the [while]: the state in
    which the loop is entered. *)
Definition run_enter (prompt : string) : M unit :=
  _notify_thinking "正在规划执行步骤...";;
  modify (set_cancelled false);;
  modify (set_cancel_attrs true);;
  run_prologue prompt;;
  modify (set_current_step 0);;
  modify (state_enter RUNNING).

(** [run] from the exit of the [while] to its [return], given how the loop
    was left. *)
Definition run_leave (left : Res (list string) * Agent) : Res RunOutcome * Agent :=
  try_finally
    (try_except (results ← (λ _, state_exit left); conclude results) run_except)
    run_finally left.2.

(** Two agents that differ at most in the state of the collaborators, in
    the output and in the memory. *)
Definition same_control (a a' : Agent) : Prop :=
  current_step a' = current_step a ∧ max_steps a' = max_steps a
  ∧ state a' = state a ∧ _cancelled a' = _cancelled a
  ∧ cancel_attrs a' = cancel_attrs a ∧ mcp_clients a' = mcp_clients a
  ∧ tool_schemas a' = tool_schemas a
  ∧ _thinking_callbacks a' = _thinking_callbacks a.

(** The state handed to the step function in an iteration that starts in
    [a]. *)
Definition at_step (a : Agent) : Agent := (before_step a).2.

(** The agent after the stuck-state check of the body. *)
Definition recovered (a : Agent) : Agent :=
  if is_stuck a then set_env (handle_stuck_state (env a)) a else a.

(** [successive a calls a']: the step function is called in the state
    [at_step a] and returns, then in the state [at_step] of the state that
    the stuck-state check left, and so on; [calls] has, for every call in
    order, the step count it was made at and the result it gave, and [a']
    is the state after the check that follows the last call. *)
Inductive successive : Agent → list (Z * string) → Agent → Prop :=
  | successive_none a : successive a [] a
  | successive_call a r a2 calls a' :
      step (at_step a) = (Ret r, a2) →
      successive (recovered a2) calls a' →
      successive a ((current_step (at_step a), r) :: calls) a'.

End Agent.

Arguments Tool : clear implicits.
Arguments MCPClients : clear implicits.
Arguments Callback : clear implicits.
Arguments Agent : clear implicits.
Arguments M : clear implicits.
Arguments External : clear implicits.

(** ** JSON documents *)

(** The Python values that [json.dump] writes and [json.load] returns here:
    [None], booleans, integers, [str], [list], and [dict] with [str] keys. *)
#[warnings="-register-all"]
Inductive JSON :=
  | JNull
  | JBool (b : bool)
  | JNum (z : Z)
  | JStr (s : string)
  | JArr (items : list JSON)
  | JObj (fields : gmap string JSON).

(** [data.get(key)]: [None] when the key is missing, an [AttributeError]
    (here [None] of the option) when [data] is not a [dict]. *)
Definition py_get (key : string) (data : JSON) : option JSON :=
  match data with
  | JObj fields => Some (default JNull (fields !! key))
  | _ => None
  end.

(** [v == s] for a [str] [s]. *)
Definition eq_str (v : JSON) (s : string) : bool :=
  match v with
  | JStr s' => String.eqb s' s
  | _ => false
  end.

(** The two [dict]s that [websocket_endpoint] appends to [chat_messages]. *)
Definition user_entry (prompt timestamp : string) : JSON :=
  JObj (<["role" := JStr "user"]>
        (<["content" := JStr prompt]>
         (<["timestamp" := JStr timestamp]> ∅))).

Definition assistant_entry (response : string) (thinking : list string) (timestamp : string) : JSON :=
  JObj (<["role" := JStr "assistant"]>
        (<["content" := JStr response]>
         (<["thinking" := JArr (JStr <$> thinking)]>
          (<["timestamp" := JStr timestamp]> ∅)))).

(** One exchange: the prompt, and the response with its thinking steps. *)
Record Exchange := {
  x_prompt : string;
  x_asked : string;
  x_response : string;
  x_thinking : list string;
  x_answered : string
}.

(** A conversation of user/assistant message pairs, as [chat_messages]
    holds it. *)
Definition conversation (pairs : list Exchange) : list JSON :=
  pairs ≫= λ x, [user_entry (x_prompt x) (x_asked x);
                 assistant_entry (x_response x) (x_thinking x) (x_answered x)].

(** ** [ChatHistory] *)

Module ChatHistory.
Section ChatHistory.
(** What a file holds, and the two directions of the [json] module;
    [json_load] gives [None] where [json.load] raises. *)
Context {File : Type}.
Variable json_dump : JSON → File.
Variable json_load : File → option JSON.

(** The record that [save_conversation] builds. *)
Definition history_data (history_id isotime client_id : string) (messages : list JSON) : JSON :=
  JObj (<["id" := JStr history_id]>
        (<["timestamp" := JStr isotime]>
         (<["client_id" := JStr client_id]>
          (<["messages" := JArr messages]> ∅)))).

Definition filename_of (timestamp history_id : string) : string :=
  timestamp +:+ "_" +:+ history_id +:+ ".json".

(** [save_conversation], on the directory [HISTORY_DIR] as a map from file
    names to contents. What the call draws from its surroundings is given
    to it: [history_id] is [str(uuid.uuid4())], [timestamp] and [isotime]
    are the two readings of the clock. *)
Definition save_conversation (history_id timestamp isotime : string)
    (client_id : string) (messages : list JSON) (dir : gmap string File)
    : string * gmap string File :=
  let filename := filename_of timestamp history_id in
  let data := history_data history_id isotime client_id messages in
  (history_id, <[filename := json_dump data]> dir).

(** [HISTORY_DIR.glob("*.json")], in some order. *)
Definition glob_json (dir : gmap string File) : list (string * File) :=
  filter (λ entry, PyStr.endswith ".json" entry.1 = true) (map_to_list dir).

(** The loop of [get_conversation] over a listing: the record found, and
    the files whose reading was logged as an error. *)
Fixpoint scan (files : list (string * File)) (history_id : string)
    : option JSON * list string :=
  match files with
  | [] => (None, [])
  | (file, f) :: rest =>
      match json_load f ≫= λ data, (data,.) <$> py_get "id" data with
      | Some (data, v) =>
          if eq_str v history_id then (Some data, [])
          else scan rest history_id
      | None =>
          let '(r, failed) := scan rest history_id in (r, file :: failed)
      end
  end.

Definition get_conversation (history_id : string) (dir : gmap string File) : option JSON :=
  (scan (glob_json dir) history_id).1.

(** [data["messages"]] of a record. *)
Definition messages_of (data : JSON) : option (list JSON) :=
  match data with
  | JObj fields =>
      match fields !! "messages" with
      | Some (JArr messages) => Some messages
      | _ => None
      end
  | _ => None
  end.

(** No record that the directory already holds, the file about to be
    replaced apart, carries the identifier. *)
Definition fresh_id (history_id filename : string) (dir : gmap string File) : Prop :=
  ∀ file f data v,
    dir !! file = Some f → file ≠ filename →
    json_load f = Some data → py_get "id" data = Some v →
    eq_str v history_id = false.

End ChatHistory.
End ChatHistory.

(** ** The web session: [process_agent_response], [websocket_endpoint] *)

(** [websocket.send_json({"type": ..., "content": ...})] *)
Record WsEvent := { ev_type : string; ev_content : string }.

(** An [asyncio.Task] kept in [active_tasks]. *)
Record Task := { task_id : nat; task_done : bool; task_cancelled : bool }.

(** The value [process_agent_response] returns when it returns a [dict]:
    the prompt, the response, and the list [thinking_steps] of the call.
    The [dict] holds the list itself, not a copy, and the closure of the
    call goes on appending to it as long as it is registered: the list is
    named by the number of the call. *)
Record Reply := {
  reply_prompt : JSON;
  reply_response : string;
  reply_thinking_steps : nat
}.

(** A message read from the socket: a prompt with the value of its
    "content", which the client is free to choose; a request to cancel; any
    other well-formed message; and a text that [json.loads], [data["type"]]
    or [data["content"]] rejects, with the text of the exception. *)
Inductive Inbound :=
  | Prompt (content : JSON)
  | Cancel
  | Other
  | Malformed (error : string).

(** An entry of [chat_messages]: the [dict] for a prompt, and the [dict] for
    an answer, which holds under "thinking" the list of the call that gave
    the answer, again the list itself. *)
Inductive ChatEntry :=
  | UserEntry (content : JSON) (timestamp : string)
  | AssistantEntry (response : string) (thinking : nat) (timestamp : string).

(** The [dict] for a prompt, whatever its content. *)
Definition user_entry_with (content : JSON) (timestamp : string) : JSON :=
  JObj (<["role" := JStr "user"]>
        (<["content" := content]>
         (<["timestamp" := JStr timestamp]> ∅))).

(** An entry as [json.dump] finds it when the lists hold [steps]. *)
Definition entry_json (steps : nat → list string) (entry : ChatEntry) : JSON :=
  match entry with
  | UserEntry content timestamp => user_entry_with content timestamp
  | AssistantEntry response thinking timestamp =>
      assistant_entry response (steps thinking) timestamp
  end.

(** Whether [prompt[:50]] is defined: for a [str] and for a [list]. *)
Definition sliceable (prompt : JSON) : bool :=
  match prompt with
  | JStr _ | JArr _ => true
  | _ => false
  end.

(** The two module-level dictionaries that the branches for a prompt and
    for a request to cancel read and write. *)
Definition Slots : Type := gmap string Task * gmap string bool.

Section Web.
Context {E Schema File : Type} `{!EqDecision Schema} {Ext : External E Schema}.

Variable json_dump : JSON → File.

(** The surroundings, read by the tick of [clock]: [str(uuid.uuid4())],
    [datetime.now().strftime(...)], [datetime.now().isoformat()]. *)
Variable uuid4 : nat → string.
Variable strftime_now : nat → string.
Variable isoformat_now : nat → string.

(** The closure [thinking_callback] made by the call of the given number,
    and what its list [thinking_steps] holds in a given state of the
    collaborators. *)
Variable thinking_callback : nat → Callback E.
Variable thinking_steps : nat → E → list string.

(** What the handlers of the other connections do to the two dictionaries
    while this one is suspended in its [await] of the given number. The
    dictionaries are keyed by the identifier that the client chose, and
    nothing keeps two connections from using the same one. *)
Variable others : nat → Slots → Slots.

(** [str(e)] for the exception that [prompt[:50]] raises on a value that
    cannot be sliced. *)
Variable excerpt_error : JSON → string.

(** [agent.run(prompt)] for a prompt that is a [list]: what [run] does with
    it depends on [Message.user_message], which is not part of the sources
    at hand. *)
Variable run_list : list JSON → M E Schema string.

(** The module-level dictionaries, the history directory, and for one
    connection its [chat_messages] and what was sent on its socket by the
    two functions themselves. [runs_started] lists, for every task
    created, the client and whether it held a task at that moment;
    [calls] counts the calls of [process_agent_response], each of which
    makes one list and one closure, and [awaits] the suspensions. *)
Record Web := mkWeb {
  active_tasks : gmap string Task;
  cancel_flags : gmap string bool;
  history_dir : gmap string File;
  chat_messages : list ChatEntry;
  sent : list WsEvent;
  web_log : list Event;
  clock : nat;
  tasks_created : nat;
  runs_started : list (string * bool);
  calls : nat;
  awaits : nat
}.

Definition set_active_tasks (v : gmap string Task) (w : Web) : Web :=
  mkWeb v (cancel_flags w) (history_dir w) (chat_messages w) (sent w) (web_log w)
        (clock w) (tasks_created w) (runs_started w) (calls w) (awaits w).
Definition set_cancel_flags (v : gmap string bool) (w : Web) : Web :=
  mkWeb (active_tasks w) v (history_dir w) (chat_messages w) (sent w) (web_log w)
        (clock w) (tasks_created w) (runs_started w) (calls w) (awaits w).
Definition set_history_dir (v : gmap string File) (w : Web) : Web :=
  mkWeb (active_tasks w) (cancel_flags w) v (chat_messages w) (sent w) (web_log w)
        (clock w) (tasks_created w) (runs_started w) (calls w) (awaits w).
Definition set_chat_messages (v : list ChatEntry) (w : Web) : Web :=
  mkWeb (active_tasks w) (cancel_flags w) (history_dir w) v (sent w) (web_log w)
        (clock w) (tasks_created w) (runs_started w) (calls w) (awaits w).
Definition set_sent (v : list WsEvent) (w : Web) : Web :=
  mkWeb (active_tasks w) (cancel_flags w) (history_dir w) (chat_messages w) v (web_log w)
        (clock w) (tasks_created w) (runs_started w) (calls w) (awaits w).
Definition set_web_log (v : list Event) (w : Web) : Web :=
  mkWeb (active_tasks w) (cancel_flags w) (history_dir w) (chat_messages w) (sent w) v
        (clock w) (tasks_created w) (runs_started w) (calls w) (awaits w).
Definition set_calls (v : nat) (w : Web) : Web :=
  mkWeb (active_tasks w) (cancel_flags w) (history_dir w) (chat_messages w) (sent w)
        (web_log w) (clock w) (tasks_created w) (runs_started w) v (awaits w).
Definition tick (w : Web) : Web :=
  mkWeb (active_tasks w) (cancel_flags w) (history_dir w) (chat_messages w) (sent w)
        (web_log w) (S (clock w)) (tasks_created w) (runs_started w) (calls w) (awaits w).

(** An [await]: the handlers of the other connections run. *)
Definition suspend (w : Web) : Web :=
  let slots := others (awaits w) (active_tasks w, cancel_flags w) in
  mkWeb slots.1 slots.2 (history_dir w) (chat_messages w) (sent w) (web_log w)
        (clock w) (tasks_created w) (runs_started w) (calls w) (S (awaits w)).

(** [await websocket.send_json(...)]; sending is taken to succeed. *)
Definition send_json (type content : string) (w : Web) : Web :=
  suspend (set_sent (sent w ++ [{| ev_type := type; ev_content := content |}]) w).

Definition web_error (msg : string) (w : Web) : Web :=
  set_web_log (web_log w ++ [Log LvError msg]) w.

Definition web_info (msg : string) (w : Web) : Web :=
  set_web_log (web_log w ++ [Log LvInfo msg]) w.

(** [task = asyncio.create_task(agent.run(prompt))] and
    [active_tasks[client_id] = task] *)
Definition create_task (client_id : string) (w : Web) : Web :=
  let task := {| task_id := tasks_created w; task_done := false; task_cancelled := false |} in
  mkWeb (<[client_id := task]> (active_tasks w)) (cancel_flags w) (history_dir w)
        (chat_messages w) (sent w) (web_log w) (clock w) (S (tasks_created w))
        (runs_started w ++ [(client_id, bool_decide (is_Some (active_tasks w !! client_id)))])
        (calls w) (awaits w).

(** The [finally] clause of [process_agent_response]. *)
Definition release (client_id : string) (w : Web) : Web :=
  set_cancel_flags (delete client_id (cancel_flags w))
    (set_active_tasks (delete client_id (active_tasks w)) w).

(** [prompt[:50]] and [agent.run(prompt)]: a [str] and a [list] can be
    sliced, and the run is then started with the prompt; on any other value
    the subscript raises. *)
Definition runnable (prompt : JSON) : option (M E Schema string) :=
  match prompt with
  | JStr s => Some (run s)
  | JArr items => Some (run_list items)
  | _ => None
  end.

(** [process_agent_response(agent, prompt, websocket, client_id)]. The
    call awaits the task it creates, so the run of the agent takes place
    inside it; what the other handlers do to the dictionaries in the
    meantime is found when the task is over. [Ret None] is the
    [return None] of the source. The log record of the start leaves out the
    excerpt of the prompt. *)
Definition process_agent_response (prompt : JSON) (client_id : string)
    (w : Web) (a : Agent E Schema) : Res (option Reply) * Web * Agent E Schema :=
  let w := set_cancel_flags (<[client_id := false]> (cancel_flags w)) w in
  let w := send_json "system" "正在处理您的请求..." w in
  let k := calls w in
  let w := set_calls (S k) w in
  let a := (add_thinking_callback (thinking_callback k) a).2 in
  match runnable prompt with
  | None =>
      let msg := excerpt_error prompt in
      (Raise (Exception msg),
       release client_id (web_error ("处理请求时出错: " +:+ msg) w), a)
  | Some run_it =>
      let w := web_info ("客户端 " +:+ client_id +:+ " 开始执行请求") w in
      let w := create_task client_id w in
      let '(r, a) := run_it a in
      let w := suspend w in
      match r with
      | Ret response =>
          let w := web_info ("客户端 " +:+ client_id +:+ " 的请求执行完成") w in
          match cancel_flags w !! client_id with
          | Some true =>
              (Ret None, release client_id (send_json "system" "任务已被终止" w), a)
          | Some false =>
              let w := send_json "response" response w in
              (Ret (Some {| reply_prompt := prompt;
                            reply_response := response;
                            reply_thinking_steps := k |}),
               release client_id w, a)
          | None =>
              (Raise (Exception ("'" +:+ client_id +:+ "'")),
               release client_id
                 (web_error ("处理请求时出错: '" +:+ client_id +:+ "'") w), a)
          end
      | Raise CancelledError =>
          let w := web_info ("客户端 " +:+ client_id +:+ " 的请求被取消") w in
          let a := if cancel_attrs a then (cancel_run a).2 else a in
          (Ret None,
           release client_id
             (web_info ("客户端 " +:+ client_id +:+ " 的请求处理被取消") w), a)
      | Raise (Exception msg) =>
          let w := web_error ("执行请求时出错: " +:+ msg) w in
          let w := send_json "error" ("执行出错: " +:+ msg) w in
          (Raise (Exception msg),
           release client_id (web_error ("处理请求时出错: " +:+ msg) w), a)
      | OutOfFuel => (OutOfFuel, w, a)
      end
  end.

(** The tables when [process_agent_response] comes to take the excerpt of
    the prompt: the flag is set, the notice is sent, the list and the
    closure are made. *)
Definition prepared (client_id : string) (w : Web) : Web :=
  set_calls (S (calls w))
    (send_json "system" "正在处理您的请求..."
       (set_cancel_flags (<[client_id := false]> (cancel_flags w)) w)).

(** [chat_messages] as [json.dump] writes it when the agent is [a]. *)
Definition messages_json (a : Agent E Schema) (w : Web) : list JSON :=
  entry_json (λ k, thinking_steps k (env a)) <$> chat_messages w.

(** [ChatHistory.save_conversation(client_id, chat_messages)] *)
Definition save_chat (client_id : string) (a : Agent E Schema) (w : Web) : Web :=
  tick (set_history_dir
          (ChatHistory.save_conversation json_dump (uuid4 (clock w))
             (strftime_now (clock w)) (isoformat_now (clock w))
             client_id (messages_json a w) (history_dir w)).2 w).

(** The branch of [websocket_endpoint] for a message of type "prompt". *)
Definition on_prompt (prompt : JSON) (client_id : string)
    (w : Web) (a : Agent E Schema) : Res unit * Web * Agent E Schema :=
  let w := tick (set_chat_messages
                   (chat_messages w ++ [UserEntry prompt (isoformat_now (clock w))]) w) in
  let '(r, w, a) := process_agent_response prompt client_id w a in
  match r with
  | Ret (Some result) =>
      let w := tick (set_chat_messages
                       (chat_messages w ++
                          [AssistantEntry (reply_response result)
                             (reply_thinking_steps result) (isoformat_now (clock w))]) w) in
      let w := if bool_decide (0 < length (chat_messages w))
               then save_chat client_id a w else w in
      (Ret tt, w, a)
  | Ret None => (Ret tt, w, a)
  | Raise (Exception msg) =>
      let w := web_error ("处理客户端 " +:+ client_id +:+ " 的请求时出错: " +:+ msg) w in
      (Ret tt, send_json "error" ("处理请求时出错: " +:+ msg) w, a)
  | Raise CancelledError => (Raise CancelledError, w, a)
  | OutOfFuel => (OutOfFuel, w, a)
  end.

(** The branch for a message of type "cancel"; the agent in
    [active_agents] is the agent of the connection. *)
Definition on_cancel (client_id : string)
    (w : Web) (a : Agent E Schema) : Res unit * Web * Agent E Schema :=
  match active_tasks w !! client_id with
  | Some task =>
      if task_done task then (Ret tt, send_json "system" "没有正在运行的任务可终止" w, a)
      else
        let w := web_info ("客户端 " +:+ client_id +:+ " 请求终止任务") w in
        let w := set_cancel_flags (<[client_id := true]> (cancel_flags w)) w in
        let '(a, w) :=
          if cancel_attrs a
          then ((cancel_run a).2,
                web_info ("已调用客户端 " +:+ client_id +:+ " 的agent取消方法") w)
          else (a, w) in
        let w := set_active_tasks
                   (<[client_id := {| task_id := task_id task; task_done := task_done task;
                                      task_cancelled := true |}]> (active_tasks w)) w in
        let w := web_info ("已取消客户端 " +:+ client_id +:+ " 的任务") w in
        (Ret tt, send_json "system" "正在终止任务..." w, a)
  | None => (Ret tt, send_json "system" "没有正在运行的任务可终止" w, a)
  end.

Definition on_message (msg : Inbound) (client_id : string)
    (w : Web) (a : Agent E Schema) : Res unit * Web * Agent E Schema :=
  match msg with
  | Prompt content => on_prompt content client_id w a
  | Cancel => on_cancel client_id w a
  | Other => (Ret tt, w, a)
  | Malformed error => (Raise (Exception error), w, a)
  end.

(** The [while True] of [websocket_endpoint] over the messages that
    arrive before the client disconnects. Every turn starts with the
    [await] of the next message, and the loop reads the next message only
    when the branch for the last one is over. An exception leaves the
    loop. *)
Fixpoint websocket_loop (msgs : list Inbound) (client_id : string)
    (w : Web) (a : Agent E Schema) : Res unit * Web * Agent E Schema :=
  match msgs with
  | [] => (Ret tt, suspend w, a)
  | msg :: rest =>
      match on_message msg client_id (suspend w) a with
      | (Ret _, w', a') => websocket_loop rest client_id w' a'
      | failed => failed
      end
  end.

(** The other connections leave the entries of a client alone: none of
    them uses its identifier. *)
Definition spares (client_id : string) : Prop :=
  ∀ n slots,
    (others n slots).1 !! client_id = slots.1 !! client_id
    ∧ (others n slots).2 !! client_id = slots.2 !! client_id.

End Web.

Arguments Web : clear implicits.

(** ** Reading the output *)

(** The observer calls recorded in a trace, in order. *)
Definition notifications (tr : list Event) : list (nat * string) :=
  tr ≫= λ ev, match ev with Notify idx text => [(idx, text)] | _ => [] end.

(** The error records of a trace. *)
Definition error_records (tr : list Event) : list string :=
  tr ≫= λ ev, match ev with Log LvError msg => [msg] | _ => [] end.


(** The state of the collaborators once every one of the observers has been
    called with [text], in order, whether it failed or not. *)
Definition after_observers {E} (text : string) (callbacks : list (Callback E)) (e : E) : E :=
  foldl (λ e callback, (callback text e).2) e callbacks.

(** ** Scripted collaborators

    A capability server with a fixed answer and a step function that plays
    a script, one act per call; used to run the model on concrete input. *)

Inductive Act :=
  | Answer (r : string)
  | Terminate (r : string)
  | CancelDuring (r : string)
  | CancelThenFail (msg : string)
  | Fail (msg : string)
  | Forced.

Record Script := { acts : list Act; server : Res (list (Tool nat)) }.

Definition scripted_step : M Script nat string := λ a,
  match acts (env a) with
  | [] => (Ret "idle", a)
  | act :: rest =>
      let a := set_env {| acts := rest; server := server (env a) |} a in
      match act with
      | Answer r => (Ret r, a)
      | Terminate r => (Ret r, set_state FINISHED a)
      | CancelDuring r => (Ret r, (cancel_run a).2)
      | CancelThenFail msg => (Raise (Exception msg), (cancel_run a).2)
      | Fail msg => (Raise (Exception msg), a)
      | Forced => (Raise CancelledError, a)
      end
  end.

#[global] Instance Role_eq_dec : EqDecision Role.
Proof. solve_decision. Defined.

Definition last_assistant (mem : list Message) : option Message :=
  last (filter (λ m, role m = assistant) mem).

Definition scripted : External Script nat := {|
  list_tools := λ e, (server e, e);
  super_think := λ _, mret true;
  step := scripted_step;
  is_stuck := λ _, false;
  handle_stuck_state := λ e, e;
  get_last_assistant_message := last_assistant
|}.

(** A step function that answers with the number of its call, as one
    character, and never ends the run. *)
Definition digit (n : nat) : string := String (ascii_of_nat (48 + n)) EmptyString.

Definition counting : External nat nat := {|
  list_tools := λ e, (Ret [], e);
  super_think := λ _, mret true;
  step := λ a, (Ret (digit (env a)), set_env (S (env a)) a);
  is_stuck := λ _, false;
  handle_stuck_state := λ e, e;
  get_last_assistant_message := last_assistant
|}.

(** A step function that always answers and never ends the run. *)
Definition steady : External unit nat := {|
  list_tools := λ e, (Ret [], e);
  super_think := λ _, mret true;
  step := λ a, (Ret "ok", a);
  is_stuck := λ _, false;
  handle_stuck_state := λ e, e;
  get_last_assistant_message := last_assistant
|}.

Definition tool (name : string) (schema : nat) : Tool nat :=
  {| tool_name := name; tool_inputSchema := schema |}.

(** An initialised, idle agent. *)
Definition agent_of {E} (budget : Z) (tools previous : gmap string nat)
    (callbacks : list (Callback E)) (e : E) : Agent E nat := {|
  current_step := 0;
  max_steps := budget;
  state := IDLE;
  _cancelled := false;
  cancel_attrs := false;
  mcp_clients := Some {| session := true; tool_map := tools |};
  tool_schemas := previous;
  memory := [];
  _thinking_callbacks := callbacks;
  env := e;
  trace := []
|}.

(** An observer that raises on every call, and one that counts its calls. *)
Definition raising_observer : Callback nat := λ _ e, (Some "observer failed", e).
Definition counting_observer : Callback nat := λ _ e, (None, S e).

Definition quiet_callback {E} : nat → Callback E := λ _ _ e, (None, e).
Definition no_steps {E} : nat → E → list string := λ _ _, [].

Definition empty_web {File} : Web File := {|
  active_tasks := ∅;
  cancel_flags := ∅;
  history_dir := ∅;
  chat_messages := [];
  sent := [];
  web_log := [];
  clock := 0;
  tasks_created := 0;
  runs_started := [];
  calls := 0;
  awaits := 0
|}.

(** A script and the answer of the server. *)
Definition script_of (l : list Act) (answer : Res (list (Tool nat))) : Script :=
  {| acts := l; server := answer |}.

(** An agent in the middle of a run, at step [n]. *)
Definition running {E} (n : Z) (a : Agent E nat) : Agent E nat :=
  set_state RUNNING (set_current_step n a).

(** Surroundings in which no other connection uses the dictionaries, and
    the texts of the exceptions that [prompt[:50]] raises on the values that
    are neither [str] nor [list]: the subscript is not defined for [None],
    [bool] and [int], and a [dict] is looked up with a key that it cannot
    hold. *)
Definition alone : nat → Slots → Slots := λ _ slots, slots.

Definition subscript_error (v : JSON) : string :=
  match v with
  | JNull => "'NoneType' object is not subscriptable"
  | JBool _ => "'bool' object is not subscriptable"
  | JNum _ => "'int' object is not subscriptable"
  | _ => "unhashable type: 'slice'"
  end.

(** A run that takes no prompt that is a list. *)
Definition no_lists {E Schema} : list JSON → M E Schema string :=
  λ _, raise (Exception "Input should be a valid string").

(** Another connection of the client "c1", which leaves a task that is
    not done in its entry whenever this one is suspended. *)
Definition intruder : nat → Slots → Slots := λ n slots,
  (<["c1" := {| task_id := 100 + n; task_done := false; task_cancelled := false |}]> slots.1,
   slots.2).


(** A record saved earlier. *)
Definition old_record : JSON :=
  ChatHistory.history_data "id-0" "2025-01-01T00:00:00" "c0" [].

Definition one_exchange : Exchange := {|
  x_prompt := "hi"; x_asked := "t1"; x_response := "hello"; x_thinking := ["plan"];
  x_answered := "t2"
|}.

(** ** The rest of the agent and of the endpoint *)

(** The system messages a refresh adds for a diff. *)
Definition refresh_messages (added removed : list string) : list Message :=
  (if nonempty added
   then [system_message ("New tools available: " +:+ PyStr.join ", " added)] else [])
  ++ (if nonempty removed
      then [system_message ("Tools no longer available: " +:+ PyStr.join ", " removed)]
      else []).

(** ** [get_history_detail] *)

(** The truth value of a Python value, as an [if] tests it. *)
Definition truthy (v : JSON) : bool :=
  match v with
  | JNull => false
  | JBool b => b
  | JNum z => negb (z =? 0)%Z
  | JStr s => negb (String.eqb s "")
  | JArr items => nonempty items
  | JObj fields => negb (bool_decide (fields = ∅))
  end.

Definition history_missing : JSON := JObj {["error" := JStr "历史记录不存在"]}.

Section HistoryDetail.
Context {File : Type}.
Variable json_load : File → option JSON.

(** [get_history_detail(history_id)] on the directory. *)
Definition get_history_detail (history_id : string) (dir : gmap string File) : JSON :=
  match ChatHistory.get_conversation json_load history_id dir with
  | Some conversation => if truthy conversation then conversation else history_missing
  | None => history_missing
  end.

End HistoryDetail.

(** ** More on [run] *)

Section RunMore.
Context {E Schema : Type} {Ext : External E Schema}.

(** The response of a run that was not cancelled: the content of the last
    assistant message when there is one, else the results of the steps
    joined by new lines, else a fixed text. *)
Definition response_of (mem : list Message) (results : list string) : string :=
  match get_last_assistant_message mem with
  | Some final_response => content final_response
  | None =>
      if nonempty results then PyStr.join PyStr.nl results
      else "完成，但没有生成响应。"
  end.

(** An agent with what an earlier run may have left behind: a step count,
    a cancellation flag, the attached functions. *)
Definition left_over (n : Z) (cancelled attached : bool) (a : Agent E Schema)
    : Agent E Schema :=
  set_current_step n (set_cancelled cancelled (set_cancel_attrs attached a)).

(** A step function that leaves the registered observers alone. *)
Definition step_keeps_observers : Prop :=
  ∀ a r a', step a = (r, a') → _thinking_callbacks a' = _thinking_callbacks a.

End RunMore.

(** The prompts among the messages of a connection, in order. *)
Definition prompts_of (msgs : list Inbound) : list JSON :=
  msgs ≫= λ msg, match msg with Prompt content => [content] | _ => [] end.

(** A run on a prompt that is a list leaves the list of observers alone,
    as a run on a text does when the step function does. *)
Definition list_runs_keep_observers {E Schema}
    (run_list : list JSON → M E Schema string) : Prop :=
  ∀ items a r a', run_list items a = (r, a') → _thinking_callbacks a' = _thinking_callbacks a.

(** The two answers of the endpoint to a client that has nothing running:
    the notice that its prompt is being handled, and the notice that there
    is no task to stop. *)
Definition idle_notices : list string :=
  ["正在处理您的请求..."; "没有正在运行的任务可终止"].

(** ** The life of an agent: [initialize], [cleanup] *)

(** What [initialize] writes beside the attributes of [Agent]:
    [connection_type], and whether [available_tools] has been set to the
    clients. *)
Record Setup := { connection_type : string; available_tools : bool }.

Section Lifecycle.
Context {E Schema : Type} `{!EqDecision Schema} {Ext : External E Schema}.

Definition set_mcp_clients (v : option (MCPClients Schema)) (a : Agent E Schema)
    : Agent E Schema :=
  mkAgent (current_step a) (max_steps a) (state a) (_cancelled a) (cancel_attrs a) v
          (tool_schemas a) (memory a) (_thinking_callbacks a) (env a) (trace a).

(** [await self.mcp_clients.connect_stdio(command, args)] and
    [await self.mcp_clients.connect_sse(server_url)]: the result of the call
    and the clients as it leaves them. *)
Variable connect_stdio : string → list string → E → Res unit * MCPClients Schema * E.
Variable connect_sse : string → E → Res unit * MCPClients Schema * E.

(** [await self.mcp_clients.disconnect()] *)
Variable disconnect : E → Res unit * E.

(** [SYSTEM_PROMPT], and [list(self.mcp_clients.tool_map.keys())], the names
    in the order of the dictionary. *)
Variable system_prompt : string.
Variable keys_in_order : gmap string Schema → list string.

(** [MCPClients()] *)
Definition new_clients : MCPClients Schema := {| session := false; tool_map := ∅ |}.

Definition call_connect (connect : E → Res unit * MCPClients Schema * E) : M E Schema unit :=
  λ a, let '(r, mc, e) := connect (env a) in (r, set_mcp_clients (Some mc) (set_env e a)).

(** [not s] for an [Optional[str]] *)
Definition not_str (s : option string) : bool :=
  match s with
  | None => true
  | Some s' => String.eqb s' ""
  end.

(** The body of the [try] of [initialize]. *)
Definition connect_by (connection_type : string) (server_url command : option string)
    (args : option (list string)) : M E Schema unit :=
  if String.eqb connection_type "stdio" then
    if not_str command then raise (Exception "Command is required for stdio connection")
    else call_connect (connect_stdio (default "" command) (default [] args))
  else if String.eqb connection_type "sse" then
    if not_str server_url then raise (Exception "Server URL is required for SSE connection")
    else call_connect (connect_sse (default "" server_url))
  else raise (Exception ("Unsupported connection type: " +:+ connection_type)).

(** The [except Exception] clause of [initialize]: log and raise again. *)
Definition initialize_except (msg : string) : M E Schema unit :=
  emit (Log LvError ("Failed to initialize MCP agent: " +:+ msg));;
  raise (Exception msg).

(** What follows the [try] except for the two attributes of [Setup]. *)
Definition initialize_tools : M E Schema unit :=
  _refresh_tools;;
  mc ← the_mcp_clients;
  let tool_names := keys_in_order (tool_map mc) in
  let tools_info := PyStr.join ", " tool_names in
  add_message (system_message
                 (system_prompt +:+ PyStr.nl +:+ PyStr.nl
                  +:+ "Available MCP tools: " +:+ tools_info)).

(** [initialize], on the agent and on what it writes beside it. *)
Definition initialize (type : string) (server_url command : option string)
    (args : option (list string)) (s : Setup) (a : Agent E Schema)
    : Res unit * Setup * Agent E Schema :=
  let s := {| connection_type := type; available_tools := available_tools s |} in
  let a := set_mcp_clients (Some new_clients) a in
  match try_except (connect_by type server_url command args) initialize_except a with
  | (Ret _, a) =>
      let a := set_thinking_callbacks [] a in
      let s := {| connection_type := type; available_tools := true |} in
      let '(r, a) := initialize_tools a in
      (r, s, a)
  | (Raise ex, a) => (Raise ex, s, a)
  | (OutOfFuel, a) => (OutOfFuel, s, a)
  end.

Definition call_disconnect : M E Schema unit :=
  λ a, let '(r, e) := disconnect (env a) in (r, set_env e a).

(** [cleanup] *)
Definition cleanup : M E Schema unit :=
  mc ← the_mcp_clients;
  when (session mc) (call_disconnect;; emit (Log LvInfo "MCP connection closed"));;
  modify (set_mcp_clients None);;
  modify (set_thinking_callbacks []).

End Lifecycle.

(** ** The whole of [websocket_endpoint] *)

Section Endpoint.
Context {E Schema File : Type} `{!EqDecision Schema} {Ext : External E Schema}.

Variable json_dump : JSON → File.
Variable uuid4 : nat → string.
Variable strftime_now : nat → string.
Variable isoformat_now : nat → string.
Variable thinking_callback : nat → Callback E.
Variable thinking_steps : nat → E → list string.
Variable others : nat → Slots → Slots.
Variable excerpt_error : JSON → string.
Variable run_list : list JSON → M E Schema string.
Variable connect_stdio : string → list string → E → Res unit * MCPClients Schema * E.
Variable connect_sse : string → E → Res unit * MCPClients Schema * E.
Variable disconnect : E → Res unit * E.
Variable system_prompt : string.
Variable keys_in_order : gmap string Schema → list string.

(** [sys.executable] *)
Variable sys_executable : option string.

(** Whether the report of a failure reaches the client: the test
    [websocket.client_state.CONNECTED] and the sending are inside a [try]
    whose bare [except] passes. *)
Variable failure_reported : bool.

(** [MCPAgent()], in a given state of the collaborators. The class gives
    the defaults of [max_steps], [mcp_clients], [tool_schemas] and
    [_thinking_callbacks]; [_cancelled] and the two functions exist only
    once [run] has set them. Modelled from the spec: the fields of the
    parent classes, which are not part of the sources at hand, start with a
    session that is Idle, at step 0, with an empty memory. *)
Definition MCPAgent_new (e : E) : Agent E Schema := {|
  current_step := 0;
  max_steps := 20;
  state := IDLE;
  _cancelled := false;
  cancel_attrs := false;
  mcp_clients := Some new_clients;
  tool_schemas := ∅;
  memory := [];
  _thinking_callbacks := [];
  env := e;
  trace := []
|}.

(** The tables [active_connections] and [active_agents], by the clients
    that have an entry, beside the rest of the state of the server. *)
Record Tables := mkTables {
  web : Web File;
  active_connections : gset string;
  active_agents : gset string
}.

(** How the [try] of [websocket_endpoint] is left. *)
Inductive Exit :=
  | Disconnected
  | TaskCancelled
  | Failed (msg : string)
  | Unfinished.

(** The clause that handles the way the [try] was left. *)
Definition endpoint_except (client_id : string) (x : Exit) (w : Web File) : Web File :=
  match x with
  | Disconnected => web_info ("客户端 " +:+ client_id +:+ " 断开连接") w
  | TaskCancelled => web_info ("客户端 " +:+ client_id +:+ " 的任务被取消") w
  | Failed msg =>
      let error_msg := "WebSocket处理时出错: " +:+ msg in
      let w := web_error error_msg w in
      if failure_reported then send_json others "error" error_msg w else w
  | Unfinished => w
  end.

(** The saving of the chat history in the [finally] clause. *)
Definition endpoint_save (client_id : string) (a : Agent E Schema) (w : Web File)
    : Web File :=
  if bool_decide (0 < length (chat_messages w))
  then save_chat json_dump uuid4 strftime_now isoformat_now thinking_steps client_id a w
  else w.

(** The cleaning of the agent in the [finally] clause, an [await]: an
    exception of [cleanup] is logged. *)
Definition endpoint_cleanup (w : Web File) (a : Agent E Schema)
    : Res unit * Web File * Agent E Schema :=
  let w := suspend others w in
  match cleanup disconnect a with
  | (Ret _, a') => (Ret tt, w, a')
  | (Raise (Exception msg), a') => (Ret tt, web_error ("清理Agent时出错: " +:+ msg) w, a')
  | (Raise CancelledError, a') => (Raise CancelledError, w, a')
  | (OutOfFuel, a') => (OutOfFuel, w, a')
  end.

(** The four [del] statements that end the [finally] clause. *)
Definition endpoint_forget (client_id : string) (t : Tables) : Tables :=
  mkTables
    (set_cancel_flags (delete client_id (cancel_flags (web t)))
       (set_active_tasks (delete client_id (active_tasks (web t))) (web t)))
    (active_connections t ∖ {[client_id]})
    (active_agents t ∖ {[client_id]}).

(** The [try] block: the agent is made and initialised, an [await], and
    the messages are handled until the client disconnects. *)
Definition endpoint_try (msgs : list Inbound) (client_id : string)
    (w : Web File) (e : E) : Exit * Web File * Agent E Schema :=
  let a := MCPAgent_new e in
  let w := web_info ("为客户端 " +:+ client_id +:+ " 初始化MCPAgent...") w in
  let w := send_json others "system" "正在连接到服务器..." w in
  let '(r, _, a) :=
    initialize connect_stdio connect_sse system_prompt keys_in_order
      "stdio" None sys_executable (Some ["-m"; "app.mcp.server"])
      {| connection_type := "stdio"; available_tools := false |} a in
  let w := suspend others w in
  match r with
  | Ret _ =>
      let w := web_info ("客户端 " +:+ client_id +:+ " 的MCPAgent初始化成功") w in
      let w := send_json others "system" "连接成功！请输入您的指令..." w in
      match websocket_loop json_dump uuid4 strftime_now isoformat_now
              thinking_callback thinking_steps others excerpt_error run_list
              msgs client_id w a with
      | (Ret _, w, a) => (Disconnected, w, a)
      | (Raise (Exception msg), w, a) => (Failed msg, w, a)
      | (Raise CancelledError, w, a) => (TaskCancelled, w, a)
      | (OutOfFuel, w, a) => (Unfinished, w, a)
      end
  | Raise (Exception msg) =>
      let w := web_error ("初始化MCPAgent时出错: " +:+ msg) w in
      let w := send_json others "error" ("连接服务器时出错: " +:+ msg) w in
      (Failed msg, w, a)
  | Raise CancelledError => (TaskCancelled, w, a)
  | OutOfFuel => (Unfinished, w, a)
  end.

(** [websocket_endpoint], for a client whose messages are [msgs]: the
    tables and the agent when the function is over, and whether it ended
    ([Ret]) or was left by a cancellation inside [cleanup], which skips the
    [del] statements. The function starts with the [await] of
    [websocket.accept()]. *)
Definition websocket_endpoint (msgs : list Inbound) (client_id : string)
    (t : Tables) (e : E) : Res unit * Tables * Agent E Schema :=
  let t := mkTables (set_chat_messages [] (suspend others (web t)))
             ({[client_id]} ∪ active_connections t)
             ({[client_id]} ∪ active_agents t) in
  let '(x, w, a) := endpoint_try msgs client_id (web t) e in
  match x with
  | Unfinished => (OutOfFuel, mkTables w (active_connections t) (active_agents t), a)
  | _ =>
      let w := endpoint_except client_id x w in
      let w := endpoint_save client_id a w in
      let w := web_info ("清理客户端 " +:+ client_id +:+ " 的资源") w in
      let '(r, w, a) := endpoint_cleanup w a in
      let t := mkTables w (active_connections t) (active_agents t) in
      match r with
      | Ret _ => (Ret tt, endpoint_forget client_id t, a)
      | _ => (r, t, a)
      end
  end.

End Endpoint.

Arguments Tables : clear implicits.

(** ** More scripted collaborators *)

(** A transport that connects and finds the given tools, and one that
    closes. *)
Definition connected (tools : gmap string nat)
    : string → list string → Script → Res unit * MCPClients nat * Script :=
  λ _ _ e, (Ret tt, {| session := true; tool_map := tools |}, e).

Definition connected_sse (tools : gmap string nat)
    : string → Script → Res unit * MCPClients nat * Script :=
  λ _ e, (Ret tt, {| session := true; tool_map := tools |}, e).

Definition closing : Script → Res unit * Script := λ e, (Ret tt, e).

(** The names of a dictionary in the order of the set of its keys. *)
Definition names_of (m : gmap string nat) : list string := elements (dom m).

(** An agent that has been cleaned up. *)
Definition ended {E} (a : Agent E nat) : Agent E nat := set_mcp_clients None a.

(** A server that no client is connected to. *)
Definition no_tables : Tables JSON := mkTables empty_web ∅ ∅.

(** An agent with the tool bash, a budget of three steps and a script. *)
Definition bash_agent (l : list Act) : Agent Script nat :=
  agent_of 3 {["bash" := 0]} ∅ [] (script_of l (Ret [])).

(** Observers that keep what they are told, as the closures of
    [process_agent_response] do: the closure made by call [k] appends to
    the list of that call, and the list is read when an entry that refers
    to it is written out. The step function answers and ends the run. *)
Definition Notes : Type := list (nat * string).

Definition noting : nat → Callback Notes := λ k text e, (None, e ++ [(k, text)]).

Definition noted : nat → Notes → list string :=
  λ k e, (filter (λ note, note.1 = k) e).*2.

Definition brief : External Notes nat := {|
  list_tools := λ e, (Ret [], e);
  super_think := λ _, mret true;
  step := λ a, (Ret "ok", set_state FINISHED a);
  is_stuck := λ _, false;
  handle_stuck_state := λ e, e;
  get_last_assistant_message := last_assistant
|}.

(** * Properties *)

(** ** Observers *)

Section Observers.
Context {E Schema : Type} {Ext : External E Schema}.
Implicit Types (a : Agent E Schema) (callbacks : list (Callback E)).

Lemma notifications_app tr1 tr2 :
  notifications (tr1 ++ tr2) = notifications tr1 ++ notifications tr2.
Proof. unfold notifications. apply bind_app. Qed.

Lemma notify_from_spec callbacks : ∀ idx text a,
  ∃ evs,
    notify_from idx callbacks text a
      = (Ret tt, set_env (after_observers text callbacks (env a))
                   (set_trace (trace a ++ evs) a))
    ∧ notifications evs = (λ i, (i, text)) <$> seq idx (length callbacks).
Proof.
  induction callbacks as [|callback rest IH]; intros idx text a.
  - exists []. split; [|done].
    destruct a; cbn. by rewrite app_nil_r.
  - cbn [notify_from].
    destruct (callback text (env a)) as [r e] eqn:Hcb.
    set (failure := match r with
                    | None => []
                    | Some msg => [Log LvError ("Error in thinking callback: " +:+ msg)]
                    end).
    set (a2 := match r with None => _ | Some _ => _ end).
    assert (Ha2 : a2 = set_env e (set_trace (trace a ++ Notify idx text :: failure) a)).
    { subst a2 failure. destruct a, r; cbn; [|done].
      by rewrite <- app_assoc. }
    destruct (IH (S idx) text a2) as (evs & Hrun & Hev).
    exists (Notify idx text :: failure ++ evs). split.
    + rewrite Hrun, Ha2. unfold after_observers. cbn [foldl]. rewrite Hcb.
      unfold set_env, set_trace; cbn. by rewrite <- app_assoc.
    + cbn [length seq fmap list_fmap].
      change (Notify idx text :: failure ++ evs)
        with ([Notify idx text] ++ failure ++ evs).
      rewrite !notifications_app, Hev.
      assert (notifications failure = []) as -> by (subst failure; by destruct r).
      done.
Qed.

(** C9. Whatever the registered observers and the published text,
    [_notify_thinking] returns normally, and it has called every observer,
    in the order of registration, with that text: a failure of one
    observer is caught and the observers after it are still called. *)
Theorem notify_thinking_reaches_every_observer a text :
  ∃ a' evs,
    _notify_thinking text a = (Ret tt, a')
    ∧ trace a' = trace a ++ evs
    ∧ notifications evs
        = (λ i, (i, text)) <$> seq 0 (length (_thinking_callbacks a))
    ∧ env a' = after_observers text (_thinking_callbacks a) (env a)
    ∧ _thinking_callbacks a' = _thinking_callbacks a.
Proof.
  unfold _notify_thinking.
  destruct (notify_from_spec (_thinking_callbacks a) 0 text a) as (evs & Hrun & Hev).
  eexists _, evs. split; [exact Hrun|]. by destruct a; cbn.
Qed.

End Observers.

(** ** Termination tools *)

Lemma should_finish_iff_terminate name :
  _should_finish_execution name = true ↔ PyStr.lower name = "terminate".
Proof. unfold _should_finish_execution. apply String.eqb_eq. Qed.

(** C7, as the code has it. [_should_finish_execution] holds exactly when
    the lower-cased tool name is "terminate"; the configured list is not
    consulted. For the default list, ["terminate"], this is a match against
    the special tool list without regard to case. *)
Theorem should_finish_execution_default_list name :
  (_should_finish_execution name = true ↔ PyStr.lower name = "terminate")
  ∧ _should_finish_execution name = matches_special_tool special_tool_names_default name.
Proof.
  split; [apply should_finish_iff_terminate|].
  unfold _should_finish_execution, matches_special_tool, special_tool_names_default.
  cbn [existsb]. rewrite orb_false_r.
  change (PyStr.lower "terminate") with "terminate".
  apply String.eqb_sym.
Qed.

(** C7 as stated fails for a configured list other than the default: with
    ["finish"] as the special tool list, the tool "finish" matches the list
    and does not end the run, and "terminate" ends it without matching. *)
Lemma should_finish_execution_ignores_configured_list :
  ¬ (∀ special_tool_names name,
       _should_finish_execution name = true
       ↔ matches_special_tool special_tool_names name = true).
Proof.
  intros Hclaim.
  destruct (Hclaim ["finish"] "finish") as [_ Hmatch].
  specialize (Hmatch eq_refl). discriminate.
Qed.

(** ** Capability refresh *)

Section Refresh.
Context {E Schema : Type} `{!EqDecision Schema} {Ext : External E Schema}.
Implicit Types (a : Agent E Schema) (previous current : gmap string Schema).

Lemma elem_of_added_of previous current k :
  k ∈ added_of previous current ↔ k ∈ dom current ∧ k ∉ dom previous.
Proof. unfold added_of. rewrite elem_of_elements. set_solver. Qed.

Lemma elem_of_removed_of previous current k :
  k ∈ removed_of previous current ↔ k ∈ dom previous ∧ k ∉ dom current.
Proof. unfold removed_of. rewrite elem_of_elements. set_solver. Qed.

Lemma elem_of_changed_of previous current k :
  k ∈ changed_of previous current
  ↔ k ∈ dom current ∧ k ∈ dom previous ∧ current !! k ≠ previous !! k.
Proof.
  unfold changed_of. rewrite list_elem_of_filter, elem_of_elements, elem_of_intersection.
  tauto.
Qed.

Lemma NoDup_changed_of previous current : NoDup (changed_of previous current).
Proof. apply NoDup_filter, NoDup_elements. Qed.

(** A refresh that reaches the server and gets an answer. *)
Lemma refresh_tools_answered a mc tools e :
  mcp_clients a = Some mc → session mc = true →
  list_tools (env a) = (Ret tools, e) →
  let previous := tool_schemas a in
  let current := dict_of_tools tools in
  ∃ a',
    _refresh_tools a = (Ret (added_of previous current, removed_of previous current), a')
    ∧ tool_schemas a' = current
    ∧ mcp_clients a' = mcp_clients a
    ∧ state a' = state a
    ∧ current_step a' = current_step a
    ∧ env a' = e
    ∧ (changed_of previous current ≠ [] →
       LogNames LvInfo "Changed MCP tools: " (changed_of previous current) ∈ trace a').
Proof.
  intros Hmc Hs Hlt previous current.
  unfold _refresh_tools, the_mcp_clients, call_list_tools, mbind, M_bind.
  rewrite Hmc, Hs. cbn [negb]. rewrite Hlt.
  unfold gets, modify, emit, add_message, when, mret, M_ret, mbind, M_bind. cbn.
  fold previous current.
  destruct (nonempty (added_of previous current)),
    (nonempty (removed_of previous current)),
    (changed_of previous current) as [|c cs] eqn:Hch; cbn;
    (eexists; split; [reflexivity|]); cbn; repeat split; try done;
    intros _; rewrite !elem_of_app; right; constructor.
Qed.

Lemma diff_of_ab_bc (s_a s_b s_c : Schema) :
  let previous : gmap string Schema := {["a" := s_a; "b" := s_b]} in
  let current :=
    dict_of_tools [ {| tool_name := "b"; tool_inputSchema := s_b |};
                    {| tool_name := "c"; tool_inputSchema := s_c |} ] in
  added_of previous current = ["c"]
  ∧ removed_of previous current = ["a"]
  ∧ changed_of previous current = [].
Proof.
  intros previous current.
  assert (Hcur : dom current = {["b"; "c"]}).
  { subst current. unfold dict_of_tools. cbn [foldl tool_name tool_inputSchema].
    rewrite !dom_insert_L, dom_empty_L. set_solver. }
  assert (Hprev : dom previous = {["a"; "b"]}).
  { subst previous. rewrite !dom_insert_L, dom_singleton_L. set_solver. }
  split; [|split].
  - reflexivity.
  - reflexivity.
  - apply elem_of_nil_inv. intros k Hk.
    apply elem_of_changed_of in Hk as (Hc & Hp & Hne).
    rewrite Hcur in Hc. rewrite Hprev in Hp.
    assert (k = "b") as ->.
    { apply elem_of_union in Hc as [Hc|Hc]; apply elem_of_singleton in Hc; [done|].
      subst k. apply elem_of_union in Hp as [Hp|Hp]; apply elem_of_singleton in Hp;
        discriminate. }
    apply Hne. subst previous current. unfold dict_of_tools.
    cbn [foldl tool_name tool_inputSchema]. by simplify_map_eq.
Qed.

(** C1. A refresh that gets the tool list from the server returns
    [added = current.keys − previous.keys] and
    [removed = previous.keys − current.keys], installs [current], and
    records as changed exactly the keys of both snapshots whose schemas
    differ; no key is in two of the three lists. From {a, b} to {b, c} it
    gives added = [c], removed = [a] and no changed key. *)
Theorem refresh_tools_reports_diff a mc tools e :
  mcp_clients a = Some mc → session mc = true →
  list_tools (env a) = (Ret tools, e) →
  let previous := tool_schemas a in
  let current := dict_of_tools tools in
  let added := added_of previous current in
  let removed := removed_of previous current in
  let changed := changed_of previous current in
  (∃ a', _refresh_tools a = (Ret (added, removed), a')
         ∧ tool_schemas a' = current
         ∧ (changed ≠ [] → LogNames LvInfo "Changed MCP tools: " changed ∈ trace a'))
  ∧ (∀ k, k ∈ added ↔ k ∈ dom current ∧ k ∉ dom previous)
  ∧ (∀ k, k ∈ removed ↔ k ∈ dom previous ∧ k ∉ dom current)
  ∧ (∀ k, k ∈ changed ↔ k ∈ dom current ∧ k ∈ dom previous ∧ current !! k ≠ previous !! k)
  ∧ (∀ k, ¬ (k ∈ added ∧ k ∈ removed) ∧ ¬ (k ∈ added ∧ k ∈ changed)
          ∧ ¬ (k ∈ removed ∧ k ∈ changed))
  ∧ NoDup added ∧ NoDup removed ∧ NoDup changed
  ∧ (∀ s_a s_b s_c,
       previous = {["a" := s_a; "b" := s_b]} →
       tools = [ {| tool_name := "b"; tool_inputSchema := s_b |};
                 {| tool_name := "c"; tool_inputSchema := s_c |} ] →
       added = ["c"] ∧ removed = ["a"] ∧ changed = []).
Proof.
  intros Hmc Hs Hlt previous current added removed changed.
  destruct (refresh_tools_answered a mc tools e Hmc Hs Hlt)
    as (a' & Hrun & Hts & _ & _ & _ & _ & Hlog).
  split; [by exists a'|].
  split; [intros k; apply elem_of_added_of|].
  split; [intros k; apply elem_of_removed_of|].
  split; [intros k; apply elem_of_changed_of|].
  split.
  { intros k. subst added removed changed.
    rewrite elem_of_added_of, elem_of_removed_of, elem_of_changed_of. tauto. }
  split; [apply NoDup_elements|].
  split; [apply NoDup_elements|].
  split; [apply NoDup_changed_of|].
  intros s_a s_b s_c Hprev ->.
  subst added removed changed current. rewrite Hprev.
  apply diff_of_ab_bc.
Qed.

(** Without a session the refresh returns an empty diff and changes
    nothing. *)
Lemma refresh_tools_without_session a mc :
  mcp_clients a = Some mc → session mc = false →
  _refresh_tools a = (Ret ([], []), a).
Proof.
  intros Hmc Hs.
  unfold _refresh_tools, the_mcp_clients, mbind, M_bind. by rewrite Hmc, Hs.
Qed.

(** A failure of [list_tools] leaves [_refresh_tools] as it came. *)
Lemma refresh_tools_failed a mc ex e :
  mcp_clients a = Some mc → session mc = true →
  list_tools (env a) = (Raise ex, e) →
  _refresh_tools a = (Raise ex, set_env e a).
Proof.
  intros Hmc Hs Hlt.
  unfold _refresh_tools, the_mcp_clients, call_list_tools, mbind, M_bind.
  rewrite Hmc, Hs. cbn [negb]. by rewrite Hlt.
Qed.

(** [think] on an agent whose session is up, whose [tool_map] is not
    empty, and whose step number is a multiple of the interval: what
    follows is what the refresh gives. *)
Lemma think_refreshing a mc :
  mcp_clients a = Some mc → session mc = true → tool_map mc ≠ ∅ →
  (current_step a `mod` _refresh_tools_interval = 0)%Z →
  think a =
    match _refresh_tools a with
    | (Ret _, a1) =>
        match mcp_clients a1 with
        | Some mc' =>
            if bool_decide (tool_map mc' = ∅)
            then end_interaction "MCP service has shut down, ending interaction" a1
            else super_think info_interceptor a1
        | None => (Raise (Exception "'NoneType' object has no attribute"), a1)
        end
    | (Raise ex, a1) => (Raise ex, a1)
    | (OutOfFuel, a1) => (OutOfFuel, a1)
    end.
Proof.
  intros Hmc Hs Htm Hmod.
  unfold think, the_mcp_clients, mbind, M_bind, gets, mret, M_ret. cbn beta.
  rewrite Hmc, Hs. cbn [negb orb].
  rewrite (bool_decide_eq_false_2 _ Htm), (bool_decide_eq_true_2 _ Hmod).
  destruct (_refresh_tools a) as [[x|ex|] a1]; [|done..].
  destruct (mcp_clients a1) as [mc'|]; [|done].
  by destruct (bool_decide (tool_map mc' = ∅)).
Qed.

(** C4, what the code does. A refresh that finds the server without any
    tool empties [tool_schemas] only; [think] then tests [tool_map], which
    the refresh does not write, and goes on to the parent's [think] with
    the state of the run as it was. *)
Lemma think_after_empty_refresh a mc e :
  mcp_clients a = Some mc → session mc = true → tool_map mc ≠ ∅ →
  (current_step a `mod` _refresh_tools_interval = 0)%Z →
  list_tools (env a) = (Ret [], e) →
  ∃ a1, _refresh_tools a = (Ret ([], removed_of (tool_schemas a) ∅), a1)
        ∧ tool_schemas a1 = ∅
        ∧ state a1 = state a
        ∧ think a = super_think info_interceptor a1.
Proof.
  intros Hmc Hs Htm Hmod Hlt.
  destruct (refresh_tools_answered a mc [] e Hmc Hs Hlt)
    as (a1 & Hrun & Hts & Hmc1 & Hst & _).
  exists a1. cbn [dict_of_tools foldl] in Hrun, Hts.
  assert (added_of (tool_schemas a) (∅ : gmap string Schema) = []) as Hadd.
  { unfold added_of. rewrite dom_empty_L.
    replace (∅ ∖ dom (tool_schemas a)) with (∅ : gset string)
      by (apply set_eq; intros x; rewrite elem_of_difference, !elem_of_empty; tauto).
    apply elements_empty. }
  rewrite Hadd in Hrun. repeat split; try done.
  rewrite (think_refreshing a mc Hmc Hs Htm Hmod), Hrun, Hmc1, Hmc.
  by rewrite (bool_decide_eq_false_2 _ Htm).
Qed.

End Refresh.

(** ** The execution loop *)

Section Loop.
Context {E Schema : Type} {Ext : External E Schema}.
Implicit Types (a : Agent E Schema) (results : list string).

Lemma same_control_refl a : same_control a a.
Proof. by repeat split. Qed.

Lemma same_control_trans a1 a2 a3 :
  same_control a1 a2 → same_control a2 a3 → same_control a1 a3.
Proof.
  intros (?&?&?&?&?&?&?&?) (?&?&?&?&?&?&?&?). repeat split; congruence.
Qed.

Lemma notify_thinking_ret text a :
  ∃ a', _notify_thinking text a = (Ret tt, a')
        ∧ same_control a a' ∧ memory a' = memory a.
Proof.
  unfold _notify_thinking.
  destruct (notify_from_spec (_thinking_callbacks a) 0 text a) as (evs & -> & _).
  eexists. split; [done|]. by repeat split.
Qed.

Lemma bind_ret {A B} (c : M E Schema A) (f : A → M E Schema B) a x a' :
  c a = (Ret x, a') → (c ≫= f) a = f x a'.
Proof. intros Hc. unfold mbind, M_bind. by rewrite Hc. Qed.

Lemma bind_raise {A B} (c : M E Schema A) (f : A → M E Schema B) a ex a' :
  c a = (Raise ex, a') → (c ≫= f) a = (Raise ex, a').
Proof. intros Hc. unfold mbind, M_bind. by rewrite Hc. Qed.

Lemma bind_modify {B} (f : Agent E Schema → Agent E Schema) (k : unit → M E Schema B) a :
  (modify f ≫= k) a = k tt (f a).
Proof. done. Qed.

Lemma the_mcp_clients_ret a mc :
  mcp_clients a = Some mc → the_mcp_clients a = (Ret mc, a).
Proof. intros Hmc. unfold the_mcp_clients. by rewrite Hmc. Qed.

Lemma run_prologue_ret prompt a mc :
  mcp_clients a = Some mc →
  ∃ a', run_prologue prompt a = (Ret tt, a') ∧ same_control a a'.
Proof.
  intros Hmc. unfold run_prologue.
  destruct (notify_thinking_ret "分析用户需求，确定执行计划..." a) as (a1 & Hn1 & H1 & _).
  rewrite (bind_ret _ _ _ _ _ Hn1).
  assert (mcp_clients a1 = Some mc) as Hmc1 by (rewrite <- Hmc; apply H1).
  rewrite (bind_ret _ _ _ _ _ (the_mcp_clients_ret _ _ Hmc1)).
  set (b := bool_decide _ && _).
  assert (∃ a2, when b (_notify_thinking "检查是否需要浏览器能力...";;
                       _notify_thinking "准备使用浏览器能力处理请求...") a1 = (Ret tt, a2)
                ∧ same_control a1 a2) as (a2 & Hw & H2).
  { destruct b; cbn [when]; [|exists a1; split; [done|apply same_control_refl]].
    destruct (notify_thinking_ret "检查是否需要浏览器能力..." a1) as (a2 & Hn2 & H2 & _).
    destruct (notify_thinking_ret "准备使用浏览器能力处理请求..." a2) as (a3 & Hn3 & H3 & _).
    exists a3. rewrite (bind_ret _ _ _ _ _ Hn2). split; [done|].
    by eapply same_control_trans. }
  rewrite (bind_ret _ _ _ _ _ Hw).
  destruct (notify_thinking_ret "确定最适合的工具和方法..." a2) as (a3 & Hn3 & H3 & _).
  rewrite (bind_ret _ _ _ _ _ Hn3).
  unfold add_message. rewrite bind_modify.
  set (a4 := set_memory _ a3).
  destruct (notify_thinking_ret "开始执行用户请求..." a4) as (a5 & Hn5 & H5 & _).
  exists a5. split; [done|].
  assert (same_control a3 a4) by (by repeat split).
  eauto using same_control_trans.
Qed.

(** How [run] splits at the loop. *)
Lemma run_outcome_split fuel prompt a mc :
  mcp_clients a = Some mc →
  ∃ a_in,
    run_enter prompt a = (Ret tt, a_in)
    ∧ run_outcome fuel prompt a = run_leave (while_loop fuel [] a_in)
    ∧ current_step a_in = 0%Z ∧ max_steps a_in = max_steps a
    ∧ state a_in = RUNNING ∧ _cancelled a_in = false
    ∧ mcp_clients a_in = mcp_clients a.
Proof.
  intros Hmc. unfold run_enter, run_outcome.
  rewrite (bind_ret _ _ a (Some mc) a) by (unfold gets; by rewrite Hmc).
  destruct (notify_thinking_ret "正在规划执行步骤..." a) as (a1 & Hn1 & H1 & _).
  rewrite !(bind_ret _ _ _ _ _ Hn1).
  rewrite !bind_modify.
  set (a3 := set_cancel_attrs true (set_cancelled false a1)).
  assert (mcp_clients a3 = Some mc) as Hmc3 by (rewrite <- Hmc; apply H1).
  destruct (run_prologue_ret prompt a3 mc Hmc3) as (a4 & Hp & H4).
  rewrite (bind_ret _ _ _ _ _ Hp).
  rewrite bind_modify.
  eexists. split; [reflexivity|].
  destruct H1 as (?&?&?&?&?&?&?&?), H4 as (?&?&?&?&?&?&?&?).
  split; [|subst a3; cbn in *; repeat split; congruence].
  unfold run_leave, try_finally, try_except, run_try, execute, execution_loop,
    state_context.
  rewrite (bind_ret _ _ _ _ _ Hp).
  unfold mbind, M_bind, modify. cbn [fst snd].
  destruct (while_loop fuel [] _) as [[rs|[msg|]|] a_out]; cbn; try done.
Qed.

Lemma before_step_at_step a :
  before_step a = (Ret tt, at_step a)
  ∧ current_step (at_step a) = (current_step a + 1)%Z
  ∧ max_steps (at_step a) = max_steps a
  ∧ state (at_step a) = state a
  ∧ _cancelled (at_step a) = _cancelled a.
Proof. done. Qed.

Lemma recovered_same_control a : same_control a (recovered a).
Proof. unfold recovered. destruct (is_stuck a); by repeat split. Qed.

(** The body of the loop, by the result of the step function. *)
Lemma loop_body_unfold results a :
  _cancelled a = false →
  loop_body results a =
    match step (at_step a) with
    | (Ret r, a2) =>
        if _cancelled (recovered a2)
        then (Ret (Break, results ++ [r]),
              set_trace (trace (recovered a2)
                         ++ [Log LvInfo "执行步骤后发现任务取消请求，停止执行"]) (recovered a2))
        else (Ret (Continue, results ++ [r]), recovered a2)
    | (Raise ex, a2) => (Raise ex, a2)
    | (OutOfFuel, a2) => (OutOfFuel, a2)
    end.
Proof.
  intros Hc. unfold loop_body.
  rewrite (bind_ret _ _ a false a) by (unfold gets; by rewrite Hc).
  rewrite (bind_ret _ _ a tt (at_step a)) by done.
  unfold mbind at 1. unfold M_bind at 1.
  destruct (step (at_step a)) as [[r|ex|] a2]; [|done..].
  unfold recovered, gets, when, modify, emit, mbind, M_bind, mret, M_ret. cbn [fst snd].
  destruct (is_stuck a2); cbn [fst snd];
    match goal with |- context [_cancelled ?x] => by destruct (_cancelled x) end.
Qed.

Lemma loop_body_cancelled results a :
  _cancelled a = true →
  loop_body results a
  = (Ret (Break, results),
     set_trace (trace a ++ [Log LvInfo "检测到任务取消请求，停止执行"]) a).
Proof.
  intros Hc. unfold loop_body.
  by rewrite (bind_ret _ _ a true a) by (unfold gets; by rewrite Hc).
Qed.

Lemma loop_cond_true a :
  loop_cond a = true ↔
  (current_step a < max_steps a)%Z ∧ state a ≠ FINISHED ∧ _cancelled a = false.
Proof.
  unfold loop_cond.
  rewrite !andb_true_iff, !bool_decide_eq_true, negb_true_iff. tauto.
Qed.

(** What an iteration that returns does to the counters. *)
Lemma loop_body_counters results a flow results' a' :
  step_keeps_counters → _cancelled a = false →
  loop_body results a = (Ret (flow, results'), a') →
  current_step a' = (current_step a + 1)%Z ∧ max_steps a' = max_steps a
  ∧ (flow = Break ↔ _cancelled a' = true)
  ∧ ∃ r, results' = results ++ [r].
Proof.
  intros Hkeep Hc. rewrite (loop_body_unfold results a Hc).
  destruct (step (at_step a)) as [[r|ex|] a2] eqn:Hstep; [|done..].
  destruct (Hkeep _ _ _ Hstep) as [Hcs Hms].
  destruct (recovered_same_control a2) as (Hcs' & Hms' & _).
  destruct (_cancelled (recovered a2)) eqn:Hc2; intros [= <- <- <-]; cbn;
    rewrite ?Hcs', ?Hms', ?Hcs, ?Hms, ?Hc2; (repeat split; [done..|by exists r]).
Qed.

Lemma successive_snoc a calls a1 r a2 :
  successive a calls a1 → step (at_step a1) = (Ret r, a2) →
  successive a (calls ++ [(current_step (at_step a1), r)]) (recovered a2).
Proof.
  intros Hcalls Hstep. induction Hcalls as [a|a r0 a0 calls a1 Hstep0 _ IH]; cbn.
  - econstructor; [exact Hstep|constructor].
  - econstructor; [exact Hstep0|]. by apply IH.
Qed.

(** What a loop that is over has done: the calls of the step function that
    returned, counted from the step count at the start, and the way the
    loop was left, by a return after the last of them or by the exception
    of one more call. The step count is within the budget at every call
    and at the end. *)
Lemma while_loop_calls :
  step_keeps_counters →
  ∀ fuel results a out a_out,
    while_loop fuel results a = (out, a_out) → out ≠ OutOfFuel →
    (current_step a ≤ max_steps a)%Z →
    ∃ calls a_last,
      successive a calls a_last
      ∧ calls.*1 = (λ i, (current_step a + Z.of_nat i)%Z) <$> seq 1 (length calls)
      ∧ current_step a_last = (current_step a + Z.of_nat (length calls))%Z
      ∧ max_steps a_last = max_steps a
      ∧ (current_step a_last ≤ max_steps a)%Z
      ∧ match out with
        | Ret results' =>
            results' = results ++ calls.*2
            ∧ (a_out = a_last
               ∨ _cancelled a_last = true
                 ∧ a_out = set_trace
                             (trace a_last
                              ++ [Log LvInfo "执行步骤后发现任务取消请求，停止执行"]) a_last)
        | Raise ex =>
            step (at_step a_last) = (Raise ex, a_out)
            ∧ (current_step (at_step a_last) ≤ max_steps a)%Z
        | OutOfFuel => False
        end.
Proof.
  intros Hkeep fuel. induction fuel as [|fuel IH]; intros results a out a_out;
    cbn [while_loop].
  - destruct (loop_cond a); intros [= <- <-] Hout Hle; [done|].
    exists [], a. split; [constructor|]. cbn. rewrite app_nil_r, Z.add_0_r.
    repeat split; try done. by left.
  - destruct (loop_cond a) eqn:Hcond.
    + pose proof Hcond as (Hlt & _ & Hc)%loop_cond_true.
      rewrite (loop_body_unfold results a Hc).
      destruct (before_step_at_step a) as (_ & Hcs1 & Hms1 & _).
      destruct (step (at_step a)) as [[r|ex|] a2] eqn:Hstep.
      * destruct (Hkeep _ _ _ Hstep) as [Hcs2 Hms2].
        destruct (recovered_same_control a2) as (Hcs3 & Hms3 & _).
        assert (successive a [(current_step (at_step a), r)] (recovered a2)) as Hone
          by (econstructor; [exact Hstep|constructor]).
        destruct (_cancelled (recovered a2)) eqn:Hc2.
        -- intros [= <- <-] _ _. eexists _, _. split; [exact Hone|].
           cbn [fmap list_fmap length seq fst snd app].
           rewrite Hcs3, Hms3, Hcs2, Hms2, Hcs1, Hms1.
           split; [done|]. split; [lia|]. split; [done|].
           split; [lia|]. split; [done|]. by right.
        -- intros Hrest Hout _.
           destruct (IH _ _ _ _ Hrest Hout) as (calls & a_last & Hcalls & Hcounts & Hcs
                                                 & Hms & Hle' & Hleft); [lia|].
           exists ((current_step (at_step a), r) :: calls), a_last.
           split; [econstructor; [exact Hstep|exact Hcalls]|].
           split.
           { cbn [fmap list_fmap length seq fst]. rewrite Hcounts.
             replace (current_step (at_step a)) with (current_step a + Z.of_nat 1)%Z by lia.
             apply (f_equal (cons _)).
             rewrite <- (fmap_S_seq 1), <- list_fmap_compose. apply list_fmap_ext.
             intros _ i _. cbn. lia. }
           cbn [length].
           rewrite Hcs3, Hcs2, Hcs1 in Hcs. rewrite Hms3, Hms2, Hms1 in Hms, Hle', Hleft.
           split; [lia|]. split; [done|]. split; [done|].
           destruct out as [results'|ex|]; [| |done].
           ++ destruct Hleft as (-> & Hend). by rewrite <- app_assoc.
           ++ done.
      * intros [= <- <-] _ _. exists [], a. split; [constructor|]. cbn.
        rewrite Z.add_0_r. repeat split; try done; lia.
      * by intros [= <- <-].
    + intros [= <- <-] _ Hle. exists [], a. split; [constructor|]. cbn.
      rewrite app_nil_r, Z.add_0_r. repeat split; try done. by left.
Qed.

(** With a step function that never ends the run, the loop uses up the
    budget: one step per unit left, and then it is over. *)
Lemma while_loop_uses_budget :
  step_keeps_counters → step_never_terminal →
  ∀ n fuel results a,
    Z.to_nat (max_steps a - current_step a) = n → n ≤ fuel →
    state a ≠ FINISHED → _cancelled a = false →
    ∃ rs a',
      while_loop fuel results a = (Ret (results ++ rs), a')
      ∧ length rs = n
      ∧ current_step a' = Z.max (current_step a) (max_steps a)
      ∧ max_steps a' = max_steps a
      ∧ state a' ≠ FINISHED ∧ _cancelled a' = false.
Proof.
  intros Hkeep Hnever n.
  induction n as [|n IH]; intros fuel results a Hn Hfuel Hst Hc.
  - exists [], a. rewrite app_nil_r.
    assert (loop_cond a = false) as Hcond.
    { apply not_true_iff_false. rewrite loop_cond_true. lia. }
    destruct fuel; cbn [while_loop]; rewrite Hcond; repeat split; try done; lia.
  - destruct fuel as [|fuel]; [lia|].
    assert (loop_cond a = true) as Hcond by (apply loop_cond_true; split; [lia|done]).
    cbn [while_loop]. rewrite Hcond, (loop_body_unfold results a Hc).
    destruct (before_step_at_step a) as (_ & Hcs1 & Hms1 & Hst1 & Hc1).
    destruct (Hnever (at_step a)) as (r & a2 & Hstep & Hst2 & Hc2).
    destruct (Hkeep _ _ _ Hstep) as [Hcs2 Hms2].
    destruct (recovered_same_control a2) as (Hcs3 & Hms3 & Hst3 & Hc3 & _).
    rewrite Hstep, Hc3, Hc2 by congruence.
    destruct (IH fuel (results ++ [r]) (recovered a2)) as (rs & a' & Hrun & Hlen & H');
      [lia|lia|rewrite Hst3; apply Hst2; congruence|rewrite Hc3; apply Hc2; congruence|].
    exists (r :: rs), a'. rewrite Hrun, <- app_assoc. cbn [app length].
    split; [done|]. split; [lia|]. destruct H' as (-> & -> & ? & ?).
    repeat split; try done; lia.
Qed.



(** An exception of the step function leaves the loop. *)
Lemma while_loop_step_raises fuel results a ex a2 :
  loop_cond a = true → step (at_step a) = (Raise ex, a2) →
  while_loop (S fuel) results a = (Raise ex, a2).
Proof.
  intros Hcond Hstep.
  pose proof Hcond as (_ & _ & Hc)%loop_cond_true.
  cbn [while_loop]. by rewrite Hcond, (loop_body_unfold results a Hc), Hstep.
Qed.

(** The loop raises only what the step function raised. *)
Lemma while_loop_raise_from_step fuel : ∀ results a ex a',
  while_loop fuel results a = (Raise ex, a') →
  ∃ a1, step (at_step a1) = (Raise ex, a').
Proof.
  induction fuel as [|fuel IH]; intros results a ex a'; cbn [while_loop].
  - by destruct (loop_cond a).
  - destruct (loop_cond a) eqn:Hcond; [|done].
    pose proof Hcond as (_ & _ & Hc)%loop_cond_true.
    rewrite (loop_body_unfold results a Hc).
    destruct (step (at_step a)) as [[r|ex2|] a2] eqn:Hstep; [| |done].
    + destruct (_cancelled (recovered a2)); [done|]. apply IH.
    + intros [= <- <-]. by exists a.
Qed.

Lemma conclude_cancelled results a :
  _cancelled a = true → conclude results a = (Ret Cancelled, a).
Proof.
  intros Hc. unfold conclude.
  by rewrite (bind_ret _ _ a true a) by (unfold gets; by rewrite Hc).
Qed.

Lemma conclude_finished results a :
  _cancelled a = false →
  ∃ response a', conclude results a = (Ret (Finished response), a') ∧ same_control a a'.
Proof.
  intros Hc. unfold conclude.
  rewrite (bind_ret _ _ a false a) by (unfold gets; by rewrite Hc).
  destruct (notify_thinking_ret "任务执行完毕，正在总结结果..." a) as (a1 & Hn & H1 & _).
  rewrite (bind_ret _ _ _ _ _ Hn).
  rewrite (bind_ret _ _ a1 (memory a1) a1) by done.
  destruct (get_last_assistant_message (memory a1)); [by eauto|].
  destruct (nonempty results); by eauto.
Qed.

(** The run after a loop that an exception left. *)
Lemma run_leave_exception msg a_out :
  ∃ a', run_leave (Raise (Exception msg), a_out) = (Ret (Errored msg), a')
        ∧ trace a' = trace a_out
                     ++ [Transition ERROR; Transition IDLE;
                         Log LvError ("Error running MCP agent: " +:+ msg)]
        ∧ state a' = IDLE ∧ cancel_attrs a' = false
        ∧ mcp_clients a' = mcp_clients a_out
        ∧ current_step a' = current_step a_out.
Proof.
  eexists. split; [reflexivity|]. cbn. by rewrite <- app_assoc.
Qed.

(** The run after a loop that was left with the cancellation flag set. *)
Lemma run_leave_cancelled results a_out :
  _cancelled a_out = true →
  ∃ a', run_leave (Ret results, a_out) = (Ret Cancelled, a')
        ∧ state a' = IDLE ∧ cancel_attrs a' = false
        ∧ current_step a' = current_step a_out.
Proof.
  intros Hc. unfold run_leave, try_finally, try_except. cbn [state_exit snd].
  set (a1 := set_trace _ _).
  rewrite (bind_ret _ _ a_out results a1) by done.
  rewrite conclude_cancelled by done.
  eexists. split; [reflexivity|]. done.
Qed.

(** The run after a loop that was left without cancellation. *)
Lemma run_leave_finished results a_out :
  _cancelled a_out = false →
  ∃ response a', run_leave (Ret results, a_out) = (Ret (Finished response), a')
        ∧ state a' = IDLE ∧ cancel_attrs a' = false
        ∧ current_step a' = current_step a_out.
Proof.
  intros Hc. unfold run_leave, try_finally, try_except. cbn [state_exit snd].
  set (a1 := set_trace _ _).
  rewrite (bind_ret _ _ a_out results a1) by done.
  destruct (conclude_finished results a1) as (response & a2 & -> & H2); [done|].
  destruct H2 as (?&?&?&?&?&?&?&?). subst a1. cbn in *.
  eexists _, _. split; [reflexivity|]. cbn. repeat split; congruence.
Qed.

Lemma run_render fuel prompt a o a' :
  fuel = Z.to_nat (max_steps a) →
  run_outcome fuel prompt a = (Ret o, a') → run prompt a = (Ret (render o), a').
Proof. intros -> Ho. unfold run, fmap, M_fmap. by rewrite Ho. Qed.

(** C2. In a run whose step budget is not negative and whose step function
    leaves the counters alone, the loop is entered with the step counter at
    0, and however it is left, the calls of the step function it has made
    are made at the step counts 1, 2, ... in order, none above the budget;
    a loop that returns has as results what these calls returned, one
    result per call, and a loop that an exception left has made one more
    call, the one that raised, also within the budget. If moreover the step
    function never ends the run, the loop calls it exactly as many times as
    the budget says, three times for a budget of three, and the run then
    ends as Finished: it returns its response. *)
Theorem step_budget_bounds_the_run prompt a mc :
  step_keeps_counters → (0 ≤ max_steps a)%Z → mcp_clients a = Some mc →
  ∃ a_in,
    run_enter prompt a = (Ret tt, a_in)
    ∧ current_step a_in = 0%Z
    ∧ (∀ fuel out a_out,
         while_loop fuel [] a_in = (out, a_out) → out ≠ OutOfFuel →
         ∃ calls a_last,
           successive a_in calls a_last
           ∧ calls.*1 = Z.of_nat <$> seq 1 (length calls)
           ∧ Forall (λ call, (1 ≤ call.1 ≤ max_steps a)%Z) calls
           ∧ match out with
             | Ret results =>
                 results = calls.*2
                 ∧ current_step a_out = Z.of_nat (length calls)
                 ∧ (0 ≤ current_step a_out ≤ max_steps a)%Z
             | Raise ex =>
                 step (at_step a_last) = (Raise ex, a_out)
                 ∧ current_step (at_step a_last) = Z.of_nat (S (length calls))
                 ∧ (1 ≤ current_step (at_step a_last) ≤ max_steps a)%Z
             | OutOfFuel => False
             end)
    ∧ (step_never_terminal →
       ∃ calls a_out response a',
         successive a_in calls a_out
         ∧ calls.*1 = Z.of_nat <$> seq 1 (Z.to_nat (max_steps a))
         ∧ length calls = Z.to_nat (max_steps a)
         ∧ while_loop (Z.to_nat (max_steps a)) [] a_in = (Ret calls.*2, a_out)
         ∧ current_step a_out = max_steps a
         ∧ (max_steps a = 3%Z →
            ∃ r1 r2 r3, calls = [(1%Z, r1); (2%Z, r2); (3%Z, r3)])
         ∧ run_outcome (Z.to_nat (max_steps a)) prompt a = (Ret (Finished response), a')
         ∧ run prompt a = (Ret response, a')
         ∧ current_step a' = max_steps a).
Proof.
  intros Hkeep Hbudget Hmc.
  destruct (run_outcome_split (Z.to_nat (max_steps a)) prompt a mc Hmc)
    as (a_in & Henter & Hsplit & Hcs & Hms & Hst & Hc & _).
  assert (∀ fuel out a_out,
            while_loop fuel [] a_in = (out, a_out) → out ≠ OutOfFuel →
            ∃ calls a_last,
              successive a_in calls a_last
              ∧ calls.*1 = Z.of_nat <$> seq 1 (length calls)
              ∧ Forall (λ call, (1 ≤ call.1 ≤ max_steps a)%Z) calls
              ∧ match out with
                | Ret results =>
                    results = calls.*2
                    ∧ current_step a_out = Z.of_nat (length calls)
                    ∧ (0 ≤ current_step a_out ≤ max_steps a)%Z
                | Raise ex =>
                    step (at_step a_last) = (Raise ex, a_out)
                    ∧ current_step (at_step a_last) = Z.of_nat (S (length calls))
                    ∧ (1 ≤ current_step (at_step a_last) ≤ max_steps a)%Z
                | OutOfFuel => False
                end) as Hany.
  { intros fuel out a_out Hloop Hout.
    destruct (while_loop_calls Hkeep fuel [] a_in out a_out Hloop Hout)
      as (calls & a_last & Hcalls & Hcounts & Hcs' & Hms' & Hle & Hleft); [lia|].
    rewrite Hcs in Hcounts, Hcs'. rewrite Hms in Hms', Hle, Hleft.
    assert (calls.*1 = Z.of_nat <$> seq 1 (length calls)) as Hcounts'.
    { rewrite Hcounts. apply list_fmap_ext. intros _ i _. lia. }
    exists calls, a_last. split; [exact Hcalls|]. split; [exact Hcounts'|]. split.
    - apply Forall_forall. intros [n r] Hin.
      assert (n ∈ calls.*1) as Hn by (apply list_elem_of_fmap; by exists (n, r)).
      rewrite Hcounts' in Hn. apply list_elem_of_fmap in Hn as (i & -> & Hi).
      apply elem_of_seq in Hi. cbn. lia.
    - destruct (before_step_at_step a_last) as (_ & Hcs1 & _).
      destruct out as [results|ex|]; [| |done].
      + destruct Hleft as (-> & [->|[_ ->]]); cbn [app current_step set_trace];
          (split; [done|]); split; lia.
      + destruct Hleft as (Hraise & Hle'). split; [done|]. split; lia. }
  exists a_in. split; [done|]. split; [done|]. split; [exact Hany|].
  intros Hnever.
  destruct (while_loop_uses_budget Hkeep Hnever (Z.to_nat (max_steps a))
              (Z.to_nat (max_steps a)) [] a_in)
    as (results & a_out & Hloop & Hlen & Hcs' & Hms' & Hst' & Hc');
    [rewrite Hms, Hcs; f_equal; lia|done|by rewrite Hst|done|].
  cbn [app] in Hloop.
  destruct (while_loop_calls Hkeep _ [] a_in _ a_out Hloop ltac:(done))
    as (calls & a_last & Hcalls & Hcounts & _ & _ & _ & Hleft); [lia|].
  destruct Hleft as (-> & Hend). cbn [app] in *.
  assert (a_out = a_last) as <-.
  { destruct Hend as [->|[Hflag ->]]; [done|]. cbn in Hc'. congruence. }
  rewrite length_fmap in Hlen. rewrite Hcs, Hlen in Hcounts.
  assert (calls.*1 = Z.of_nat <$> seq 1 (Z.to_nat (max_steps a))) as Hcounts'.
  { rewrite Hcounts. apply list_fmap_ext. intros _ i _. lia. }
  destruct (run_leave_finished (calls.*2) a_out Hc')
    as (response & a' & Hleave & _ & _ & Hcs'').
  assert (current_step a_out = max_steps a) as Hout by lia.
  exists calls, a_out, response, a'.
  split; [done|]. split; [done|]. split; [done|]. split; [done|]. split; [done|].
  split.
  - intros Hthree. rewrite Hthree in Hlen. change (Z.to_nat 3) with 3 in Hlen.
    rewrite Hthree in Hcounts'. change (Z.to_nat 3) with 3 in Hcounts'.
    destruct calls as [|[n1 r1] [|[n2 r2] [|[n3 r3] [|]]]]; try discriminate Hlen.
    cbn in Hcounts'. injection Hcounts' as -> -> ->. by exists r1, r2, r3.
  - split; [by rewrite Hsplit, Hloop|]. split; [|congruence].
    apply (run_render (Z.to_nat (max_steps a)) prompt a (Finished response)); [done|].
    by rewrite Hsplit, Hloop.
Qed.

(** The run after a loop that an exception of the step function left. *)
Lemma run_after_exception prompt a mc a_in msg a_out :
  mcp_clients a = Some mc → run_enter prompt a = (Ret tt, a_in) →
  while_loop (Z.to_nat (max_steps a)) [] a_in = (Raise (Exception msg), a_out) →
  ∃ a', run prompt a = (Ret ("执行出错: " +:+ msg), a')
        ∧ state a' = IDLE ∧ cancel_attrs a' = false
        ∧ _cancelled a' = _cancelled a_out
        ∧ trace a' = trace a_out
                     ++ [Transition ERROR; Transition IDLE;
                         Log LvError ("Error running MCP agent: " +:+ msg)].
Proof.
  intros Hmc Henter Hloop.
  destruct (run_outcome_split (Z.to_nat (max_steps a)) prompt a mc Hmc)
    as (a_in' & Henter' & Hsplit & _).
  rewrite Henter in Henter'. injection Henter' as <-.
  destruct (run_leave_exception msg a_out) as (a' & Hleave & Htr & Hst & Hattrs & _).
  exists a'. split.
  - apply (run_render (Z.to_nat (max_steps a)) prompt a (Errored msg)); [done|].
    by rewrite Hsplit, Hloop.
  - split; [done|]. split; [done|]. split; [|done].
    unfold run_leave in Hleave. cbn in Hleave. by injection Hleave as <-.
Qed.


End Loop.

(** ** A failing refresh *)

Section FailingRefresh.
Context {E Schema : Type} `{!EqDecision Schema} {Ext : External E Schema}.
Implicit Types (a : Agent E Schema).

(** A refresh returns a diff on two paths only: without a session, and
    after the server has answered. *)
Lemma refresh_tools_returns a mc diff a' :
  mcp_clients a = Some mc → _refresh_tools a = (Ret diff, a') →
  (session mc = false ∧ diff = ([], []) ∧ a' = a)
  ∨ (session mc = true
     ∧ ∃ tools e,
         list_tools (env a) = (Ret tools, e)
         ∧ diff = (added_of (tool_schemas a) (dict_of_tools tools),
                   removed_of (tool_schemas a) (dict_of_tools tools))
         ∧ tool_schemas a' = dict_of_tools tools).
Proof.
  intros Hmc Hrun. destruct (session mc) eqn:Hs.
  - right. split; [done|].
    destruct (list_tools (env a)) as [[tools|ex|] e] eqn:Hlt.
    + destruct (refresh_tools_answered a mc tools e Hmc Hs Hlt) as (a1 & Hrun1 & Hts & _).
      rewrite Hrun in Hrun1. injection Hrun1 as -> ->. by exists tools, e.
    + rewrite (refresh_tools_failed a mc ex e Hmc Hs Hlt) in Hrun. discriminate Hrun.
    + exfalso. revert Hrun.
      unfold _refresh_tools, the_mcp_clients, call_list_tools, mbind, M_bind.
      rewrite Hmc, Hs. cbn [negb]. by rewrite Hlt.
  - left. rewrite (refresh_tools_without_session a mc Hmc Hs) in Hrun.
    by injection Hrun as <- <-.
Qed.

(** C6, as the code has it. When fetching the tool list fails,
    [_refresh_tools] returns no diff: the exception leaves it, with the
    snapshot and everything else but the state of the server as before, and
    [think] lets it through to the step that called it. A step that raises
    ends the loop, and [run] returns the text of the error as its result.
    A diff is returned on two paths only: without a session, the empty diff
    and nothing touched, and after the server has answered, the diff of
    what it listed. *)
Theorem refresh_failure_propagates a mc ex e :
  mcp_clients a = Some mc → session mc = true →
  list_tools (env a) = (Raise ex, e) →
  _refresh_tools a = (Raise ex, set_env e a)
  ∧ tool_schemas (set_env e a) = tool_schemas a
  ∧ (tool_map mc ≠ ∅ → (current_step a `mod` _refresh_tools_interval = 0)%Z →
     think a = (Raise ex, set_env e a))
  ∧ (∀ fuel results a1 a2,
       loop_cond a1 = true → step (at_step a1) = (Raise ex, a2) →
       while_loop (S fuel) results a1 = (Raise ex, a2))
  ∧ (∀ msg prompt a0 mc0 a_in a_out,
       ex = Exception msg →
       mcp_clients a0 = Some mc0 → run_enter prompt a0 = (Ret tt, a_in) →
       while_loop (Z.to_nat (max_steps a0)) [] a_in = (Raise ex, a_out) →
       ∃ a', run prompt a0 = (Ret ("执行出错: " +:+ msg), a')
             ∧ state a' = IDLE
             ∧ error_records (trace a')
               = error_records (trace a_out) ++ ["Error running MCP agent: " +:+ msg])
  ∧ (∀ a0 mc0, mcp_clients a0 = Some mc0 → session mc0 = false →
     _refresh_tools a0 = (Ret ([], []), a0))
  ∧ (∀ a0 mc0 diff a',
       mcp_clients a0 = Some mc0 → _refresh_tools a0 = (Ret diff, a') →
       (session mc0 = false ∧ diff = ([], []) ∧ a' = a0)
       ∨ (session mc0 = true
          ∧ ∃ tools e0,
              list_tools (env a0) = (Ret tools, e0)
              ∧ diff = (added_of (tool_schemas a0) (dict_of_tools tools),
                        removed_of (tool_schemas a0) (dict_of_tools tools))
              ∧ tool_schemas a' = dict_of_tools tools)).
Proof.
  intros Hmc Hs Hlt.
  pose proof (refresh_tools_failed a mc ex e Hmc Hs Hlt) as Hfail.
  split; [done|]. split; [done|]. split; [|split; [|split; [|split]]].
  - intros Htm Hmod. by rewrite (think_refreshing a mc Hmc Hs Htm Hmod), Hfail.
  - intros fuel results a1 a2. apply while_loop_step_raises.
  - intros msg prompt a0 mc0 a_in a_out -> Hmc0 Henter Hloop.
    destruct (run_after_exception prompt a0 mc0 a_in msg a_out Hmc0 Henter Hloop)
      as (a' & Hrun & Hst & _ & _ & Htr).
    exists a'. split; [done|]. split; [done|].
    rewrite Htr. unfold error_records. by rewrite bind_app.
  - intros a0 mc0. apply refresh_tools_without_session.
  - intros a0 mc0 diff a'. apply refresh_tools_returns.
Qed.

End FailingRefresh.

(** ** Conversation history *)

Lemma string_app_cons c (s1 s2 : string) : String c s1 +:+ s2 = String c (s1 +:+ s2).
Proof. done. Qed.

Lemma startswith_app p s : PyStr.startswith p (p +:+ s) = true.
Proof.
  induction p as [|c p IH]; [done|].
  rewrite string_app_cons. cbn [PyStr.startswith]. by rewrite Ascii.eqb_refl.
Qed.

Lemma string_app_assoc (s1 s2 s3 : string) : (s1 +:+ s2) +:+ s3 = s1 +:+ (s2 +:+ s3).
Proof. induction s1 as [|c s1 IH]; [done|]. by rewrite !string_app_cons, IH. Qed.

Lemma string_app_nil_r (s : string) : s +:+ "" = s.
Proof. induction s as [|c s IH]; [done|]. by rewrite string_app_cons, IH. Qed.

Lemma rev_app s1 s2 : PyStr.rev (s1 +:+ s2) = PyStr.rev s2 +:+ PyStr.rev s1.
Proof.
  induction s1 as [|c s1 IH].
  - by rewrite string_app_nil_r.
  - rewrite string_app_cons. cbn [PyStr.rev]. by rewrite IH, string_app_assoc.
Qed.

Lemma endswith_app s suf : PyStr.endswith suf (s +:+ suf) = true.
Proof. unfold PyStr.endswith. rewrite rev_app. apply startswith_app. Qed.

Section History.
Context {File : Type}.
Variable json_dump : JSON → File.
Variable json_load : File → option JSON.
Hypothesis json_load_dump : ∀ data, json_load (json_dump data) = Some data.

Import ChatHistory.

Lemma filename_is_json timestamp history_id :
  PyStr.endswith ".json" (filename_of timestamp history_id) = true.
Proof.
  unfold filename_of.
  rewrite <- (string_app_assoc timestamp), <- (string_app_assoc (timestamp +:+ "_")).
  apply endswith_app.
Qed.

Lemma history_data_id history_id isotime client_id messages :
  py_get "id" (history_data history_id isotime client_id messages) = Some (JStr history_id).
Proof. done. Qed.

Lemma history_data_messages history_id isotime client_id messages :
  messages_of (history_data history_id isotime client_id messages) = Some messages.
Proof. done. Qed.

(** The loop finds the record in any listing that holds it and in which
    no other file carries the identifier. *)
Lemma scan_finds history_id filename data (files : list (string * File)) :
  py_get "id" data = Some (JStr history_id) →
  (filename, json_dump data) ∈ files →
  (∀ file f, (file, f) ∈ files →
     f = json_dump data
     ∨ ∀ data' v, json_load f = Some data' → py_get "id" data' = Some v →
                  eq_str v history_id = false) →
  (scan json_load files history_id).1 = Some data.
Proof.
  intros Hid.
  induction files as [|[file f] rest IH]; intros Hin Hothers.
  - by apply elem_of_nil in Hin.
  - cbn [scan].
    destruct (Hothers file f) as [-> | Hno]; [left|..].
    + rewrite json_load_dump. cbn. rewrite Hid. cbn.
      by rewrite String.eqb_refl.
    + assert ((filename, json_dump data) ∈ rest) as Hin'.
      { apply elem_of_cons in Hin as [Heq|]; [|done].
        injection Heq as _ Hf. exfalso. rewrite <- Hf in Hno.
        specialize (Hno data (JStr history_id) (json_load_dump _) Hid).
        cbn in Hno. by rewrite String.eqb_refl in Hno. }
      assert ((scan json_load rest history_id).1 = Some data) as Hrest.
      { apply IH; [done|]. intros file' f' Hf'. apply (Hothers file' f'). by right. }
      destruct (json_load f) as [data'|] eqn:Hload; cbn.
      * destruct (py_get "id" data') as [v|] eqn:Hget; cbn.
        -- by rewrite (Hno data' v eq_refl Hget).
        -- by destruct (scan json_load rest history_id).
      * by destruct (scan json_load rest history_id).
Qed.

Lemma conversation_length pairs : length (conversation pairs) = 2 * length pairs.
Proof.
  unfold conversation. induction pairs as [|x pairs IH]; [done|].
  cbn in *. rewrite IH. lia.
Qed.

(** Saving any list of messages and reloading it. *)
Lemma save_then_get history_id timestamp isotime client_id messages dir :
  fresh_id json_load history_id (filename_of timestamp history_id) dir →
  let saved := save_conversation json_dump history_id timestamp isotime client_id
                 messages dir in
  let data := history_data history_id isotime client_id messages in
  saved.1 = history_id
  ∧ (∀ files, files ≡ₚ glob_json saved.2 →
              (scan json_load files saved.1).1 = Some data)
  ∧ get_conversation json_load saved.1 saved.2 = Some data
  ∧ messages_of data = Some messages.
Proof.
  intros Hfresh saved data. cbn [saved save_conversation fst snd].
  split; [done|].
  assert (∀ files,
            files ≡ₚ glob_json (<[filename_of timestamp history_id := json_dump data]> dir) →
            (scan json_load files history_id).1 = Some data) as Hscan.
  { intros files Hperm.
    apply (scan_finds history_id (filename_of timestamp history_id));
      [apply history_data_id| |].
    - rewrite Hperm. unfold glob_json. apply list_elem_of_filter. split.
      + apply filename_is_json.
      + apply elem_of_map_to_list. apply lookup_insert_eq.
    - intros file f Hf. rewrite Hperm in Hf.
      apply list_elem_of_filter in Hf as [_ Hf]. apply elem_of_map_to_list in Hf.
      destruct (decide (file = filename_of timestamp history_id)) as [->|Hne].
      + rewrite lookup_insert_eq in Hf. left. congruence.
      + rewrite lookup_insert_ne in Hf by done. right.
        intros data' v. by apply (Hfresh file f). }
  split; [done|]. split; [|done].
  unfold get_conversation. by apply Hscan.
Qed.

(** C10. A conversation of N user/assistant message pairs that is saved
    and then looked up under the identifier generated at save time comes
    back as the same sequence of 2N messages, whatever the order in which
    the directory is listed; the identifier is taken to be one that no
    record of the directory carries yet, and [json.load] to read back
    what [json.dump] wrote. *)
Theorem saved_conversation_is_reloaded
    (pairs : list Exchange) history_id timestamp isotime client_id dir :
  fresh_id json_load history_id (filename_of timestamp history_id) dir →
  let messages := conversation pairs in
  let saved := save_conversation json_dump history_id timestamp isotime client_id
                 messages dir in
  ∃ data,
    get_conversation json_load saved.1 saved.2 = Some data
    ∧ messages_of data = Some messages
    ∧ length messages = 2 * length pairs
    ∧ (∀ files, files ≡ₚ glob_json saved.2 →
                (scan json_load files saved.1).1 = Some data).
Proof.
  intros Hfresh messages saved.
  destruct (save_then_get history_id timestamp isotime client_id messages dir Hfresh)
    as (_ & Hscan & Hget & Hmsgs).
  eexists. split; [exact Hget|]. split; [exact Hmsgs|].
  split; [apply conversation_length|exact Hscan].
Qed.
End History.

(** ** The web session *)

Section WebFacts.
Context {E Schema File : Type} `{!EqDecision Schema} {Ext : External E Schema}.
Variable json_dump : JSON → File.
Variable uuid4 strftime_now isoformat_now : nat → string.
Variable thinking_callback : nat → Callback E.
Variable thinking_steps : nat → E → list string.
Variable others : nat → Slots → Slots.
Variable excerpt_error : JSON → string.
Variable run_list : list JSON → M E Schema string.
Implicit Types (w : Web File) (a : Agent E Schema).

Local Abbreviation process :=
  (process_agent_response thinking_callback others excerpt_error run_list).
Local Abbreviation loop :=
  (websocket_loop json_dump uuid4 strftime_now isoformat_now thinking_callback
     thinking_steps others excerpt_error run_list).
Local Abbreviation prompted :=
  (on_prompt json_dump uuid4 strftime_now isoformat_now thinking_callback
     thinking_steps others excerpt_error run_list).
Local Abbreviation handled :=
  (on_message json_dump uuid4 strftime_now isoformat_now thinking_callback
     thinking_steps others excerpt_error run_list).
Local Abbreviation unshared := (spares others).
Local Abbreviation paused := (suspend others).

(** What a suspension leaves alone. *)
Lemma suspend_spares client_id w :
  unshared client_id →
  active_tasks (paused w) !! client_id = active_tasks w !! client_id
  ∧ cancel_flags (paused w) !! client_id = cancel_flags w !! client_id.
Proof. intros Hspares. apply (Hspares (awaits w) (active_tasks w, cancel_flags w)). Qed.

Lemma prepared_frame client_id w :
  chat_messages (prepared others client_id w) = chat_messages w
  ∧ history_dir (prepared others client_id w) = history_dir w
  ∧ clock (prepared others client_id w) = clock w
  ∧ calls (prepared others client_id w) = S (calls w)
  ∧ tasks_created (prepared others client_id w) = tasks_created w
  ∧ runs_started (prepared others client_id w) = runs_started w
  ∧ web_log (prepared others client_id w) = web_log w
  ∧ sent (prepared others client_id w)
    = sent w ++ [ {| ev_type := "system"; ev_content := "正在处理您的请求..." |} ]
  ∧ (unshared client_id →
     active_tasks (prepared others client_id w) !! client_id = active_tasks w !! client_id
     ∧ cancel_flags (prepared others client_id w) !! client_id = Some false).
Proof.
  do 8 (split; [reflexivity|]). intros Hspares. unfold prepared, send_json.
  cbn [active_tasks cancel_flags set_calls].
  destruct (suspend_spares client_id
              (set_sent
                 (sent (set_cancel_flags (<[client_id := false]> (cancel_flags w)) w)
                  ++ [{| ev_type := "system"; ev_content := "正在处理您的请求..." |}])
                 (set_cancel_flags (<[client_id := false]> (cancel_flags w)) w)) Hspares)
    as [-> ->].
  cbn. by rewrite lookup_insert_eq.
Qed.

(** [process_agent_response] on a prompt of which no excerpt can be taken. *)
Lemma process_agent_response_unsliceable prompt client_id w a :
  sliceable prompt = false →
  process prompt client_id w a
  = (Raise (Exception (excerpt_error prompt)),
     release client_id
       (web_error ("处理请求时出错: " +:+ excerpt_error prompt) (prepared others client_id w)),
     (add_thinking_callback (thinking_callback (calls w)) a).2).
Proof. intros Hno. by destruct prompt. Qed.

(** [process_agent_response] on a prompt that is run, by the result of the
    run. *)
Lemma process_agent_response_run prompt run_it client_id w a :
  runnable run_list prompt = Some run_it →
  let a0 := (add_thinking_callback (thinking_callback (calls w)) a).2 in
  let w1 := paused (create_task client_id
                      (web_info ("客户端 " +:+ client_id +:+ " 开始执行请求")
                         (prepared others client_id w))) in
  process prompt client_id w a
  = match run_it a0 with
    | (Ret response, a1) =>
        let w2 := web_info ("客户端 " +:+ client_id +:+ " 的请求执行完成") w1 in
        match cancel_flags w2 !! client_id with
        | Some true =>
            (Ret None, release client_id (send_json others "system" "任务已被终止" w2), a1)
        | Some false =>
            (Ret (Some {| reply_prompt := prompt; reply_response := response;
                          reply_thinking_steps := calls w |}),
             release client_id (send_json others "response" response w2), a1)
        | None =>
            (Raise (Exception ("'" +:+ client_id +:+ "'")),
             release client_id
               (web_error ("处理请求时出错: '" +:+ client_id +:+ "'") w2), a1)
        end
    | (Raise CancelledError, a1) =>
        (Ret None,
         release client_id
           (web_info ("客户端 " +:+ client_id +:+ " 的请求处理被取消")
              (web_info ("客户端 " +:+ client_id +:+ " 的请求被取消") w1)),
         if cancel_attrs a1 then (cancel_run a1).2 else a1)
    | (Raise (Exception msg), a1) =>
        (Raise (Exception msg),
         release client_id
           (web_error ("处理请求时出错: " +:+ msg)
              (send_json others "error" ("执行出错: " +:+ msg)
                 (web_error ("执行请求时出错: " +:+ msg) w1))), a1)
    | (OutOfFuel, a1) => (OutOfFuel, w1, a1)
    end.
Proof.
  intros Hrun a0 w1. unfold process_agent_response. rewrite Hrun.
  change (calls (send_json _ _ _ _)) with (calls w).
  fold a0. by destruct (run_it a0) as [[response|[msg|]|] a1].
Qed.

Lemma running_frame client_id w :
  let w1 := paused (create_task client_id
                      (web_info ("客户端 " +:+ client_id +:+ " 开始执行请求")
                         (prepared others client_id w))) in
  chat_messages w1 = chat_messages w ∧ history_dir w1 = history_dir w
  ∧ clock w1 = clock w ∧ calls w1 = S (calls w)
  ∧ tasks_created w1 = S (tasks_created w)
  ∧ runs_started w1
    = runs_started w
      ++ [(client_id,
           bool_decide (is_Some (active_tasks (prepared others client_id w) !! client_id)))]
  ∧ sent w1 = sent w ++ [ {| ev_type := "system"; ev_content := "正在处理您的请求..." |} ]
  ∧ (unshared client_id → cancel_flags w1 !! client_id = Some false).
Proof.
  intros w1. destruct (prepared_frame client_id w)
    as (Hchat & Hdir & Hclock & Hcalls & Htc & Hruns & _ & Hsent & Hslots).
  subst w1. cbn [chat_messages history_dir clock calls tasks_created runs_started sent
                 suspend create_task web_info set_web_log active_tasks].
  rewrite Hchat, Hdir, Hclock, Hcalls, Htc, Hruns, Hsent.
  do 7 (split; [reflexivity|]). intros Hspares.
  destruct (suspend_spares client_id
              (create_task client_id
                 (web_info ("客户端 " +:+ client_id +:+ " 开始执行请求")
                    (prepared others client_id w))) Hspares) as [_ Hflag].
  cbn [suspend] in Hflag. rewrite Hflag. cbn. by apply Hslots.
Qed.

(** What a call of [process_agent_response] does to the dictionaries and
    to the counters: the entries of the client are gone when it is over,
    one list and one closure are made, and a task is created exactly when
    an excerpt of the prompt can be taken. *)
Lemma process_agent_response_frame prompt client_id w a r w' a' :
  process prompt client_id w a = (r, w', a') →
  chat_messages w' = chat_messages w ∧ history_dir w' = history_dir w
  ∧ clock w' = clock w ∧ calls w' = S (calls w)
  ∧ (r ≠ OutOfFuel →
     active_tasks w' !! client_id = None ∧ cancel_flags w' !! client_id = None)
  ∧ (if sliceable prompt
     then tasks_created w' = S (tasks_created w)
          ∧ runs_started w'
            = runs_started w
              ++ [(client_id,
                   bool_decide (is_Some (active_tasks (prepared others client_id w) !! client_id)))]
     else tasks_created w' = tasks_created w ∧ runs_started w' = runs_started w
          ∧ r = Raise (Exception (excerpt_error prompt)))
  ∧ ∃ evs, sent w' = sent w
                     ++ {| ev_type := "system"; ev_content := "正在处理您的请求..." |} :: evs
           ∧ Forall (λ ev, ev_type ev = "system" → ev_content ev = "任务已被终止") evs
           ∧ (unshared client_id → Forall (λ ev, ev_type ev ≠ "system") evs).
Proof.
  destruct (runnable run_list prompt) as [run_it|] eqn:Hrunnable.
  - assert (sliceable prompt = true) as -> by (by destruct prompt).
    rewrite (process_agent_response_run prompt run_it client_id w a Hrunnable).
    destruct (running_frame client_id w)
      as (Hchat & Hdir & Hclock & Hcalls & Htc & Hruns & Hsent & Hflag).
    set (w1 := paused _) in *.
    destruct (run_it _) as [[response|[msg|]|] a1].
    + cbn zeta. cbn [cancel_flags web_info set_web_log].
      destruct (cancel_flags w1 !! client_id) as [[]|] eqn:Hlookup;
        intros [= <- <- <-]; cbn; rewrite ?lookup_delete_eq; rewrite ?Hsent, <- ?app_assoc;
        (do 4 (split; [done|])); (split; [done|]); (split; [done|]).
      * eexists [_]. split; [done|]. split; [by repeat constructor|].
        intros Hspares. discriminate (Hflag Hspares).
      * eexists [_]. split; [done|]. split; by repeat constructor.
      * exists []. by split.
    + intros [= <- <- <-]. cbn. rewrite ?lookup_delete_eq, ?Hsent, <- ?app_assoc.
      do 4 (split; [done|]). split; [done|]. split; [done|].
      eexists [_]. split; [done|]. split; by repeat constructor.
    + intros [= <- <- <-]. cbn. rewrite ?lookup_delete_eq.
      do 4 (split; [done|]). split; [done|]. split; [done|].
      exists []. by split.
    + intros [= <- <- <-]. do 4 (split; [done|]). split; [by intros []|]. split; [done|].
      exists []. by split.
  - assert (sliceable prompt = false) as Hno by (by destruct prompt).
    rewrite Hno, (process_agent_response_unsliceable prompt client_id w a Hno).
    destruct (prepared_frame client_id w)
      as (Hchat & Hdir & Hclock & Hcalls & Htc & Hruns & _ & Hsent & _).
    intros [= <- <- <-]. cbn. rewrite ?lookup_delete_eq.
    do 4 (split; [done|]). split; [done|]. split; [done|].
    exists []. by split.
Qed.

(** The slot of a client is free after the call, and the call has created
    a task, whether a task was held or not, when it could take an excerpt
    of the prompt. *)
Lemma process_agent_response_slot prompt client_id w a :
  ∃ r w' a',
    process prompt client_id w a = (r, w', a')
    ∧ (r ≠ OutOfFuel →
       active_tasks w' !! client_id = None ∧ cancel_flags w' !! client_id = None)
    ∧ (sliceable prompt = true →
       ∃ held, runs_started w' = runs_started w ++ [(client_id, held)]
               ∧ (unshared client_id →
                  held = bool_decide (is_Some (active_tasks w !! client_id))))
    ∧ (sliceable prompt = false →
       runs_started w' = runs_started w
       ∧ r = Raise (Exception (excerpt_error prompt))).
Proof.
  destruct (process prompt client_id w a) as [[r w'] a'] eqn:Hp.
  destruct (process_agent_response_frame _ _ _ _ _ _ _ Hp)
    as (_ & _ & _ & _ & Hfree & Hruns & _).
  exists r, w', a'. split; [done|]. split; [done|].
  destruct (sliceable prompt).
  - split; [|done]. intros _. destruct Hruns as [_ Hruns].
    eexists. split; [exact Hruns|]. intros Hspares.
    destruct (prepared_frame client_id w) as (_ & _ & _ & _ & _ & _ & _ & _ & Hslots).
    by destruct (Hslots Hspares) as [-> _].
  - split; [done|]. intros _. by destruct Hruns as (_ & ? & ?).
Qed.

Lemma on_prompt_slot prompt client_id w a :
  unshared client_id →
  ∃ r w' a',
    prompted prompt client_id w a = (r, w', a')
    ∧ (∃ started, runs_started w' = runs_started w ++ started
                  ∧ Forall (λ run, run = (client_id,
                                          bool_decide (is_Some (active_tasks w !! client_id))))
                      started)
    ∧ (r ≠ OutOfFuel → active_tasks w' !! client_id = None).
Proof.
  intros Hspares. unfold on_prompt.
  set (w1 := tick _).
  destruct (process_agent_response_slot prompt client_id w1 a)
    as (r & w' & a' & -> & Hfree & Hyes & Hno).
  assert (∃ started, runs_started w' = runs_started w ++ started
                     ∧ Forall (λ run, run = (client_id,
                                             bool_decide (is_Some (active_tasks w !! client_id))))
                         started) as Hruns.
  { destruct (sliceable prompt).
    - destruct (Hyes eq_refl) as (held & Hruns & Hheld). rewrite (Hheld Hspares) in Hruns.
      eexists. split; [exact Hruns|]. by repeat constructor.
    - destruct (Hno eq_refl) as [Hruns _]. exists []. by rewrite app_nil_r. }
  destruct r as [[result|]|[msg|]|].
  - eexists _, _, _. split; [reflexivity|].
    destruct (Hfree ltac:(done)) as [Hfree' _].
    destruct (bool_decide (0 < length _)); cbn; by split.
  - eexists _, _, _. split; [reflexivity|]. split; [done|]. intros _. by apply Hfree.
  - eexists _, _, _. split; [reflexivity|]. split; [done|]. intros _.
    unfold send_json. rewrite (proj1 (suspend_spares client_id _ Hspares)).
    by apply Hfree.
  - eexists _, _, _. split; [reflexivity|]. split; [done|]. intros _. by apply Hfree.
  - eexists _, _, _. split; [reflexivity|]. split; [done|]. by intros [].
Qed.

Lemma on_cancel_idle client_id w a :
  unshared client_id →
  active_tasks w !! client_id = None →
  ∃ w', on_cancel others client_id w a = (Ret tt, w', a)
        ∧ runs_started w' = runs_started w
        ∧ active_tasks w' !! client_id = None
        ∧ sent w' = sent w
                    ++ [ {| ev_type := "system"; ev_content := "没有正在运行的任务可终止" |} ].
Proof.
  intros Hspares Hfree. unfold on_cancel. rewrite Hfree.
  eexists. split; [reflexivity|]. split; [done|]. split; [|done].
  unfold send_json.
  destruct (suspend_spares client_id
              (set_sent (sent w ++ [{| ev_type := "system";
                                       ev_content := "没有正在运行的任务可终止" |}]) w)
              Hspares) as [-> _].
  done.
Qed.


End WebFacts.

(** ** The properties on concrete input *)

(** The refresh from {a, b} to {b, c}, run. *)
Lemma refresh_tools_reports_diff_witness :
  let a := agent_of 20 {["a" := 1; "b" := 2]} {["a" := 1; "b" := 2]} []
             (script_of [] (Ret [tool "b" 2; tool "c" 3])) in
  session {| session := true; tool_map := ({["a" := 1; "b" := 2]} : gmap string nat) |} = true
  ∧ ∃ a', _refresh_tools (Ext:=scripted) a = (Ret (["c"], ["a"]), a')
          ∧ changed_of (tool_schemas a) (tool_schemas a') = [].
Proof.
  intros a. split; [reflexivity|].
  destruct (refresh_tools_reports_diff (Ext:=scripted) a _ _ _ eq_refl eq_refl eq_refl)
    as ((a' & Hrun & Hts & _) & _ & _ & _ & _ & _ & _ & _ & Hscenario).
  destruct (Hscenario 1 2 3 eq_refl eq_refl) as (Hadded & Hremoved & Hchanged).
  exists a'. rewrite Hrun, Hadded, Hremoved, Hts. split; [reflexivity|exact Hchanged].
Defined.

(** The steady and the counting step function meet the two conditions on
    step functions. *)
Lemma steady_keeps_counters : step_keeps_counters (Ext:=steady).
Proof. intros a r a' [= <- <-]. done. Qed.

Lemma steady_never_terminal : step_never_terminal (Ext:=steady).
Proof. intros a. by exists "ok", a. Qed.

Lemma counting_keeps_counters : step_keeps_counters (Ext:=counting).
Proof. intros a r a' [= <- <-]. done. Qed.

Lemma counting_never_terminal : step_never_terminal (Ext:=counting).
Proof. intros a. by eexists _, _. Qed.

(** A budget of three steps and a step function that answers with the
    number of its call: the calls are made at the steps 1, 2 and 3, the
    step function has been called three times, and the run returns the
    three answers. *)
Lemma step_budget_bounds_the_run_witness :
  let a := agent_of 3 {["bash" := 0]} ∅ [] 0 in
  step_keeps_counters (Ext:=counting) ∧ step_never_terminal (Ext:=counting)
  ∧ (0 ≤ max_steps a)%Z
  ∧ ∃ a_in calls a_out a',
      run_enter "hi" a = (Ret tt, a_in)
      ∧ successive (Ext:=counting) a_in calls a_out
      ∧ calls = [(1%Z, "0"); (2%Z, "1"); (3%Z, "2")]
      ∧ run (Ext:=counting) "hi" a
        = (Ret ("0" +:+ PyStr.nl +:+ "1" +:+ PyStr.nl +:+ "2"), a')
      ∧ current_step a' = 3%Z ∧ env a' = 3.
Proof.
  intros a.
  split; [exact counting_keeps_counters|]. split; [exact counting_never_terminal|].
  split; [done|].
  destruct (step_budget_bounds_the_run (Ext:=counting) "hi" a _ counting_keeps_counters
              ltac:(done) eq_refl) as (a_in & Henter & _ & _ & Hfinished).
  destruct (Hfinished counting_never_terminal)
    as (calls & a_out & response & a' & Hcalls & _ & _ & Hloop & _ & Hthree & _ & Hrun & Hcount).
  destruct (Hthree eq_refl) as (r1 & r2 & r3 & ->).
  assert (run_enter "hi" a = (Ret tt, (run_enter "hi" a).2)) as Hin
    by (vm_compute; reflexivity).
  rewrite Hin in Henter. injection Henter as <-.
  assert (while_loop (Ext:=counting) (Z.to_nat (max_steps a)) [] (run_enter "hi" a).2
          = (Ret ["0"; "1"; "2"],
             (while_loop (Ext:=counting) (Z.to_nat (max_steps a)) []
                (run_enter "hi" a).2).2))
    as Hthe_loop by (vm_compute; reflexivity).
  rewrite Hthe_loop in Hloop. injection Hloop as <- <- <- <-.
  assert (run (Ext:=counting) "hi" a
          = (Ret ("0" +:+ PyStr.nl +:+ "1" +:+ PyStr.nl +:+ "2"),
             (run (Ext:=counting) "hi" a).2))
    as Hthe_run by (vm_compute; reflexivity).
  eexists _, _, _, _.
  split; [exact Hin|]. split; [exact Hcalls|]. split; [reflexivity|].
  split; [exact Hthe_run|]. split; vm_compute; reflexivity.
Defined.

(** A scripted step leaves the counters alone. *)
Lemma scripted_keeps_counters : step_keeps_counters (Ext:=scripted).
Proof.
  intros a r a'. cbn [step scripted]. unfold scripted_step.
  destruct (acts (env a)) as [|[] rest]; intros [= <- <-]; done.
Qed.


(** A server that fails to list its tools. *)
Lemma refresh_failure_propagates_witness :
  let a := agent_of 20 {["bash" := 0]} {["bash" := 0]} []
             (script_of [] (Raise (Exception "ProtocolError"))) in
  list_tools (External:=scripted) (env a) = (Raise (Exception "ProtocolError"), env a)
  ∧ _refresh_tools (Ext:=scripted) a = (Raise (Exception "ProtocolError"), a)
  ∧ think (Ext:=scripted) a = (Raise (Exception "ProtocolError"), a).
Proof.
  intros a. split; [reflexivity|].
  destruct (refresh_failure_propagates (Ext:=scripted) a _ _ _ eq_refl eq_refl eq_refl)
    as (Hrefresh & _ & Hthink & _).
  split; [exact Hrefresh|]. apply Hthink; [|reflexivity].
  intros Hempty. apply (f_equal (λ m : gmap string nat, m !! "bash")) in Hempty.
  discriminate Hempty.
Defined.

(** Surroundings without another connection spare every client. *)
Lemma alone_spares client_id : spares alone client_id.
Proof. by intros n slots. Qed.



(** Why the identifier of the client must not be shared: a second
    connection of the same client that leaves a task in the entry makes
    this connection create its task while one is held. *)
Lemma second_connection_shares_the_slot :
  let a := bash_agent [Terminate "done"] in
  active_tasks (empty_web (File:=JSON)) !! "c1" = None
  ∧ ¬ spares intruder "c1"
  ∧ ∃ r w' a',
      websocket_loop (Ext:=scripted) id (λ _, "id") (λ _, "ts") (λ _, "iso")
        quiet_callback no_steps intruder subscript_error no_lists [Prompt (JStr "hi")]
        "c1" empty_web a
      = (r, w', a')
      ∧ runs_started w' = [("c1", true)].
Proof.
  intros a. split; [reflexivity|]. split.
  - intros Hspares. destruct (Hspares 0 (∅, ∅)) as [Htasks _]. discriminate Htasks.
  - eexists _, _, _. split; [vm_compute; reflexivity|]. reflexivity.
Qed.

(** A directory that holds the documents themselves. *)
Lemma identity_codec (data : JSON) : Some (id data) = Some data.
Proof. reflexivity. Qed.

(** The identifier id-1 is new to a directory that holds the record id-0. *)
Lemma id_1_is_fresh :
  ChatHistory.fresh_id Some "id-1" (ChatHistory.filename_of "20250102_000000" "id-1")
    ({["20250101_000000_id-0.json" := old_record]} : gmap string JSON).
Proof.
  intros file f data v Hfile _ Hload Hid.
  apply lookup_singleton_Some in Hfile as [_ <-].
  injection Hload as <-. injection Hid as <-. reflexivity.
Qed.

(** One exchange saved next to an older record, and looked up. *)
Lemma saved_conversation_is_reloaded_witness :
  let dir : gmap string JSON := {["20250101_000000_id-0.json" := old_record]} in
  let saved := ChatHistory.save_conversation id "id-1" "20250102_000000" "2025-01-02T00:00:00"
                 "c1" (conversation [one_exchange]) dir in
  (∀ data : JSON, Some (id data) = Some data)
  ∧ ∃ data, ChatHistory.get_conversation Some saved.1 saved.2 = Some data
            ∧ ChatHistory.messages_of data = Some (conversation [one_exchange]).
Proof.
  intros dir saved. split; [exact identity_codec|].
  pose proof (saved_conversation_is_reloaded id Some identity_codec [one_exchange]
              "id-1" "20250102_000000" "2025-01-02T00:00:00" "c1" dir id_1_is_fresh)
    as (data & Hget & Hmessages & _).
  exists data. split; [exact Hget|exact Hmessages].
Defined.



(** C6 as stated fails: when the server fails to list its tools,
    [_refresh_tools] returns no empty diff but raises, and so does the
    [think] that called it. *)
Lemma failed_refresh_returns_no_diff :
  let a := agent_of 20 {["bash" := 0]} {["bash" := 0]} []
             (script_of [] (Raise (Exception "ProtocolError"))) in
  _refresh_tools (Ext:=scripted) a = (Raise (Exception "ProtocolError"), a)
  ∧ ¬ (∃ a', _refresh_tools (Ext:=scripted) a = (Ret ([], []), a'))
  ∧ think (Ext:=scripted) a = (Raise (Exception "ProtocolError"), a).
Proof.
  intros a.
  assert (_refresh_tools (Ext:=scripted) a = (Raise (Exception "ProtocolError"), a)) as Hraise
    by (vm_compute; reflexivity).
  split; [exact Hraise|]. split.
  - intros [a' Hret]. rewrite Hraise in Hret. discriminate Hret.
  - vm_compute. reflexivity.
Qed.


(** C4, on a failing input. The agent is at step 5 of a run, its session is
    up, [tool_map] and [tool_schemas] hold the tool bash, and the server now
    lists no tool. The refresh reports bash as removed and empties
    [tool_schemas]; [think] does not end the run: it returns what the
    parent's [think] returns, and the state is still RUNNING. *)
Lemma think_ignores_empty_refresh :
  let a := running 5 (agent_of 20 {["bash" := 0]} {["bash" := 0]} []
                        (script_of [] (Ret []))) in
  ∃ a', _refresh_tools (Ext:=scripted) a = (Ret ([], ["bash"]), a')
        ∧ think (Ext:=scripted) a = (Ret true, a')
        ∧ tool_schemas a' = ∅
        ∧ state a' = RUNNING.
Proof.
  intros a. eexists.
  split; [vm_compute; reflexivity|].
  split; [vm_compute; reflexivity|].
  split; vm_compute; reflexivity.
Qed.

(** * Further properties *)

(** ** The snapshot and its refresh *)

Section Snapshot.
Context {E Schema : Type} `{!EqDecision Schema} {Ext : External E Schema}.
Implicit Types (a : Agent E Schema) (tools : list (Tool Schema)).

Lemma dict_of_tools_snoc tools t :
  dict_of_tools (tools ++ [t]) = <[tool_name t := tool_inputSchema t]> (dict_of_tools tools).
Proof. unfold dict_of_tools. by rewrite foldl_app. Qed.

(** X1. The dictionary built from the tool list of the server has exactly
    the names of the list as keys, and under a name the schema of the last
    tool of the list with that name. *)
Theorem dict_of_tools_last_wins tools :
  dom (dict_of_tools tools) = list_to_set (tool_name <$> tools)
  ∧ ∀ name,
      dict_of_tools tools !! name
      = tool_inputSchema <$> last (filter (λ t, tool_name t = name) tools).
Proof.
  induction tools as [|t tools [IHdom IHlookup]] using rev_ind.
  - split; [|done]. unfold dict_of_tools. cbn. by rewrite dom_empty_L.
  - rewrite dict_of_tools_snoc. split.
    + rewrite dom_insert_L, IHdom, fmap_app, list_to_set_app_L. cbn.
      rewrite union_empty_r_L. apply union_comm_L.
    + intros name. rewrite filter_app.
      destruct (decide (tool_name t = name)) as [<-|Hne].
      * rewrite lookup_insert_eq.
        rewrite (filter_cons_True _ t []) by done.
        by rewrite filter_nil, last_snoc.
      * rewrite lookup_insert_ne by done.
        rewrite (filter_cons_False _ t []) by done.
        by rewrite filter_nil, app_nil_r.
Qed.

Lemma added_of_same (m : gmap string Schema) : added_of m m = [].
Proof.
  unfold added_of.
  replace (dom m ∖ dom m) with (∅ : gset string)
    by (apply set_eq; intros x; rewrite elem_of_difference, elem_of_empty; tauto).
  apply elements_empty.
Qed.

Lemma removed_of_same (m : gmap string Schema) : removed_of m m = [].
Proof. apply added_of_same. Qed.

Lemma changed_of_same (m : gmap string Schema) : changed_of m m = [].
Proof.
  apply elem_of_nil_inv. intros k Hk.
  apply elem_of_changed_of in Hk as (_ & _ & Hne). by apply Hne.
Qed.

(** A refresh that finds the tools of the snapshot. *)
Lemma refresh_tools_nothing_new a mc tools e :
  mcp_clients a = Some mc → session mc = true →
  list_tools (env a) = (Ret tools, e) →
  tool_schemas a = dict_of_tools tools →
  _refresh_tools a = (Ret ([], []), set_env e a).
Proof.
  intros Hmc Hs Hlt Hsame.
  unfold _refresh_tools, the_mcp_clients, call_list_tools, mbind, M_bind.
  rewrite Hmc, Hs. cbn [negb]. rewrite Hlt.
  unfold gets, modify, emit, add_message, when, mret, M_ret, mbind, M_bind.
  cbn [fst snd tool_schemas set_env]. rewrite <- Hsame.
  rewrite added_of_same, removed_of_same, changed_of_same. cbn [nonempty].
  reflexivity.
Qed.

(** X2. A refresh installs what the server lists, so that a second refresh,
    to which the server gives the same list, reports nothing: its diff is
    empty, and it leaves the snapshot, the memory and the log as the first
    one left them. *)
Theorem refresh_tools_twice a mc tools e1 e2 :
  mcp_clients a = Some mc → session mc = true →
  list_tools (env a) = (Ret tools, e1) →
  list_tools e1 = (Ret tools, e2) →
  ∃ added removed a1,
    _refresh_tools a = (Ret (added, removed), a1)
    ∧ tool_schemas a1 = dict_of_tools tools
    ∧ _refresh_tools a1 = (Ret ([], []), set_env e2 a1).
Proof.
  intros Hmc Hs Hlt1 Hlt2.
  destruct (refresh_tools_answered a mc tools e1 Hmc Hs Hlt1)
    as (a1 & Hrun & Hts & Hmc1 & _ & _ & Henv & _).
  eexists _, _, a1. split; [exact Hrun|]. split; [exact Hts|].
  apply (refresh_tools_nothing_new a1 mc tools e2); [congruence|done| |done].
  by rewrite Henv.
Qed.

(** The memory and the log after a refresh that reaches the server. *)
Lemma refresh_tools_memory a mc tools e :
  mcp_clients a = Some mc → session mc = true →
  list_tools (env a) = (Ret tools, e) →
  let added := added_of (tool_schemas a) (dict_of_tools tools) in
  let removed := removed_of (tool_schemas a) (dict_of_tools tools) in
  ∃ a' evs, _refresh_tools a = (Ret (added, removed), a')
            ∧ memory a' = memory a ++ refresh_messages added removed
            ∧ trace a' = trace a ++ evs
            ∧ notifications evs = []
            ∧ _thinking_callbacks a' = _thinking_callbacks a.
Proof.
  intros Hmc Hs Hlt added removed.
  unfold _refresh_tools, the_mcp_clients, call_list_tools, mbind, M_bind.
  rewrite Hmc, Hs. cbn [negb]. rewrite Hlt.
  unfold gets, modify, emit, add_message, when, mret, M_ret, mbind, M_bind. cbn.
  fold added removed. unfold refresh_messages.
  destruct (nonempty added), (nonempty removed),
    (changed_of (tool_schemas a) (dict_of_tools tools)) as [|c cs]; cbn;
    (eexists _, _; split; [reflexivity|]); cbn;
    (split; [by rewrite ?app_nil_r, <- ?app_assoc|]);
    (split; [first [reflexivity
                   | rewrite <- !app_assoc; reflexivity
                   | symmetry; apply app_nil_r]|]);
    (split; reflexivity).
Qed.

(** X3. What a refresh that reaches the server does beside the snapshot:
    it appends to the memory one system message for the added tools when
    there are any, then one for the removed tools when there are any, and
    none for changed schemas; it calls no observer and leaves the
    registered observers as they are. *)
Theorem refresh_tools_appends_messages a mc tools e :
  mcp_clients a = Some mc → session mc = true →
  list_tools (env a) = (Ret tools, e) →
  let added := added_of (tool_schemas a) (dict_of_tools tools) in
  let removed := removed_of (tool_schemas a) (dict_of_tools tools) in
  ∃ a', _refresh_tools a = (Ret (added, removed), a')
        ∧ memory a' = memory a ++ refresh_messages added removed
        ∧ notifications (trace a') = notifications (trace a)
        ∧ _thinking_callbacks a' = _thinking_callbacks a.
Proof.
  intros Hmc Hs Hlt added removed.
  destruct (refresh_tools_memory a mc tools e Hmc Hs Hlt)
    as (a' & evs & Hrun & Hmem & Htrace & Hquiet & Hcbs).
  exists a'. split; [exact Hrun|]. split; [exact Hmem|]. split; [|exact Hcbs].
  by rewrite Htrace, notifications_app, Hquiet, app_nil_r.
Qed.

(** X4. [think] on an agent whose clients have no session, or hold no tool:
    the interaction is ended. The state becomes FINISHED and the answer is
    False; the server is not asked, the snapshot and the memory stay, the
    parent's [think] is not run, and the only output is one log record. *)
Theorem think_ends_without_service a mc :
  mcp_clients a = Some mc → session mc = false ∨ tool_map mc = ∅ →
  think a
  = (Ret false,
     set_state FINISHED
       (set_trace (trace a ++ [Log LvInfo "MCP service is no longer available, ending interaction"])
          a)).
Proof.
  intros Hmc Hgone.
  unfold think, the_mcp_clients, mbind, M_bind. rewrite Hmc.
  assert (negb (session mc) || bool_decide (tool_map mc = ∅) = true) as ->.
  { destruct Hgone as [-> | ->]; [done|].
    rewrite bool_decide_eq_true_2 by done. apply orb_true_r. }
  reflexivity.
Qed.

(** X5. Between two refreshes [think] does not contact the server: at a step
    count that is not a multiple of 5, with a session and a tool, it is the
    parent's [think] with the interceptor in the place of [logger.info],
    run on the agent as it is. Since [run] counts a step before it makes
    it, the steps 1 to 4 of a run do not refresh the tools. *)
Theorem think_between_refreshes a mc :
  mcp_clients a = Some mc → session mc = true → tool_map mc ≠ ∅ →
  (current_step a `mod` _refresh_tools_interval ≠ 0)%Z
  ∨ (1 ≤ current_step a ≤ 4)%Z →
  think a = super_think info_interceptor a.
Proof.
  intros Hmc Hs Htools Hstep.
  assert (current_step a `mod` _refresh_tools_interval ≠ 0)%Z as Hmod.
  { destruct Hstep as [Hmod|Hrange]; [done|]. unfold _refresh_tools_interval.
    rewrite Z.mod_small by lia. lia. }
  unfold think, the_mcp_clients, mbind, M_bind. rewrite Hmc, Hs.
  rewrite (bool_decide_eq_false_2 _ Htools). cbn [negb orb].
  unfold gets. rewrite (bool_decide_eq_false_2 _ Hmod). reflexivity.
Qed.

(** X6. The interceptor put in the place of [logger.info] never loses a
    record and never fails: whatever the message and whatever the observers
    do, it returns, and the message is the last record of the log. The
    observers are called, each once and in order, exactly when the message
    contains both the marker and the word thoughts, with the piece of the
    message after the marker, stripped; the rest of the agent is untouched. *)
Theorem info_interceptor_passes_on message a :
  let marked := PyStr.contains "✨" message && PyStr.contains "thoughts" message in
  let thought := PyStr.strip (PyStr.split_1 "✨" message) in
  ∃ a' evs,
    info_interceptor message a = (Ret tt, a')
    ∧ trace a' = trace a ++ evs ++ [Log LvInfo message]
    ∧ (marked = false → evs = [] ∧ env a' = env a)
    ∧ (marked = true →
       notifications evs = (λ i, (i, thought)) <$> seq 0 (length (_thinking_callbacks a))
       ∧ env a' = after_observers thought (_thinking_callbacks a) (env a))
    ∧ same_control a a' ∧ memory a' = memory a.
Proof.
  intros marked thought. unfold info_interceptor. fold marked thought.
  destruct marked.
  - cbn [when]. unfold _notify_thinking.
    destruct (notify_from_spec (_thinking_callbacks a) 0 thought a) as (evs & Hrun & Hev).
    unfold mbind, M_bind. rewrite Hrun.
    eexists _, evs. split; [reflexivity|]. cbn.
    split; [by rewrite <- app_assoc|]. split; [done|]. split; [done|].
    by repeat split.
  - cbn [when]. eexists _, []. split; [reflexivity|]. cbn.
    split; [done|]. split; [done|]. split; [done|]. by repeat split.
Qed.

End Snapshot.

(** ** How a run ends *)

Section RunEnds.
Context {E Schema : Type} {Ext : External E Schema}.
Implicit Types (a : Agent E Schema) (results : list string).

(** X7. A step that leaves the state FINISHED, as the step of a termination
    tool does, is the last step of the loop, whatever is left of the
    budget: the loop is over with the result of that step as its last
    result, and no further step is called. *)
Theorem finishing_step_is_the_last fuel results a r a2 :
  loop_cond a = true →
  step (at_step a) = (Ret r, a2) → state a2 = FINISHED → _cancelled a2 = false →
  while_loop (S fuel) results a = (Ret (results ++ [r]), recovered a2).
Proof.
  intros Hcond Hstep Hfin Hc2.
  pose proof Hcond as (_ & _ & Hc)%loop_cond_true.
  cbn [while_loop]. rewrite Hcond, (loop_body_unfold results a Hc), Hstep.
  destruct (recovered_same_control a2) as (_ & _ & Hst & Hc3 & _).
  rewrite Hc3, Hc2.
  assert (loop_cond (recovered a2) = false) as Hover.
  { apply not_true_iff_false. rewrite loop_cond_true, Hst, Hfin. by intros (_ & ? & _). }
  destruct fuel; cbn [while_loop]; by rewrite Hover.
Qed.

(** X8. The step counter counts the results: as long as the step function
    leaves the counters alone, a loop that returns has added one result for
    every step it made and has advanced [current_step] by that number; the
    results it was given are kept in front. *)
Theorem while_loop_counts_results fuel : ∀ results a results' a',
  step_keeps_counters →
  while_loop fuel results a = (Ret results', a') →
  ∃ rs, results' = results ++ rs
        ∧ current_step a' = (current_step a + Z.of_nat (length rs))%Z
        ∧ max_steps a' = max_steps a.
Proof.
  induction fuel as [|fuel IH]; intros results a results' a' Hkeeps; cbn [while_loop].
  - destruct (loop_cond a); [discriminate|]. intros [= <- <-].
    exists []. rewrite app_nil_r. cbn. split; [done|]. split; [lia|done].
  - destruct (loop_cond a) eqn:Hcond.
    + apply loop_cond_true in Hcond as (_ & _ & Hc).
      destruct (loop_body results a) as [[[[] results1]|ex|] a1] eqn:Hbody;
        try discriminate.
      * destruct (loop_body_counters results a _ _ _ Hkeeps Hc Hbody)
          as (Hcs & Hms & _ & r & ->).
        intros Hrest. destruct (IH _ _ _ _ Hkeeps Hrest) as (rs & -> & Hcs' & Hms').
        exists (r :: rs). rewrite <- app_assoc. split; [done|].
        cbn [length]. split; [lia|congruence].
      * destruct (loop_body_counters results a _ _ _ Hkeeps Hc Hbody)
          as (Hcs & Hms & _ & r & ->).
        intros [= <- <-]. exists [r]. split; [done|]. cbn. split; [lia|done].
    + intros [= <- <-]. exists []. rewrite app_nil_r. cbn. split; [done|]. split; [lia|done].
Qed.

Lemma conclude_response results a :
  _cancelled a = false →
  ∃ a', conclude results a = (Ret (Finished (response_of (memory a) results)), a')
        ∧ same_control a a' ∧ memory a' = memory a.
Proof.
  intros Hc. unfold conclude.
  rewrite (bind_ret _ _ a false a) by (unfold gets; by rewrite Hc).
  destruct (notify_thinking_ret "任务执行完毕，正在总结结果..." a) as (a1 & Hn & H1 & Hmem).
  rewrite (bind_ret _ _ _ _ _ Hn).
  rewrite (bind_ret _ _ a1 (memory a1) a1) by done.
  unfold response_of. rewrite <- Hmem.
  destruct (get_last_assistant_message (memory a1)); [by eauto|].
  destruct (nonempty results); by eauto.
Qed.

(** X9. What a run that was not cancelled returns: the content of the last
    assistant message of the memory when there is one; without one, the
    results of the steps joined by new lines; without results either, a
    fixed text. The memory is the one the loop left. *)
Theorem run_returns_the_final_response fuel prompt a mc a_in results a_out :
  mcp_clients a = Some mc →
  run_enter prompt a = (Ret tt, a_in) →
  while_loop fuel [] a_in = (Ret results, a_out) → _cancelled a_out = false →
  ∃ a', run_outcome fuel prompt a
        = (Ret (Finished (response_of (memory a_out) results)), a')
        ∧ memory a' = memory a_out.
Proof.
  intros Hmc Henter Hloop Hc.
  destruct (run_outcome_split fuel prompt a mc Hmc) as (a_in' & Henter' & Hsplit & _).
  rewrite Henter in Henter'. injection Henter' as <-.
  rewrite Hsplit, Hloop.
  unfold run_leave, try_finally, try_except. cbn [state_exit snd].
  set (a1 := set_trace _ _).
  rewrite (bind_ret _ _ a_out results a1) by done.
  destruct (conclude_response results a1) as (a2 & -> & _ & Hmem); [done|].
  eexists. split; [reflexivity|]. done.
Qed.

Lemma run_leave_forced a_out :
  run_leave (Ext:=Ext) (Raise CancelledError, a_out)
  = (Raise CancelledError,
     set_cancel_attrs false
       (set_trace (trace a_out ++ [Transition IDLE]) (set_state IDLE a_out))).
Proof. reflexivity. Qed.

Lemma run_outcome_uninitialised fuel prompt a :
  mcp_clients a = None →
  run_outcome fuel prompt a = (Raise (Exception "Agent not initialized"), a).
Proof.
  intros Hmc. unfold run_outcome.
  by rewrite (bind_ret _ _ a None a) by (unfold gets; by rewrite Hmc).
Qed.

(** How a run of an initialised agent can end. *)
Lemma run_outcome_ends fuel prompt a mc r a' :
  mcp_clients a = Some mc →
  run_outcome fuel prompt a = (r, a') →
  (∀ msg, r ≠ Raise (Exception msg))
  ∧ (r ≠ OutOfFuel → cancel_attrs a' = false).
Proof.
  intros Hmc.
  destruct (run_outcome_split fuel prompt a mc Hmc) as (a_in & _ & -> & _).
  destruct (while_loop fuel [] a_in) as [[results|[msg|]|] a_out].
  - destruct (_cancelled a_out) eqn:Hc.
    + destruct (run_leave_cancelled results a_out Hc) as (a1 & -> & _ & Hattrs & _).
      by intros [= <- <-].
    + destruct (run_leave_finished results a_out Hc) as (resp & a1 & -> & _ & Hattrs & _).
      by intros [= <- <-].
  - destruct (run_leave_exception msg a_out) as (a1 & -> & _ & _ & Hattrs & _).
    by intros [= <- <-].
  - rewrite run_leave_forced. by intros [= <- <-].
  - by intros [= <- <-].
Qed.

Lemma run_raises_no_exception prompt a mc r a' :
  mcp_clients a = Some mc → run prompt a = (r, a') → ∀ msg, r ≠ Raise (Exception msg).
Proof.
  unfold run, fmap, M_fmap. intros Hmc Hrun.
  destruct (run_outcome _ prompt a) as [ro a1] eqn:Hro.
  destruct (run_outcome_ends _ prompt a mc ro a1 Hmc Hro) as [Hno _].
  destruct ro as [o|ex|]; injection Hrun as <- <-; [done| |done].
  intros msg [= ->]. by eapply Hno.
Qed.


(** What the observers do to an agent does not depend on the fields that
    they cannot see. *)
Lemma notify_from_fields (callbacks : list (Callback E)) : ∀ idx text e tr,
  ∃ e' tr', ∀ cs ms st c ca (mcl : option (MCPClients Schema)) ts mem cbs,
    notify_from idx callbacks text (mkAgent cs ms st c ca mcl ts mem cbs e tr)
    = (Ret tt, mkAgent cs ms st c ca mcl ts mem cbs e' tr').
Proof.
  induction callbacks as [|callback rest IH]; intros idx text e tr.
  - by exists e, tr.
  - destruct (callback text e) as [[msg|] e1] eqn:Hcall.
    + destruct (IH (S idx) text e1
                  ((tr ++ [Notify idx text])
                   ++ [Log LvError ("Error in thinking callback: " +:+ msg)]))
        as (e' & tr' & Hrest).
      exists e', tr'. intros. cbn [notify_from env trace]. rewrite Hcall. apply Hrest.
    + destruct (IH (S idx) text e1 (tr ++ [Notify idx text])) as (e' & tr' & Hrest).
      exists e', tr'. intros. cbn [notify_from env trace]. rewrite Hcall. apply Hrest.
Qed.

Lemma run_enter_fields prompt ms st (mc : MCPClients Schema) ts mem
    (cbs : list (Callback E)) e tr :
  ∃ mem' e' tr', ∀ cs c ca,
    run_enter prompt (mkAgent cs ms st c ca (Some mc) ts mem cbs e tr)
    = (Ret tt, mkAgent 0 ms RUNNING false true (Some mc) ts mem' cbs e' tr').
Proof.
  unfold run_enter, run_prologue, _notify_thinking, the_mcp_clients, add_message,
    modify, state_enter, when, mbind, M_bind, mret, M_ret,
    set_cancelled, set_cancel_attrs, set_memory, set_current_step, set_state, set_trace.
  cbn [_thinking_callbacks mcp_clients].
  destruct (notify_from_fields cbs 0 "正在规划执行步骤..." e tr) as (e1 & tr1 & H1).
  destruct (notify_from_fields cbs 0 "分析用户需求，确定执行计划..." e1 tr1) as (e2 & tr2 & H2).
  destruct (notify_from_fields cbs 0 "检查是否需要浏览器能力..." e2 tr2) as (e3 & tr3 & H3).
  destruct (notify_from_fields cbs 0 "准备使用浏览器能力处理请求..." e3 tr3) as (e4 & tr4 & H4).
  destruct (bool_decide (is_Some (tool_map mc !! "browser"))
            && (PyStr.contains "搜索" prompt || PyStr.contains "浏览" prompt
                || PyStr.contains "网页" prompt)) eqn:Hbrowser.
  - destruct (notify_from_fields cbs 0 "确定最适合的工具和方法..." e4 tr4) as (e5 & tr5 & H5).
    destruct (notify_from_fields cbs 0 "开始执行用户请求..." e5 tr5) as (e6 & tr6 & H6).
    eexists _, _, _. intros cs c ca.
    rewrite H1. cbn. rewrite H2. cbn. rewrite Hbrowser. cbn.
    unfold _notify_thinking, mbind, M_bind. cbn.
    rewrite H3. cbn. rewrite H4. cbn. rewrite H5. cbn. rewrite H6. cbn.
    reflexivity.
  - destruct (notify_from_fields cbs 0 "确定最适合的工具和方法..." e2 tr2) as (e5 & tr5 & H5).
    destruct (notify_from_fields cbs 0 "开始执行用户请求..." e5 tr5) as (e6 & tr6 & H6).
    eexists _, _, _. intros cs c ca.
    rewrite H1. cbn. rewrite H2. cbn. rewrite Hbrowser. cbn.
    rewrite H5. cbn. rewrite H6. cbn.
    reflexivity.
Qed.

(** X11. A run starts afresh: the step count, the cancellation flag and the
    attached functions that an earlier run left on an initialised agent
    have no influence on the next run, neither on what it returns nor on
    the agent it leaves. In particular a run that was cancelled does not
    keep the next one from making its steps. *)
Theorem run_starts_afresh n cancelled attached prompt a :
  is_Some (mcp_clients a) →
  run prompt (left_over n cancelled attached a) = run prompt a.
Proof.
  intros [mc Hmc].
  destruct a as [cs ms st c ca mcl ts mem cbs e tr]. cbn in Hmc. subst mcl.
  unfold left_over, run, fmap, M_fmap.
  cbn [set_current_step set_cancelled set_cancel_attrs current_step max_steps state
       _cancelled cancel_attrs mcp_clients tool_schemas memory _thinking_callbacks env trace].
  set (fuel := Z.to_nat ms).
  change (set_current_step n _)
    with (mkAgent n ms st cancelled attached (Some mc) ts mem cbs e tr).
  destruct (run_enter_fields prompt ms st mc ts mem cbs e tr) as (mem' & e' & tr' & Henter).
  destruct (run_outcome_split fuel prompt
              (mkAgent n ms st cancelled attached (Some mc) ts mem cbs e tr) mc eq_refl)
    as (a_in1 & Henter1 & -> & _).
  destruct (run_outcome_split fuel prompt
              (mkAgent cs ms st c ca (Some mc) ts mem cbs e tr) mc eq_refl)
    as (a_in2 & Henter2 & -> & _).
  rewrite Henter in Henter1, Henter2.
  injection Henter1 as <-. injection Henter2 as <-. reflexivity.
Qed.

End RunEnds.

(** ** More on the web session *)

Section Observed.
Context {E Schema : Type} {Ext : External E Schema}.
Implicit Types (a : Agent E Schema).

Lemma while_loop_keeps_observers :
  step_keeps_observers →
  ∀ fuel results a r a',
    while_loop fuel results a = (r, a') → _thinking_callbacks a' = _thinking_callbacks a.
Proof.
  intros Hstep fuel. induction fuel as [|fuel IH]; intros results a r a'; cbn [while_loop].
  - destruct (loop_cond a); by intros [= <- <-].
  - destruct (loop_cond a) eqn:Hcond; [|by intros [= <- <-]].
    apply loop_cond_true in Hcond as (_ & _ & Hc).
    rewrite (loop_body_unfold results a Hc).
    destruct (step (at_step a)) as [[x|ex|] a2] eqn:Hs;
      pose proof (Hstep _ _ _ Hs) as Hkept;
      change (_thinking_callbacks (at_step a)) with (_thinking_callbacks a) in Hkept.
    + pose proof (recovered_same_control a2) as (_ & _ & _ & _ & _ & _ & _ & Hrec).
      destruct (_cancelled (recovered a2)).
      * intros [= <- <-]. cbn. congruence.
      * intros Hrest. apply IH in Hrest. congruence.
    + by intros [= <- <-].
    + by intros [= <- <-].
Qed.

Lemma run_leave_keeps_observers (left : Res (list string) * Agent E Schema) :
  _thinking_callbacks (run_leave left).2 = _thinking_callbacks left.2.
Proof.
  destruct left as [[results|[msg|]|] a_out]; try reflexivity.
  unfold run_leave, try_finally, try_except. cbn [state_exit snd].
  set (a1 := set_trace _ _).
  rewrite (bind_ret _ _ a_out results a1) by done.
  destruct (_cancelled a1) eqn:Hc.
  - by rewrite (conclude_cancelled results a1 Hc).
  - destruct (conclude_finished results a1 Hc) as (response & a2 & -> & Hsame).
    destruct Hsame as (_ & _ & _ & _ & _ & _ & _ & Hcbs). cbn. by rewrite Hcbs.
Qed.

Lemma run_keeps_observers prompt a r a' :
  step_keeps_observers →
  run prompt a = (r, a') → _thinking_callbacks a' = _thinking_callbacks a.
Proof.
  intros Hstep. unfold run, fmap, M_fmap.
  destruct (mcp_clients a) as [mc|] eqn:Hmc.
  - destruct (run_outcome_split (Z.to_nat (max_steps a)) prompt a mc Hmc)
      as (a_in & Henter & -> & _).
    assert (_thinking_callbacks a_in = _thinking_callbacks a) as Hin.
    { destruct a as [cs ms st c ca mcl ts mem cbs e tr]. cbn in Hmc. subst mcl.
      destruct (run_enter_fields prompt ms st mc ts mem cbs e tr) as (? & ? & ? & Hf).
      rewrite Hf in Henter. by injection Henter as <-. }
    destruct (while_loop _ [] a_in) as [rl a_out] eqn:Hloop.
    apply (while_loop_keeps_observers Hstep) in Hloop.
    pose proof (run_leave_keeps_observers (rl, a_out)) as Hleave.
    destruct (run_leave (rl, a_out)) as [[o|ex|] a2]; cbn in Hleave;
      intros [= <- <-]; congruence.
  - rewrite run_outcome_uninitialised by done. by intros [= <- <-].
Qed.

End Observed.

Section WebMore.
Context {E Schema File : Type} `{!EqDecision Schema} {Ext : External E Schema}.
Variable json_dump : JSON → File.
Variable uuid4 strftime_now isoformat_now : nat → string.
Variable thinking_callback : nat → Callback E.
Variable thinking_steps : nat → E → list string.
Variable others : nat → Slots → Slots.
Variable excerpt_error : JSON → string.
Variable run_list : list JSON → M E Schema string.
Implicit Types (w : Web File) (a : Agent E Schema).

Local Abbreviation process :=
  (process_agent_response thinking_callback others excerpt_error run_list).
Local Abbreviation loop :=
  (websocket_loop json_dump uuid4 strftime_now isoformat_now thinking_callback
     thinking_steps others excerpt_error run_list).
Local Abbreviation prompted :=
  (on_prompt json_dump uuid4 strftime_now isoformat_now thinking_callback
     thinking_steps others excerpt_error run_list).
Local Abbreviation handled :=
  (on_message json_dump uuid4 strftime_now isoformat_now thinking_callback
     thinking_steps others excerpt_error run_list).
Local Abbreviation unshared := (spares others).
Local Abbreviation paused := (suspend others).
Local Abbreviation framed :=
  (process_agent_response_frame thinking_callback others excerpt_error run_list).

(** The closure of a call is registered whatever becomes of the call. *)
Lemma process_agent_response_observers prompt client_id w a r w' a' :
  step_keeps_observers → list_runs_keep_observers run_list →
  process prompt client_id w a = (r, w', a') →
  _thinking_callbacks a' = _thinking_callbacks a ++ [thinking_callback (calls w)].
Proof.
  intros Hstep Hlist.
  destruct (runnable run_list prompt) as [run_it|] eqn:Hrunnable.
  - rewrite (process_agent_response_run thinking_callback others excerpt_error run_list
               prompt run_it client_id w a Hrunnable).
    set (a0 := (add_thinking_callback _ a).2). set (w1 := suspend _ _). clearbody w1.
    destruct (run_it a0) as [r1 a1] eqn:Hrun.
    assert (_thinking_callbacks a1 = _thinking_callbacks a0) as Hkept.
    { destruct prompt; try discriminate Hrunnable; injection Hrunnable as <-.
      - by apply (run_keeps_observers _ _ _ _ Hstep) in Hrun.
      - by apply Hlist in Hrun. }
    change (_thinking_callbacks a0)
      with (_thinking_callbacks a ++ [thinking_callback (calls w)]) in Hkept.
    destruct r1 as [response|[msg|]|].
    + cbn zeta. destruct (cancel_flags _ !! client_id) as [[]|]; by intros [= <- <- <-].
    + by intros [= <- <- <-].
    + intros [= <- <- <-]. by destruct (cancel_attrs a1).
    + by intros [= <- <- <-].
  - assert (sliceable prompt = false) as Hno by (by destruct prompt).
    rewrite (process_agent_response_unsliceable thinking_callback others excerpt_error
               run_list prompt client_id w a Hno).
    by intros [= <- <- <-].
Qed.

Lemma on_message_observers msg client_id w a r w' a' :
  step_keeps_observers → list_runs_keep_observers run_list →
  handled msg client_id w a = (r, w', a') →
  match msg with
  | Prompt prompt =>
      calls w' = S (calls w)
      ∧ tasks_created w' = tasks_created w + (if sliceable prompt then 1 else 0)
      ∧ _thinking_callbacks a' = _thinking_callbacks a ++ [thinking_callback (calls w)]
  | _ => calls w' = calls w ∧ tasks_created w' = tasks_created w
         ∧ _thinking_callbacks a' = _thinking_callbacks a
  end.
Proof.
  intros Hstep Hlist. destruct msg as [prompt| | |]; cbn [on_message].
  - unfold on_prompt. set (w0 := tick _).
    destruct (process prompt client_id w0 a) as [[r1 w1] a1] eqn:Hp.
    pose proof (process_agent_response_observers _ _ _ _ _ _ _ Hstep Hlist Hp) as Hcbs.
    apply framed in Hp as (_ & _ & _ & Hcalls & _ & Htasks & _).
    change (calls w0) with (calls w) in *.
    change (tasks_created w0) with (tasks_created w) in *.
    assert (tasks_created w1 = tasks_created w + (if sliceable prompt then 1 else 0))
      as Htc.
    { destruct (sliceable prompt); destruct Htasks as [-> _]; lia. }
    destruct r1 as [[result|]|[msg|]|]; intros [= <- <- <-]; (split; [|split; [|done]]);
      try done.
    + by destruct (bool_decide (0 < length _)).
    + by destruct (bool_decide (0 < length _)).
  - unfold on_cancel. destruct (active_tasks w !! client_id) as [task|].
    + destruct (task_done task); [by intros [= <- <- <-]|].
      destruct (cancel_attrs a); by intros [= <- <- <-].
    + by intros [= <- <- <-].
  - by intros [= <- <- <-].
  - by intros [= <- <- <-].
Qed.

(** X12. The observers pile up over the prompts of a connection:
    [process_agent_response] registers one more closure at every call,
    before it takes the excerpt of the prompt, and nothing removes one
    before [cleanup]. So when the messages are handled the agent holds,
    after its earlier observers, one closure for every call made, in the
    order of the prompts, and the next thought is passed to all of them. A
    task is created only for a prompt of which the excerpt can be taken, so
    that the closures can outnumber the tasks. The step function and the
    run on a list are taken to leave the list of observers alone. *)
Theorem observers_pile_up msgs client_id : ∀ w a r w' a',
  step_keeps_observers → list_runs_keep_observers run_list →
  loop msgs client_id w a = (r, w', a') →
  calls w ≤ calls w'
  ∧ tasks_created w' - tasks_created w ≤ calls w' - calls w
  ∧ _thinking_callbacks a'
    = _thinking_callbacks a ++ (thinking_callback <$> seq (calls w) (calls w' - calls w))
  ∧ (r = Ret tt →
     calls w' = calls w + length (prompts_of msgs)
     ∧ tasks_created w'
       = tasks_created w + length (filter (λ prompt, sliceable prompt = true)
                                     (prompts_of msgs))).
Proof.
  induction msgs as [|msg msgs IH]; intros w a r w' a' Hstep Hlist; cbn [websocket_loop].
  - intros [= <- <- <-]. cbn. rewrite !Nat.sub_diag. cbn.
    by rewrite app_nil_r, !Nat.add_0_r.
  - destruct (handled msg client_id (paused w) a) as [[r1 w1] a1] eqn:Hmsg.
    pose proof (on_message_observers _ _ _ _ _ _ _ Hstep Hlist Hmsg) as Hone.
    change (calls (paused w)) with (calls w) in Hone.
    change (tasks_created (paused w)) with (tasks_created w) in Hone.
    assert (calls w ≤ calls w1
            ∧ tasks_created w ≤ tasks_created w1
            ∧ tasks_created w1 - tasks_created w ≤ calls w1 - calls w
            ∧ _thinking_callbacks a1
              = _thinking_callbacks a
                ++ (thinking_callback <$> seq (calls w) (calls w1 - calls w))
            ∧ calls w1 = calls w + length (prompts_of [msg])
            ∧ tasks_created w1
              = tasks_created w + length (filter (λ prompt, sliceable prompt = true)
                                            (prompts_of [msg])))
      as (Hle1 & Htle1 & Hfew1 & Hcbs1 & Hcount1 & Htasks1).
    { destruct msg as [prompt| | |]; destruct Hone as (Hc & Ht & Ho); rewrite Hc, Ht, Ho.
      - replace (S (calls w) - calls w) with 1 by lia. cbn.
        destruct (sliceable prompt); case_decide; try done; cbn; repeat split; lia || done.
      - rewrite !Nat.sub_diag. cbn. rewrite app_nil_r. repeat split; lia || done.
      - rewrite !Nat.sub_diag. cbn. rewrite app_nil_r. repeat split; lia || done.
      - rewrite !Nat.sub_diag. cbn. rewrite app_nil_r. repeat split; lia || done. }
    destruct r1 as [[]|ex|].
    + intros Hrest.
      destruct (IH _ _ _ _ _ Hstep Hlist Hrest) as (Hle & Hfew & Hcbs & Hcount).
      assert (tasks_created w1 ≤ tasks_created w' ∨ tasks_created w' ≤ tasks_created w1)
        as Hcase by lia.
      split; [lia|]. split; [lia|]. split.
      * rewrite Hcbs, Hcbs1, <- app_assoc. f_equal.
        replace (calls w' - calls w)
          with ((calls w1 - calls w) + (calls w' - calls w1)) by lia.
        rewrite seq_app, fmap_app.
        by replace (calls w + (calls w1 - calls w)) with (calls w1) by lia.
      * intros Hr. destruct (Hcount Hr) as [Hc Ht]. rewrite Hc, Ht, Hcount1, Htasks1.
        change (msg :: msgs) with ([msg] ++ msgs).
        unfold prompts_of. rewrite bind_app, filter_app, !length_app.
        fold (prompts_of [msg]). fold (prompts_of msgs). lia.
    + intros [= <- <- <-]. split; [done|]. split; [done|]. split; [done|]. done.
    + intros [= <- <- <-]. split; [done|]. split; [done|]. split; [done|]. done.
Qed.


(** X14. [process_agent_response] raises in two cases, as long as no other
    connection uses the identifier of the client and the prompt is no
    list. Either the prompt is a text and the agent is not initialised:
    the task has been created, the client is sent an event of type "error"
    with the text of the failure, and two error records are logged. Or no
    excerpt of the prompt can be taken: no task has been created, nothing
    but the notice has been sent, and one error record is logged. In both
    cases the closure of the call has been registered and the slot is
    free. For a text and an initialised agent it does not raise: whatever
    the step function raises is turned into a response by [run], and a
    cancellation into the answer None. *)
Theorem process_agent_response_raises_in_two_cases prompt client_id w a ex w' a' :
  unshared client_id →
  (∀ items, prompt ≠ JArr items) →
  process prompt client_id w a = (Raise ex, w', a') →
  a' = (add_thinking_callback (thinking_callback (calls w)) a).2
  ∧ active_tasks w' !! client_id = None
  ∧ cancel_flags w' !! client_id = None
  ∧ ((∃ text, prompt = JStr text)
     ∧ mcp_clients a = None
     ∧ ex = Exception "Agent not initialized"
     ∧ tasks_created w' = S (tasks_created w)
     ∧ sent w' = sent w
                 ++ [ {| ev_type := "system"; ev_content := "正在处理您的请求..." |};
                      {| ev_type := "error";
                         ev_content := "执行出错: Agent not initialized" |} ]
     ∧ error_records (web_log w')
       = error_records (web_log w)
         ++ ["执行请求时出错: Agent not initialized"; "处理请求时出错: Agent not initialized"]
     ∨ sliceable prompt = false
       ∧ ex = Exception (excerpt_error prompt)
       ∧ tasks_created w' = tasks_created w
       ∧ sent w' = sent w
                   ++ [ {| ev_type := "system"; ev_content := "正在处理您的请求..." |} ]
       ∧ error_records (web_log w')
         = error_records (web_log w) ++ ["处理请求时出错: " +:+ excerpt_error prompt]).
Proof.
  intros Hspares Hnolist.
  destruct (sliceable prompt) eqn:Hs.
  - destruct prompt as [| | |text|items|]; try discriminate Hs; [|by destruct (Hnolist items)].
    rewrite (process_agent_response_run thinking_callback others excerpt_error run_list
               (JStr text) (run text) client_id w a eq_refl).
    destruct (running_frame others client_id w)
      as (_ & _ & _ & _ & Htc & _ & Hsent & Hflag).
    assert (web_log (paused (create_task client_id
                               (web_info ("客户端 " +:+ client_id +:+ " 开始执行请求")
                                  (prepared others client_id w))))
            = web_log w ++ [Log LvInfo ("客户端 " +:+ client_id +:+ " 开始执行请求")])
      as Hlog by done.
    set (a0 := (add_thinking_callback _ a).2). set (w1 := suspend _ _) in *. clearbody w1.
    destruct (mcp_clients a) as [mc|] eqn:Hmc.
    + assert (mcp_clients a0 = Some mc) as Hmc0 by done.
      destruct (run text a0) as [r1 a1] eqn:Hrun.
      pose proof (run_raises_no_exception text a0 mc r1 a1 Hmc0 Hrun) as Hno.
      destruct r1 as [response|[msg|]|].
      * cbn zeta. cbn [cancel_flags web_info set_web_log]. rewrite (Hflag Hspares).
        intros [=].
      * by destruct (Hno msg).
      * intros [=].
      * intros [=].
    + assert (run text a0 = (Raise (Exception "Agent not initialized"), a0)) as ->.
      { unfold run, fmap, M_fmap. by rewrite run_outcome_uninitialised. }
      intros [= <- <- <-]. cbn. rewrite !lookup_delete_eq, Hsent, Htc, Hlog.
      do 3 (split; [done|]). left. split; [by eexists|]. do 3 (split; [done|]).
      split; [by rewrite <- app_assoc|].
      unfold error_records. rewrite !bind_app, <- !app_assoc. reflexivity.
  - rewrite (process_agent_response_unsliceable thinking_callback others excerpt_error
               run_list prompt client_id w a Hs).
    destruct (prepared_frame others client_id w)
      as (_ & _ & _ & _ & Htc & _ & Hlog & Hsent & _).
    intros [= <- <- <-]. cbn. rewrite !lookup_delete_eq.
    do 3 (split; [done|]). right. do 3 (split; [done|]). split; [done|].
    unfold error_records. by rewrite bind_app.
Qed.

Lemma on_message_idle msg client_id w a r w' a' :
  unshared client_id →
  active_tasks w !! client_id = None →
  handled msg client_id w a = (r, w', a') →
  (r ≠ OutOfFuel → active_tasks w' !! client_id = None)
  ∧ ∃ evs, sent w' = sent w ++ evs
           ∧ Forall (λ ev, ev_type ev = "system" → ev_content ev ∈ idle_notices) evs.
Proof.
  intros Hspares Hfree. destruct msg as [prompt| | |]; cbn [on_message].
  - intros Hp.
    destruct (on_prompt_slot json_dump uuid4 strftime_now isoformat_now thinking_callback
                thinking_steps others excerpt_error run_list prompt client_id w a Hspares)
      as (r0 & w0 & a0 & Hp0 & _ & Hfree0).
    rewrite Hp in Hp0. injection Hp0 as <- <- <-. split; [done|].
    revert Hp. unfold on_prompt. set (w0 := tick _).
    destruct (process prompt client_id w0 a) as [[r1 w1] a1] eqn:Hp1.
    apply framed in Hp1 as (_ & _ & _ & _ & _ & _ & evs & Hsent & _ & Hevs).
    specialize (Hevs Hspares).
    change (sent w0) with (sent w) in Hsent.
    assert (Forall (λ ev, ev_type ev = "system" → ev_content ev ∈ idle_notices)
              ({| ev_type := "system"; ev_content := "正在处理您的请求..." |} :: evs)) as Hall.
    { constructor; [intros _; unfold idle_notices; rewrite !elem_of_cons; by left|].
      eapply Forall_impl; [exact Hevs|]. by intros ev Hne Heq. }
    destruct r1 as [[result|]|[msg|]|]; intros [= <- <- <-].
    + eexists. split; [|exact Hall].
      by destruct (bool_decide (0 < length _)).
    + by eexists.
    + exists (({| ev_type := "system"; ev_content := "正在处理您的请求..." |} :: evs)
               ++ [{| ev_type := "error"; ev_content := "处理请求时出错: " +:+ msg |}]).
      split; [cbn; by rewrite Hsent, <- app_assoc|].
      apply Forall_app. split; [done|]. by repeat constructor.
    + by eexists.
    + by eexists.
  - intros Hc.
    destruct (on_cancel_idle others client_id w a Hspares Hfree)
      as (w1 & Hc1 & _ & Hfree1 & Hsent1).
    rewrite Hc in Hc1. injection Hc1 as -> -> ->. split; [done|].
    eexists [_]. split; [exact Hsent1|]. constructor; [|done].
    intros _. unfold idle_notices. rewrite !elem_of_cons. right. by left.
  - intros [= <- <- <-]. split; [done|]. exists []. by rewrite app_nil_r.
  - intros [= <- <- <-]. split; [done|]. exists []. by rewrite app_nil_r.
Qed.

(** X15. A request to cancel never meets a task, as long as no other
    connection uses the identifier of the client. The endpoint reads the
    next message only when the call for the last prompt is over, and by
    then the slot of the client is free: on a connection whose client holds
    no task at the start, every event of type "system" that is sent is the
    notice that a prompt is being handled or the notice that no task is
    running. So neither the notice that a task is being stopped nor the
    notice that a task was stopped is ever sent. *)
Theorem cancel_finds_no_task msgs client_id : ∀ w a r w' a',
  unshared client_id →
  active_tasks w !! client_id = None →
  loop msgs client_id w a = (r, w', a') →
  ∃ evs, sent w' = sent w ++ evs
         ∧ Forall (λ ev, ev_type ev = "system" → ev_content ev ∈ idle_notices) evs
         ∧ ¬ ({| ev_type := "system"; ev_content := "正在终止任务..." |} ∈ evs)
         ∧ ¬ ({| ev_type := "system"; ev_content := "任务已被终止" |} ∈ evs).
Proof.
  assert (∀ evs,
            Forall (λ ev, ev_type ev = "system" → ev_content ev ∈ idle_notices) evs →
            ¬ ({| ev_type := "system"; ev_content := "正在终止任务..." |} ∈ evs)
            ∧ ¬ ({| ev_type := "system"; ev_content := "任务已被终止" |} ∈ evs)) as Hnot.
  { intros evs Hall. rewrite Forall_forall in Hall. split; intros Hin;
      specialize (Hall _ Hin eq_refl); cbn in Hall; unfold idle_notices in Hall;
      rewrite !elem_of_cons in Hall; destruct Hall as [Heq|[Heq|Heq]];
      try discriminate Heq; by apply elem_of_nil in Heq. }
  induction msgs as [|msg msgs IH]; intros w a r w' a' Hspares Hfree; cbn [websocket_loop].
  - intros [= <- <- <-]. exists []. rewrite app_nil_r. split; [done|]. split; [done|].
    by apply Hnot.
  - assert (active_tasks (paused w) !! client_id = None) as Hfree0
      by (by rewrite (proj1 (suspend_spares others client_id w Hspares))).
    destruct (handled msg client_id (paused w) a) as [[r1 w1] a1] eqn:Hmsg.
    destruct (on_message_idle _ _ _ _ _ _ _ Hspares Hfree0 Hmsg)
      as (Hfree1 & evs1 & Hsent1 & Hall1).
    change (sent (paused w)) with (sent w) in Hsent1.
    destruct r1 as [[]|ex|].
    + intros Hrest.
      destruct (IH _ _ _ _ _ Hspares (Hfree1 ltac:(done)) Hrest) as (evs & Hsent & Hall & _).
      exists (evs1 ++ evs). split; [by rewrite Hsent, Hsent1, app_assoc|].
      assert (Forall (λ ev, ev_type ev = "system" → ev_content ev ∈ idle_notices)
                (evs1 ++ evs)) as Hboth by (by apply Forall_app).
      split; [done|]. by apply Hnot.
    + intros [= <- <- <-]. exists evs1. split; [done|]. split; [done|]. by apply Hnot.
    + intros [= <- <- <-]. exists evs1. split; [done|]. split; [done|]. by apply Hnot.
Qed.


End WebMore.


(** ** Looking records up *)

Section Lookup.
Context {File : Type}.
Variable json_load : File → option JSON.
Implicit Types (dir : gmap string File) (files : list (string * File)).

(** A file that holds a record of the identifier. *)
Local Abbreviation carries history_id f data :=
  (json_load f = Some data
   ∧ ∃ fields, data = JObj fields ∧ fields !! "id" = Some (JStr history_id)).

Lemma eq_str_true v s : eq_str v s = true ↔ v = JStr s.
Proof.
  destruct v; cbn; try (split; [discriminate|by intros [=]]).
  rewrite String.eqb_eq. split; [by intros ->|by intros [= ->]].
Qed.

Lemma py_get_id_carries history_id f data v :
  json_load f = Some data → py_get "id" data = Some v → eq_str v history_id = true →
  carries history_id f data.
Proof.
  intros Hload Hget Heq. split; [done|]. apply eq_str_true in Heq as ->.
  destruct data as [| | | | |fields]; try discriminate Hget.
  exists fields. split; [done|]. cbn in Hget.
  destruct (fields !! "id") as [v|]; cbn in Hget; [congruence|discriminate Hget].
Qed.

Lemma scan_result files history_id :
  match (ChatHistory.scan json_load files history_id).1 with
  | Some data => ∃ file f, (file, f) ∈ files ∧ carries history_id f data
  | None => ∀ file f data, (file, f) ∈ files → ¬ carries history_id f data
  end.
Proof.
  induction files as [|[file f] rest IH]; cbn [ChatHistory.scan].
  - cbn. intros file f data Hin. by apply elem_of_nil in Hin.
  - destruct (json_load f) as [data|] eqn:Hload; cbn.
    + destruct (py_get "id" data) as [v|] eqn:Hget; cbn.
      * destruct (eq_str v history_id) eqn:Heq; cbn.
        -- exists file, f. split; [by left|]. by eapply py_get_id_carries.
        -- destruct (ChatHistory.scan json_load rest history_id).1 as [found|].
           ++ destruct IH as (file' & f' & Hin & Hc). exists file', f'. split; [by right|done].
           ++ intros file' f' data' Hin Hc. apply elem_of_cons in Hin as [[= -> ->]|Hin].
              ** destruct Hc as (Hload' & fields & -> & Hid). rewrite Hload in Hload'.
                 injection Hload' as ->. cbn in Hget. rewrite Hid in Hget. cbn in Hget.
                 injection Hget as <-. cbn in Heq. by rewrite String.eqb_refl in Heq.
              ** by eapply IH.
      * destruct (ChatHistory.scan json_load rest history_id) as [[found|] failed]; cbn in *.
        -- destruct IH as (file' & f' & Hin & Hc). exists file', f'. split; [by right|done].
        -- intros file' f' data' Hin Hc. apply elem_of_cons in Hin as [[= -> ->]|Hin].
           ++ destruct Hc as (Hload' & fields & -> & Hid). rewrite Hload in Hload'.
              injection Hload' as ->. discriminate Hget.
           ++ by eapply IH.
    + destruct (ChatHistory.scan json_load rest history_id) as [[found|] failed]; cbn in *.
      * destruct IH as (file' & f' & Hin & Hc). exists file', f'. split; [by right|done].
      * intros file' f' data' Hin Hc. apply elem_of_cons in Hin as [[= -> ->]|Hin].
        -- destruct Hc as (Hload' & _). congruence.
        -- by eapply IH.
Qed.

Lemma elem_of_glob_json dir file f :
  (file, f) ∈ ChatHistory.glob_json dir
  ↔ dir !! file = Some f ∧ PyStr.endswith ".json" file = true.
Proof.
  unfold ChatHistory.glob_json. rewrite list_elem_of_filter, elem_of_map_to_list. cbn. tauto.
Qed.

(** X17. [get_conversation] answers with a record only if a file of the
    directory whose name ends in .json holds it and the record is a
    dictionary with the identifier asked for under "id"; and it answers
    None only if no such file holds such a record. Files that cannot be
    read, and records of another shape, do not stop the search. *)
Theorem get_conversation_finds_a_carrier history_id dir :
  match ChatHistory.get_conversation json_load history_id dir with
  | Some data =>
      ∃ file f, dir !! file = Some f ∧ PyStr.endswith ".json" file = true
                ∧ carries history_id f data
  | None =>
      ∀ file f data, dir !! file = Some f → PyStr.endswith ".json" file = true →
                     ¬ carries history_id f data
  end.
Proof.
  unfold ChatHistory.get_conversation.
  pose proof (scan_result (ChatHistory.glob_json dir) history_id) as Hscan.
  destruct (ChatHistory.scan json_load (ChatHistory.glob_json dir) history_id).1 as [data|].
  - destruct Hscan as (file & f & Hin & Hc). apply elem_of_glob_json in Hin as [Hfile Hjson].
    by exists file, f.
  - intros file f data Hfile Hjson. apply (Hscan file f data).
    by apply elem_of_glob_json.
Qed.

(** X18. [get_history_detail] gives the error object exactly when
    [get_conversation] finds nothing: a record that was found has the key
    "id", so it is not the empty dictionary, which the test of the function
    would take for a missing one, and it is not the error object. *)
Theorem get_history_detail_error_iff_missing history_id dir :
  (get_history_detail json_load history_id dir = history_missing
   ↔ ChatHistory.get_conversation json_load history_id dir = None)
  ∧ ∀ data, ChatHistory.get_conversation json_load history_id dir = Some data →
            get_history_detail json_load history_id dir = data.
Proof.
  unfold get_history_detail, ChatHistory.get_conversation.
  pose proof (scan_result (ChatHistory.glob_json dir) history_id) as Hget.
  destruct (ChatHistory.scan json_load (ChatHistory.glob_json dir) history_id).1 as [data|].
  - destruct Hget as (file & f & _ & _ & fields & -> & Hid).
    assert (truthy (JObj fields) = true) as ->.
    { cbn. rewrite bool_decide_eq_false_2; [done|].
      intros ->. by rewrite lookup_empty in Hid. }
    split; [|by intros ? [= <-]]. split; [|discriminate].
    unfold history_missing. intros [= ->].
    rewrite lookup_singleton_ne in Hid by done. discriminate Hid.
  - split; [done|]. discriminate.
Qed.

End Lookup.

(** ** The life of an agent *)

Section Life.
Context {E Schema : Type} `{!EqDecision Schema} {Ext : External E Schema}.
Variable connect_stdio : string → list string → E → Res unit * MCPClients Schema * E.
Variable connect_sse : string → E → Res unit * MCPClients Schema * E.
Variable disconnect : E → Res unit * E.
Variable system_prompt : string.
Variable keys_in_order : gmap string Schema → list string.
Implicit Types (a : Agent E Schema).

Local Abbreviation init := (initialize connect_stdio connect_sse system_prompt keys_in_order).

(** X19. [initialize] rejects its arguments before it contacts a server:
    stdio without a command, sse without a URL, and any other connection
    type raise a [ValueError], which is logged and raised again. By then
    the connection type is written and the clients of the agent are
    replaced by new ones without a session, an earlier connection being
    dropped and not closed; the observers, the memory and the snapshot are
    as they were. *)
Theorem initialize_rejects_before_connecting type server_url command args s a msg :
  (type = "stdio" ∧ not_str command = true
   ∧ msg = "Command is required for stdio connection")
  ∨ (type = "sse" ∧ not_str server_url = true
     ∧ msg = "Server URL is required for SSE connection")
  ∨ (type ≠ "stdio" ∧ type ≠ "sse" ∧ msg = "Unsupported connection type: " +:+ type) →
  init type server_url command args s a
  = (Raise (Exception msg),
     {| connection_type := type; available_tools := available_tools s |},
     set_trace (trace a ++ [Log LvError ("Failed to initialize MCP agent: " +:+ msg)])
       (set_mcp_clients (Some new_clients) a)).
Proof.
  unfold initialize, try_except, connect_by.
  intros [(-> & Hc & ->)|[(-> & Hu & ->)|(Hne1 & Hne2 & ->)]].
  - cbn [String.eqb Ascii.eqb Bool.eqb]. by rewrite Hc.
  - cbn [String.eqb Ascii.eqb Bool.eqb]. by rewrite Hu.
  - apply String.eqb_neq in Hne1, Hne2. by rewrite Hne1, Hne2.
Qed.

(** X20. [initialize] over stdio with a server that connects and lists its
    tools: the observers are cleared, the snapshot is what the server
    lists, and the memory gains the messages of the first refresh, if any,
    and after them the system prompt with the names of [tool_map]. The
    snapshot is not cleared first: the first refresh reports its diff
    against the snapshot that the agent had before. *)
Theorem initialize_over_stdio command args s a mc e1 tools e2 :
  not_str (Some command) = false →
  connect_stdio command (default [] args) (env a) = (Ret tt, mc, e1) →
  session mc = true →
  list_tools e1 = (Ret tools, e2) →
  let added := added_of (tool_schemas a) (dict_of_tools tools) in
  let removed := removed_of (tool_schemas a) (dict_of_tools tools) in
  ∃ a', init "stdio" None (Some command) args s a
        = (Ret tt, {| connection_type := "stdio"; available_tools := true |}, a')
        ∧ mcp_clients a' = Some mc
        ∧ _thinking_callbacks a' = []
        ∧ tool_schemas a' = dict_of_tools tools
        ∧ env a' = e2
        ∧ memory a'
          = memory a ++ refresh_messages added removed
            ++ [system_message
                  (system_prompt +:+ PyStr.nl +:+ PyStr.nl +:+ "Available MCP tools: "
                   +:+ PyStr.join ", " (keys_in_order (tool_map mc)))].
Proof.
  intros Hcommand Hconnect Hsession Htools added removed.
  unfold initialize, try_except, connect_by.
  cbn [String.eqb Ascii.eqb Bool.eqb]. rewrite Hcommand.
  unfold call_connect. cbn [env set_mcp_clients default]. change (id command) with command.
  rewrite Hconnect.
  set (a1 := set_thinking_callbacks [] _).
  destruct (refresh_tools_answered a1 mc tools e2 eq_refl Hsession Htools)
    as (a2 & Hrefresh & Hts & Hmc & _ & _ & Henv & _).
  destruct (refresh_tools_memory a1 mc tools e2 eq_refl Hsession Htools)
    as (a2' & evs & Hrefresh' & Hmem & _ & _ & Hcbs).
  rewrite Hrefresh in Hrefresh'. injection Hrefresh' as <-.
  unfold initialize_tools.
  rewrite (bind_ret _ _ a1 _ a2 Hrefresh).
  rewrite (bind_ret _ _ a2 mc a2) by (apply the_mcp_clients_ret; by rewrite Hmc).
  eexists. split; [reflexivity|]. cbn.
  rewrite Hmc, Hcbs, Hts, Henv, Hmem. by rewrite <- app_assoc.
Qed.

(** X21. [cleanup] ends the agent. When it returns, the agent has no clients
    and no observers, its memory is kept, every later [run] raises "Agent
    not initialized" and leaves the agent as it is, and a second [cleanup]
    raises instead of doing nothing. When it raises, because the server
    could not be disconnected or there were no clients, nothing has been
    cleared. *)
Theorem cleanup_ends_the_agent a r a' :
  cleanup disconnect a = (r, a') →
  (r = Ret tt →
   mcp_clients a' = None ∧ _thinking_callbacks a' = [] ∧ memory a' = memory a
   ∧ (∀ prompt, run prompt a' = (Raise (Exception "Agent not initialized"), a'))
   ∧ ∃ msg, cleanup disconnect a' = (Raise (Exception msg), a'))
  ∧ (r ≠ Ret tt →
     mcp_clients a' = mcp_clients a ∧ _thinking_callbacks a' = _thinking_callbacks a).
Proof.
  assert (∀ b, mcp_clients b = None →
            (∀ prompt, run prompt b = (Raise (Exception "Agent not initialized"), b))
            ∧ ∃ msg, cleanup disconnect b = (Raise (Exception msg), b)) as Hended.
  { intros b Hb. split.
    - intros prompt. unfold run, fmap, M_fmap. by rewrite run_outcome_uninitialised.
    - eexists. unfold cleanup, the_mcp_clients, mbind, M_bind. by rewrite Hb. }
  unfold cleanup, the_mcp_clients, mbind, M_bind.
  destruct (mcp_clients a) as [mc|] eqn:Hmc; [|intros [= <- <-]; by split].
  destruct (session mc); cbn [when].
  - unfold call_disconnect, mbind, M_bind.
    destruct (disconnect (env a)) as [[[]|ex|] e]; intros [= <- <-].
    + split; [|done]. intros _. do 3 (split; [done|]). by apply Hended.
    + by split.
    + by split.
  - intros [= <- <-]. split; [|done]. intros _. do 3 (split; [done|]). by apply Hended.
Qed.

End Life.

(** ** The endpoint as a whole *)

Section WholeEndpoint.
Context {E Schema File : Type} `{!EqDecision Schema} {Ext : External E Schema}.
Variable json_dump : JSON → File.
Variable uuid4 strftime_now isoformat_now : nat → string.
Variable thinking_callback : nat → Callback E.
Variable thinking_steps : nat → E → list string.
Variable others : nat → Slots → Slots.
Variable excerpt_error : JSON → string.
Variable run_list : list JSON → M E Schema string.
Variable connect_stdio : string → list string → E → Res unit * MCPClients Schema * E.
Variable connect_sse : string → E → Res unit * MCPClients Schema * E.
Variable disconnect : E → Res unit * E.
Variable system_prompt : string.
Variable keys_in_order : gmap string Schema → list string.
Variable sys_executable : option string.
Variable failure_reported : bool.
Implicit Types (t : Tables File).

Local Abbreviation endpoint :=
  (websocket_endpoint json_dump uuid4 strftime_now isoformat_now thinking_callback
     thinking_steps others excerpt_error run_list connect_stdio connect_sse disconnect
     system_prompt keys_in_order sys_executable failure_reported).
Local Abbreviation attempt :=
  (endpoint_try json_dump uuid4 strftime_now isoformat_now thinking_callback
     thinking_steps others excerpt_error run_list connect_stdio connect_sse system_prompt
     keys_in_order sys_executable).
Local Abbreviation saved :=
  (endpoint_save json_dump uuid4 strftime_now isoformat_now thinking_steps).
Local Abbreviation handler := (endpoint_except others failure_reported).

Lemma endpoint_except_frame client_id x (w : Web File) :
  let w' := handler client_id x w in
  chat_messages w' = chat_messages w ∧ history_dir w' = history_dir w
  ∧ clock w' = clock w.
Proof. destruct x; cbn; try done. by destruct failure_reported. Qed.

(** X22. When [websocket_endpoint] returns, however the connection ended,
    the client has no entry left in any of the four tables, and the entries
    of the other clients in [active_connections] and [active_agents] are as
    they were. The conversation of the connection, when it is not empty, has
    been saved once more, whole, under the identifier drawn at that
    moment, every answer with what its list of thinking steps holds by
    then. *)
Theorem websocket_endpoint_forgets_the_client msgs client_id t e t' a' :
  endpoint msgs client_id t e = (Ret tt, t', a') →
  (¬ (client_id ∈ active_connections t') ∧ ¬ (client_id ∈ active_agents t')
   ∧ active_tasks (web t') !! client_id = None
   ∧ cancel_flags (web t') !! client_id = None)
  ∧ (∀ other, other ≠ client_id →
       (other ∈ active_connections t' ↔ other ∈ active_connections t)
       ∧ (other ∈ active_agents t' ↔ other ∈ active_agents t))
  ∧ ∃ x w1 a1,
      attempt msgs client_id (set_chat_messages [] (suspend others (web t))) e = (x, w1, a1)
      ∧ chat_messages (web t') = chat_messages w1
      ∧ history_dir (web t')
        = if nonempty (chat_messages w1)
          then <[ChatHistory.filename_of (strftime_now (clock w1)) (uuid4 (clock w1)) :=
                   json_dump (ChatHistory.history_data (uuid4 (clock w1))
                                (isoformat_now (clock w1)) client_id
                                (messages_json thinking_steps a1 w1))]>
                 (history_dir w1)
          else history_dir w1.
Proof.
  unfold websocket_endpoint. cbn [web active_connections active_agents].
  destruct (attempt msgs client_id (set_chat_messages [] (suspend others (web t))) e) as [[x w1] a1] eqn:Htry.
  assert (x ≠ Unfinished →
          (let '(r, w, a) :=
             endpoint_cleanup others disconnect
               (web_info ("清理客户端 " +:+ client_id +:+ " 的资源")
                  (saved client_id a1 (handler client_id x w1))) a1 in
           match r with
           | Ret _ =>
               (Ret tt,
                endpoint_forget client_id
                  (mkTables w ({[client_id]} ∪ active_connections t)
                     ({[client_id]} ∪ active_agents t)), a)
           | _ => (r, mkTables w ({[client_id]} ∪ active_connections t)
                        ({[client_id]} ∪ active_agents t), a)
           end) = (Ret tt, t', a') →
          (¬ (client_id ∈ active_connections t') ∧ ¬ (client_id ∈ active_agents t')
           ∧ active_tasks (web t') !! client_id = None
           ∧ cancel_flags (web t') !! client_id = None)
          ∧ (∀ other, other ≠ client_id →
               (other ∈ active_connections t' ↔ other ∈ active_connections t)
               ∧ (other ∈ active_agents t' ↔ other ∈ active_agents t))
          ∧ chat_messages (web t') = chat_messages w1
          ∧ history_dir (web t')
            = if nonempty (chat_messages w1)
              then <[ChatHistory.filename_of (strftime_now (clock w1)) (uuid4 (clock w1)) :=
                       json_dump (ChatHistory.history_data (uuid4 (clock w1))
                                    (isoformat_now (clock w1)) client_id
                                (messages_json thinking_steps a1 w1))]>
                     (history_dir w1)
              else history_dir w1) as Hmain.
  { intros _.
    destruct (endpoint_except_frame client_id x w1) as (Hchat & Hdir & Hclock).
    set (w2 := handler client_id x w1) in *.
    assert (chat_messages (saved client_id a1 w2) = chat_messages w1
            ∧ history_dir (saved client_id a1 w2)
              = if nonempty (chat_messages w1)
                then <[ChatHistory.filename_of (strftime_now (clock w1)) (uuid4 (clock w1)) :=
                         json_dump (ChatHistory.history_data (uuid4 (clock w1))
                                      (isoformat_now (clock w1)) client_id
                                      (messages_json thinking_steps a1 w1))]>
                       (history_dir w1)
                else history_dir w1) as [Hchat3 Hdir3].
    { unfold endpoint_save, save_chat, messages_json. rewrite Hchat, Hclock, Hdir.
      destruct (chat_messages w1) as [|m ms] eqn:Hms; cbn; by split. }
    set (w3 := endpoint_save _ _ _ _ _ _ _ w2) in *.
    unfold endpoint_cleanup.
    destruct (cleanup disconnect a1) as [[[]|[msg|]|] a2]; intros [= <- <-];
      (split; [|split; [|split; [exact Hchat3|exact Hdir3]]]).
    - cbn. rewrite !lookup_delete_eq. repeat split; try done;
        rewrite elem_of_difference, elem_of_singleton; tauto.
    - intros other Hother. cbn.
      rewrite !elem_of_difference, !elem_of_union, !elem_of_singleton. tauto.
    - cbn. rewrite !lookup_delete_eq. repeat split; try done;
        rewrite elem_of_difference, elem_of_singleton; tauto.
    - intros other Hother. cbn.
      rewrite !elem_of_difference, !elem_of_union, !elem_of_singleton. tauto. }
  destruct x; try (intros Hrun; destruct (Hmain ltac:(done) Hrun) as (H1 & H2 & H3 & H4);
                   split; [exact H1|]; split; [exact H2|]; eexists _, w1, a1;
                   split; [reflexivity|]; split; [exact H3|exact H4]).
  intros [=].
Qed.

(** X23. A connection whose agent cannot be initialised: the client is sent
    the notice of the connection attempt and one event of type "error" with
    the text of the failure, and a second one from the handler of the
    endpoint if that report goes through; no message of the client is read,
    so no task is created and nothing is added to the conversation or to
    the history. *)
Theorem websocket_endpoint_failed_initialize msgs client_id t e msg s1 a1 :
  initialize connect_stdio connect_sse system_prompt keys_in_order
    "stdio" None sys_executable (Some ["-m"; "app.mcp.server"])
    {| connection_type := "stdio"; available_tools := false |} (MCPAgent_new e)
  = (Raise (Exception msg), s1, a1) →
  ∃ r t' a', endpoint msgs client_id t e = (r, t', a')
    ∧ sent (web t')
      = sent (web t)
        ++ [ {| ev_type := "system"; ev_content := "正在连接到服务器..." |};
             {| ev_type := "error"; ev_content := "连接服务器时出错: " +:+ msg |} ]
        ++ (if failure_reported
            then [ {| ev_type := "error"; ev_content := "WebSocket处理时出错: " +:+ msg |} ]
            else [])
    ∧ tasks_created (web t') = tasks_created (web t)
    ∧ chat_messages (web t') = []
    ∧ history_dir (web t') = history_dir (web t).
Proof.
  intros Hinit. unfold websocket_endpoint, endpoint_try.
  cbn [web active_connections active_agents]. rewrite Hinit.
  unfold endpoint_except, endpoint_save, endpoint_cleanup.
  assert (bool_decide (0 < 0) = false) as Hempty by done.
  destruct failure_reported;
    cbn [chat_messages suspend send_json set_sent web_error web_info set_web_log
         set_chat_messages length];
    rewrite Hempty;
    destruct (cleanup disconnect a1) as [[[]|[msg'|]|] a2];
    eexists _, _, _; (split; [reflexivity|]);
    cbn [web sent tasks_created chat_messages history_dir endpoint_forget suspend
         send_json set_sent web_error web_info set_web_log set_chat_messages
         set_cancel_flags set_active_tasks];
    rewrite <- ?app_assoc; (split; [reflexivity|]); by repeat split.
Qed.

End WholeEndpoint.

(** ** The further properties on concrete input *)

(** A server that lists the tool b to an agent that knows the tool a. *)
Lemma refresh_tools_twice_witness :
  let a := agent_of 20 {["a" := 1]} {["a" := 1]} [] (script_of [] (Ret [tool "b" 2])) in
  list_tools (External:=scripted) (env a) = (Ret [tool "b" 2], env a)
  ∧ ∃ added removed a1,
      _refresh_tools (Ext:=scripted) a = (Ret (added, removed), a1)
      ∧ tool_schemas a1 = dict_of_tools [tool "b" 2]
      ∧ _refresh_tools (Ext:=scripted) a1 = (Ret ([], []), set_env (env a) a1).
Proof.
  intros a. split; [reflexivity|].
  exact (refresh_tools_twice (Ext:=scripted) a _ [tool "b" 2] (env a) (env a)
           eq_refl eq_refl eq_refl eq_refl).
Defined.

Lemma refresh_tools_appends_messages_witness :
  let a := agent_of 20 {["a" := 1]} {["a" := 1]} [] (script_of [] (Ret [tool "b" 2])) in
  let current := dict_of_tools [tool "b" 2] in
  list_tools (External:=scripted) (env a) = (Ret [tool "b" 2], env a)
  ∧ ∃ a', _refresh_tools (Ext:=scripted) a
          = (Ret (added_of (tool_schemas a) current, removed_of (tool_schemas a) current), a')
          ∧ memory a'
            = memory a ++ refresh_messages (added_of (tool_schemas a) current)
                            (removed_of (tool_schemas a) current).
Proof.
  intros a current. split; [reflexivity|].
  pose proof (refresh_tools_appends_messages (Ext:=scripted) a _ [tool "b" 2] (env a)
                eq_refl eq_refl eq_refl) as (a' & Hrun & Hmem & _).
  exists a'. split; [exact Hrun|exact Hmem].
Defined.

(** An agent whose clients hold no tool. *)
Lemma think_ends_without_service_witness :
  let a := agent_of 20 ∅ ∅ [] (script_of [] (Ret [])) in
  tool_map {| session := true; tool_map := (∅ : gmap string nat) |} = ∅
  ∧ ∃ a', think (Ext:=scripted) a = (Ret false, a') ∧ state a' = FINISHED.
Proof.
  intros a. split; [reflexivity|].
  eexists. split;
    [exact (think_ends_without_service (Ext:=scripted) a _ eq_refl (or_intror eq_refl))
    |reflexivity].
Defined.

(** The third step of a run. *)
Lemma think_between_refreshes_witness :
  let a := running 3 (agent_of 20 {["bash" := 0]} {["bash" := 0]} [] (script_of [] (Ret []))) in
  (1 ≤ current_step a ≤ 4)%Z
  ∧ think (Ext:=scripted) a = super_think (External:=scripted) info_interceptor a.
Proof.
  intros a.
  assert (1 ≤ current_step a ≤ 4)%Z as Hrange by (cbn; lia).
  split; [exact Hrange|].
  apply (think_between_refreshes (Ext:=scripted) a _ eq_refl eq_refl); [|right; exact Hrange].
  intros Hempty. apply (f_equal (λ m : gmap string nat, m !! "bash")) in Hempty.
  discriminate Hempty.
Defined.

(** Two steps, the second of which ends the run. *)
Lemma while_loop_counts_results_witness :
  let a := running 0 (bash_agent [Answer "x"; Terminate "y"]) in
  let result := while_loop (Ext:=scripted) 3 [] a in
  result = (Ret ["x"; "y"], result.2)
  ∧ ∃ rs, ["x"; "y"] = [] ++ rs ∧ current_step result.2 = (current_step a + Z.of_nat (length rs))%Z.
Proof.
  intros a result.
  assert (result = (Ret ["x"; "y"], result.2)) as Hreturns by (vm_compute; reflexivity).
  split; [exact Hreturns|].
  destruct (while_loop_counts_results (Ext:=scripted) 3 [] a _ _
              scripted_keeps_counters Hreturns) as (rs & Hrs & Hcs & _).
  exists rs. split; [exact Hrs|exact Hcs].
Defined.

(** A step that ends the run; the act after it is never played. *)
Lemma finishing_step_is_the_last_witness :
  let a := running 0 (bash_agent [Terminate "done"; Answer "never"]) in
  loop_cond a = true
  ∧ ∃ a', while_loop (Ext:=scripted) 3 [] a = (Ret ["done"], a')
          ∧ acts (env a') = [Answer "never"].
Proof.
  intros a.
  assert (loop_cond a = true) as Hcond by (vm_compute; reflexivity).
  assert (step (External:=scripted) (at_step a)
          = (Ret "done", (step (External:=scripted) (at_step a)).2)) as Hstep
    by (vm_compute; reflexivity).
  assert (state (step (External:=scripted) (at_step a)).2 = FINISHED) as Hstate
    by (vm_compute; reflexivity).
  assert (_cancelled (step (External:=scripted) (at_step a)).2 = false) as Hflag
    by (vm_compute; reflexivity).
  split; [exact Hcond|].
  pose proof (finishing_step_is_the_last (Ext:=scripted) 2 [] a "done" _
                Hcond Hstep Hstate Hflag) as Hloop.
  eexists. split; [exact Hloop|]. vm_compute. reflexivity.
Defined.

(** Two steps and no assistant message: the results are joined. *)
Lemma run_returns_the_final_response_witness :
  let a := bash_agent [Answer "x"; Terminate "y"] in
  let a_out := (while_loop (Ext:=scripted) 3 [] (run_enter "hi" a).2).2 in
  _cancelled a_out = false
  ∧ response_of (Ext:=scripted) (memory a_out) ["x"; "y"] = "x" +:+ PyStr.nl +:+ "y"
  ∧ ∃ a', run_outcome (Ext:=scripted) 3 "hi" a
          = (Ret (Finished (response_of (Ext:=scripted) (memory a_out) ["x"; "y"])), a').
Proof.
  intros a a_out.
  assert (run_enter "hi" a = (Ret tt, (run_enter "hi" a).2)) as Henter
    by (vm_compute; reflexivity).
  assert (while_loop (Ext:=scripted) 3 [] (run_enter "hi" a).2 = (Ret ["x"; "y"], a_out))
    as Hloop by (vm_compute; reflexivity).
  assert (_cancelled a_out = false) as Hflag by (vm_compute; reflexivity).
  split; [exact Hflag|]. split; [vm_compute; reflexivity|].
  pose proof (run_returns_the_final_response (Ext:=scripted) 3 "hi" a _ _ _ a_out
                eq_refl Henter Hloop Hflag) as (a' & Hrun & _).
  exists a'. exact Hrun.
Defined.


(** An agent as a cancelled run at step 7 left it. *)
Lemma run_starts_afresh_witness :
  let a := bash_agent [Answer "x"; Terminate "y"] in
  is_Some (mcp_clients a)
  ∧ run (Ext:=scripted) "hi" (left_over 7 true true a) = run (Ext:=scripted) "hi" a.
Proof.
  intros a.
  assert (is_Some (mcp_clients a)) as Hinit by (eexists; reflexivity).
  split; [exact Hinit|].
  exact (run_starts_afresh (Ext:=scripted) 7 true true "hi" a Hinit).
Defined.

Lemma steady_keeps_observers : step_keeps_observers (Ext:=steady).
Proof. intros a r a' [= <- <-]. reflexivity. Qed.

Lemma scripted_keeps_observers : step_keeps_observers (Ext:=scripted).
Proof.
  intros a r a'. cbn [step scripted]. unfold scripted_step.
  destruct (acts (env a)) as [|[] rest]; intros [= <- <-]; reflexivity.
Qed.

Lemma brief_keeps_observers : step_keeps_observers (Ext:=brief).
Proof. intros a r a' [= <- <-]. reflexivity. Qed.

Lemma no_lists_keep_observers {E Schema : Type} :
  list_runs_keep_observers (no_lists (E:=E) (Schema:=Schema)).
Proof. intros items a r a' [= <- <-]. reflexivity. Qed.

(** Three prompts, one of them a number, and a request to cancel: three
    closures are registered and two tasks created. *)
Lemma observers_pile_up_witness :
  let a := agent_of 2 {["bash" := 0]} ∅ [] ([] : Notes) in
  let msgs := [Prompt (JStr "hi"); Cancel; Prompt (JNum 7); Prompt (JStr "again")] in
  step_keeps_observers (Ext:=brief)
  ∧ list_runs_keep_observers (no_lists (E:=Notes) (Schema:=nat))
  ∧ ∃ w' a',
      websocket_loop (Ext:=brief) id (λ _, "id") (λ _, "ts") (λ _, "iso")
        noting noted alone subscript_error no_lists msgs "c1" empty_web a
      = (Ret tt, w', a')
      ∧ _thinking_callbacks a' = _thinking_callbacks a ++ (noting <$> seq 0 (calls w' - 0))
      ∧ calls w' = 3
      ∧ tasks_created w' = 2.
Proof.
  intros a msgs.
  split; [exact brief_keeps_observers|]. split; [exact no_lists_keep_observers|].
  set (result := websocket_loop (Ext:=brief) id (λ _, "id") (λ _, "ts") (λ _, "iso")
                   noting noted alone subscript_error no_lists msgs "c1" empty_web a).
  assert (result = (Ret tt, result.1.2, result.2)) as Hloop by (vm_compute; reflexivity).
  destruct (observers_pile_up (Ext:=brief) id (λ _, "id") (λ _, "ts") (λ _, "iso")
              noting noted alone subscript_error no_lists msgs "c1" empty_web a _ _ _
              brief_keeps_observers no_lists_keep_observers Hloop)
    as (_ & _ & Hcbs & Hcount).
  destruct (Hcount eq_refl) as [Hcalls Htasks].
  exists result.1.2, result.2.
  split; [exact Hloop|]. split; [exact Hcbs|]. split; [exact Hcalls|exact Htasks].
Defined.


(** A prompt that is a number, and a prompt for an agent that was cleaned
    up. *)
Lemma process_agent_response_raises_in_two_cases_witness :
  let a := ended (bash_agent []) in
  let unsliced := process_agent_response (Ext:=scripted) quiet_callback alone
                    subscript_error no_lists (JNum 7) "c1" (empty_web (File:=JSON))
                    (bash_agent []) in
  let result := process_agent_response (Ext:=scripted) quiet_callback alone
                  subscript_error no_lists (JStr "hi") "c1" (empty_web (File:=JSON)) a in
  spares alone "c1"
  ∧ unsliced = (Raise (Exception "'int' object is not subscriptable"),
                unsliced.1.2, unsliced.2)
  ∧ tasks_created unsliced.1.2 = 0
  ∧ _thinking_callbacks unsliced.2 = [quiet_callback 0]
  ∧ result = (Raise (Exception "Agent not initialized"), result.1.2, result.2)
  ∧ tasks_created result.1.2 = 1
  ∧ active_tasks result.1.2 !! "c1" = None.
Proof.
  intros a unsliced result.
  assert (unsliced = (Raise (Exception "'int' object is not subscriptable"),
                      unsliced.1.2, unsliced.2))
    as Hunsliced by (vm_compute; reflexivity).
  assert (result = (Raise (Exception "Agent not initialized"), result.1.2, result.2))
    as Hraises by (vm_compute; reflexivity).
  pose proof (process_agent_response_raises_in_two_cases (Ext:=scripted) quiet_callback
                alone subscript_error no_lists (JNum 7) "c1" (empty_web (File:=JSON))
                (bash_agent []) _ _ _ (alone_spares "c1")
                ltac:(intros items; discriminate) Hunsliced)
    as (Hagent & _ & _ & [(_ & Hmc & _)|(_ & _ & Htasks0 & _)]); [discriminate Hmc|].
  pose proof (process_agent_response_raises_in_two_cases (Ext:=scripted) quiet_callback
                alone subscript_error no_lists (JStr "hi") "c1" (empty_web (File:=JSON))
                a _ _ _ (alone_spares "c1") ltac:(intros items; discriminate) Hraises)
    as (_ & Hfree & _ & [(_ & _ & _ & Htasks & _)|(Hs & _)]); [|discriminate Hs].
  split; [exact (alone_spares "c1")|]. split; [exact Hunsliced|].
  split; [exact Htasks0|]. split; [rewrite Hagent; reflexivity|].
  split; [exact Hraises|]. split; [exact Htasks|exact Hfree].
Defined.

(** A request to cancel between two prompts. *)
Lemma cancel_finds_no_task_witness :
  let a := bash_agent [Answer "x"; Terminate "done"] in
  let msgs := [Prompt (JStr "hi"); Cancel; Prompt (JStr "again")] in
  spares alone "c1"
  ∧ active_tasks (empty_web (File:=JSON)) !! "c1" = None
  ∧ ∃ r w' a' evs,
      websocket_loop (Ext:=scripted) id (λ _, "id") (λ _, "ts") (λ _, "iso")
        quiet_callback no_steps alone subscript_error no_lists msgs "c1" empty_web a
      = (r, w', a')
      ∧ sent w' = sent (empty_web (File:=JSON)) ++ evs
      ∧ ¬ ({| ev_type := "system"; ev_content := "正在终止任务..." |} ∈ evs).
Proof.
  intros a msgs. split; [exact (alone_spares "c1")|]. split; [reflexivity|].
  destruct (websocket_loop (Ext:=scripted) id (λ _, "id") (λ _, "ts") (λ _, "iso")
              quiet_callback no_steps alone subscript_error no_lists msgs "c1" empty_web a)
    as [[r w'] a'] eqn:Hloop.
  destruct (cancel_finds_no_task (Ext:=scripted) id (λ _, "id") (λ _, "ts") (λ _, "iso")
              quiet_callback no_steps alone subscript_error no_lists msgs "c1" empty_web a
              r w' a' (alone_spares "c1") eq_refl Hloop)
    as (evs & Hsent & _ & Hstop & _).
  exists r, w', a', evs. split; [reflexivity|]. split; [exact Hsent|exact Hstop].
Defined.


(** No command for a connection over stdio. *)
Lemma initialize_rejects_before_connecting_witness :
  let a := bash_agent [] in
  let s := {| connection_type := "sse"; available_tools := false |} in
  not_str None = true
  ∧ ∃ s' a',
      initialize (Ext:=scripted) (connected ∅) (connected_sse ∅) "prompt" names_of
        "stdio" None None None s a
      = (Raise (Exception "Command is required for stdio connection"), s', a')
      ∧ env a' = env a.
Proof.
  intros a s. split; [reflexivity|].
  eexists _, _. split;
    [exact (initialize_rejects_before_connecting (Ext:=scripted) (connected ∅)
              (connected_sse ∅) "prompt" names_of "stdio" None None None s a _
              (or_introl (conj eq_refl (conj eq_refl eq_refl))))
    |reflexivity].
Defined.

(** A server that connects and lists the tool bash. *)
Lemma initialize_over_stdio_witness :
  let a := agent_of 3 ∅ ∅ [quiet_callback 0] (script_of [] (Ret [tool "bash" 0])) in
  let s := {| connection_type := "sse"; available_tools := false |} in
  not_str (Some "python") = false
  ∧ ∃ a', initialize (Ext:=scripted) (connected {["bash" := 0]}) (connected_sse ∅)
            "prompt" names_of "stdio" None (Some "python") None s a
          = (Ret tt, {| connection_type := "stdio"; available_tools := true |}, a')
          ∧ _thinking_callbacks a' = []
          ∧ tool_schemas a' = dict_of_tools [tool "bash" 0].
Proof.
  intros a s. split; [reflexivity|].
  pose proof (initialize_over_stdio (Ext:=scripted) (connected {["bash" := 0]})
                (connected_sse ∅) "prompt" names_of "python" None s a _ _ [tool "bash" 0] _
                eq_refl eq_refl eq_refl eq_refl)
    as (a' & Hinit & _ & Hcbs & Hts & _).
  exists a'. split; [exact Hinit|]. split; [exact Hcbs|exact Hts].
Defined.

(** The end of an agent with a session. *)
Lemma cleanup_ends_the_agent_witness :
  let a := bash_agent [] in
  let result := cleanup closing a in
  result = (Ret tt, result.2)
  ∧ mcp_clients result.2 = None
  ∧ run (Ext:=scripted) "hi" result.2
    = (Raise (Exception "Agent not initialized"), result.2).
Proof.
  intros a result.
  assert (result = (Ret tt, result.2)) as Hreturns by (vm_compute; reflexivity).
  destruct (cleanup_ends_the_agent (Ext:=scripted) closing a _ _ Hreturns) as [Hended _].
  destruct (Hended eq_refl) as (Hmc & _ & _ & Hrun & _).
  split; [exact Hreturns|]. split; [exact Hmc|exact (Hrun "hi")].
Defined.

(** A connection with one prompt, then the client disconnects. *)
Lemma websocket_endpoint_forgets_the_client_witness :
  let result :=
    websocket_endpoint (Ext:=scripted) id (λ _, "id") (λ _, "ts") (λ _, "iso")
      quiet_callback no_steps alone subscript_error no_lists
      (connected {["bash" := 0]}) (connected_sse ∅) closing
      "prompt" names_of (Some "python") true [Prompt (JStr "hi")] "c1" no_tables
      (script_of [Terminate "done"] (Ret [tool "bash" 0])) in
  result = (Ret tt, result.1.2, result.2)
  ∧ ¬ ("c1" ∈ active_connections result.1.2)
  ∧ active_tasks (web result.1.2) !! "c1" = None.
Proof.
  intros result.
  assert (result = (Ret tt, result.1.2, result.2)) as Hreturns by (vm_compute; reflexivity).
  destruct (websocket_endpoint_forgets_the_client (Ext:=scripted) id (λ _, "id") (λ _, "ts")
              (λ _, "iso") quiet_callback no_steps alone subscript_error no_lists
              (connected {["bash" := 0]}) (connected_sse ∅) closing "prompt" names_of (Some "python") true
              [Prompt (JStr "hi")] "c1" no_tables
              (script_of [Terminate "done"] (Ret [tool "bash" 0])) _ _ Hreturns)
    as ((Hconn & _ & Htask & _) & _).
  split; [exact Hreturns|]. split; [exact Hconn|exact Htask].
Defined.

(** A server without an interpreter to start the capability server with. *)
Lemma websocket_endpoint_failed_initialize_witness :
  let e := script_of [] (Ret []) in
  let attempt :=
    initialize (Ext:=scripted) (connected ∅) (connected_sse ∅) "prompt" names_of
      "stdio" None None (Some ["-m"; "app.mcp.server"])
      {| connection_type := "stdio"; available_tools := false |} (MCPAgent_new e) in
  attempt = (Raise (Exception "Command is required for stdio connection"),
             attempt.1.2, attempt.2)
  ∧ ∃ r t' a',
      websocket_endpoint (Ext:=scripted) id (λ _, "id") (λ _, "ts") (λ _, "iso")
        quiet_callback no_steps alone subscript_error no_lists
        (connected ∅) (connected_sse ∅) closing
        "prompt" names_of None true [Prompt (JStr "hi")] "c1" no_tables e = (r, t', a')
      ∧ tasks_created (web t') = tasks_created (web no_tables)
      ∧ chat_messages (web t') = [].
Proof.
  intros e attempt.
  assert (attempt = (Raise (Exception "Command is required for stdio connection"),
                     attempt.1.2, attempt.2)) as Hfails by (vm_compute; reflexivity).
  split; [exact Hfails|].
  pose proof (websocket_endpoint_failed_initialize (Ext:=scripted) id (λ _, "id") (λ _, "ts")
                (λ _, "iso") quiet_callback no_steps alone subscript_error no_lists
                (connected ∅) (connected_sse ∅) closing
                "prompt" names_of None true [Prompt (JStr "hi")] "c1" no_tables e _ _ _ Hfails)
    as (r & t' & a' & Hrun & _ & Htasks & Hchat & _).
  exists r, t', a'. split; [exact Hrun|]. split; [exact Htasks|exact Hchat].
Defined.
